(** * PDF to EPUB converter: the structuring and closed-loop validation core

    A shallow embedding of [functions/main.py]: the analysis
    ([analyze_pdf]), the three-tier chapter structuring
    ([structure_chapters]), the renderer ([_build_chapter_content],
    [_escape_html]), the validator ([validate_epub]), the parameter
    adjuster ([adjust_params]) and the bounded retry loop of
    [process_epub_conversion].  The parsing engine, the recognition
    service and the container library (writing a publication, reading it
    back) are parameters.  The writes to the status record and the
    transfers of the files are outside the model.

    Conventions.
    - A Python [int] is a [Z]; a Python [float] is an IEEE-754 binary64
      value, here a [spec_float] with precision 53 and maximal exponent
      1024, whose operations are those of the standard library's
      specification of binary64 and need no axiom.
    - A Python [str] is the list of its code points ([list N]).
    - A dictionary whose keys are fixed by the program is a record; a key
      that may be absent is an [option] field.  The OCR dictionary, keyed
      by page number, is a [gmap Z]; the dictionary [seen_pages], whose
      order of insertion matters, is an association list.
    - A function that can raise returns a [result]; an exception that
      comes out of a call into the container library is a
      [LibraryError]. *)

From Stdlib Require Import ZArith NArith List Bool Lia String Ascii.
From Stdlib Require Import Permutation DecimalString.
From Stdlib Require Import Floats.
From stdpp Require Import base option list gmap.

Set Warnings "-inexact-float".

Local Open Scope Z_scope.

(** ** Results of code that may raise *)

Inductive exn : Type :=
| ValueError
| IndexError
| KeyError (key : string)
| LibraryError (message : string).

Inductive result (A : Type) : Type :=
| Ok (a : A)
| Raise (e : exn).

Arguments Ok {A} a.
Arguments Raise {A} e.

Definition rbind {A B : Type} (r : result A) (k : A -> result B) : result B :=
  match r with
  | Ok a => k a
  | Raise e => Raise e
  end.

Notation "'let*' x ':=' r 'in' k" := (rbind r (fun x => k))
  (at level 10, x name, r at level 100, k at level 200).

(** ** Binary64 arithmetic as Python uses it *)

Module PyFloat.

Definition float : Type := spec_float.

Definition prec : Z := 53.
Definition emax : Z := 1024.

(** An integer as an exact (not yet rounded) floating-point datum. *)
Definition exact (z : Z) : float :=
  match z with
  | Z0 => S754_zero false
  | Zpos p => S754_finite false p 0
  | Zneg p => S754_finite true p 0
  end.

(** [a / b] on two Python integers with [b > 0]: the quotient, rounded
    once to the nearest binary64 value.  (Where this is infinite, which
    takes an [a] of more than 300 digits, Python raises instead.) *)
Definition truediv (a : Z) (b : positive) : float :=
  SFdiv prec emax (exact a) (exact (Zpos b)).

(** A decimal literal [n / 10^k], read as the nearest binary64 value. *)
Definition lit (n : Z) (d : positive) : float := truediv n d.

Definition fmul (x y : float) : float := SFmul prec emax x y.
Definition fsub (x y : float) : float := SFsub prec emax x y.

(** [x < y], [x <= y], [x >= y], [x > y] of Python. *)
Definition flt (x y : float) : bool := SFltb x y.
Definition fle (x y : float) : bool := SFleb x y.
Definition fge (x y : float) : bool := SFleb y x.
Definition fgt (x y : float) : bool := SFltb y x.

(** [max(a, b)] and [min(a, b)]: the first argument is kept unless the
    second is strictly beyond it. *)
Definition py_max (a b : float) : float := if fgt b a then b else a.
Definition py_min (a b : float) : float := if flt b a then b else a.

(** [round(x, ndigits)] for [ndigits >= 0]: the exact value of [x] is
    rounded to the nearest multiple of [10 ** -ndigits], ties to the even
    multiple, and the result is read back as the nearest binary64 value. *)
Definition round_half_even (num den : Z) : Z :=
  let q := num / den in
  let r := num mod den in
  match Z.compare (2 * r) den with
  | Lt => q
  | Gt => q + 1
  | Eq => if Z.even q then q else q + 1
  end.

Definition py_round (x : float) (ndigits : Z) : float :=
  match x with
  | S754_finite s m e =>
      let scale := 10 ^ ndigits in
      let num := scale * Zpos m * 2 ^ Z.max e 0 in
      let den := 2 ^ Z.max (- e) 0 in
      match round_half_even num den with
      | Zpos k => SFdiv prec emax (S754_finite s k 0) (exact scale)
      | _ => S754_zero s
      end
  | _ => x
  end.

Definition round3 (x : float) : float := py_round x 3.

End PyFloat.

Import PyFloat.

(** The literals of the program. *)
Definition f_0_1 : float := lit 1 10.
Definition f_0_15 : float := lit 15 100.
Definition f_0_5 : float := lit 5 10.
Definition f_0_9 : float := lit 9 10.
Definition f_1_0 : float := lit 1 1.
Definition f_1_1 : float := lit 11 10.
Definition f_1_2 : float := lit 12 10.
Definition f_1_3 : float := lit 13 10.
Definition f_1_5 : float := lit 15 10.

(** ** Python strings *)

Module PyStr.

Definition str : Type := list N.

(** An ASCII literal as a Python string. *)
Definition of_string (s : string) : str :=
  map N_of_ascii (list_ascii_of_string s).

Definition in_ranges (rs : list (N * N)) (c : N) : bool :=
  existsb (fun r => (r.1 <=? c)%N && (c <=? r.2)%N) rs.

(** [str.isspace] on one code point; the class [\s] of [re] on [str]
    patterns is the same set. *)
Definition isspace (c : N) : bool :=
  in_ranges
    [ (0x9, 0xd); (0x1c, 0x20); (0x85, 0x85); (0xa0, 0xa0);
      (0x1680, 0x1680); (0x2000, 0x200a); (0x2028, 0x2029);
      (0x202f, 0x202f); (0x205f, 0x205f); (0x3000, 0x3000) ]%N c.

(** The class [\d] of [re] on [str] patterns: the decimal digits of every
    script (Unicode category Nd, version 14). *)
Definition isdecimal (c : N) : bool :=
  in_ranges
    [ (0x30, 0x39); (0x660, 0x669); (0x6f0, 0x6f9); (0x7c0, 0x7c9);
      (0x966, 0x96f); (0x9e6, 0x9ef); (0xa66, 0xa6f); (0xae6, 0xaef);
      (0xb66, 0xb6f); (0xbe6, 0xbef); (0xc66, 0xc6f); (0xce6, 0xcef);
      (0xd66, 0xd6f); (0xde6, 0xdef); (0xe50, 0xe59); (0xed0, 0xed9);
      (0xf20, 0xf29); (0x1040, 0x1049); (0x1090, 0x1099);
      (0x17e0, 0x17e9); (0x1810, 0x1819); (0x1946, 0x194f);
      (0x19d0, 0x19d9); (0x1a80, 0x1a89); (0x1a90, 0x1a99);
      (0x1b50, 0x1b59); (0x1bb0, 0x1bb9); (0x1c40, 0x1c49);
      (0x1c50, 0x1c59); (0xa620, 0xa629); (0xa8d0, 0xa8d9);
      (0xa900, 0xa909); (0xa9d0, 0xa9d9); (0xa9f0, 0xa9f9);
      (0xaa50, 0xaa59); (0xabf0, 0xabf9); (0xff10, 0xff19);
      (0x104a0, 0x104a9); (0x10d30, 0x10d39); (0x11066, 0x1106f);
      (0x110f0, 0x110f9); (0x11136, 0x1113f); (0x111d0, 0x111d9);
      (0x112f0, 0x112f9); (0x11450, 0x11459); (0x114d0, 0x114d9);
      (0x11650, 0x11659); (0x116c0, 0x116c9); (0x11730, 0x11739);
      (0x118e0, 0x118e9); (0x11950, 0x11959); (0x11c50, 0x11c59);
      (0x11d50, 0x11d59); (0x11da0, 0x11da9); (0x16a60, 0x16a69);
      (0x16ac0, 0x16ac9); (0x16b50, 0x16b59); (0x1d7ce, 0x1d7ff);
      (0x1e140, 0x1e149); (0x1e2f0, 0x1e2f9); (0x1e950, 0x1e959);
      (0x1fbf0, 0x1fbf9) ]%N c.

(** [len(s)] *)
Definition len {A : Type} (l : list A) : Z := Z.of_nat (length l).

(** [s.strip()] *)
Fixpoint lstrip (s : str) : str :=
  match s with
  | c :: r => if isspace c then lstrip r else s
  | [] => []
  end.

Definition rstrip (s : str) : str := rev (lstrip (rev s)).

Definition strip (s : str) : str := rstrip (lstrip s).

(** [s.split()]: the maximal runs of non-space characters.  [cur] holds
    the run being read, last character first. *)
Fixpoint split_ws (cur : str) (s : str) : list str :=
  match s with
  | [] => match cur with [] => [] | _ => [rev cur] end
  | c :: r =>
      if isspace c
      then match cur with
           | [] => split_ws [] r
           | _ => rev cur :: split_ws [] r
           end
      else split_ws (c :: cur) r
  end.

Definition split (s : str) : list str := split_ws [] s.

Fixpoint starts_with (pre s : str) : bool :=
  match pre, s with
  | [], _ => true
  | p :: pre', c :: s' => (p =? c)%N && starts_with pre' s'
  | _ :: _, [] => false
  end.

(** [s.split(sep)] for a non-empty [sep]: cut at each occurrence of [sep],
    found left to right without overlap.  [skip] counts the characters of
    an occurrence still to pass over. *)
Fixpoint split_at (sep : str) (skip : nat) (cur : str) (s : str) : list str :=
  match s with
  | [] => [rev cur]
  | c :: r =>
      match skip with
      | S k => split_at sep k cur r
      | O =>
          if starts_with sep s
          then rev cur :: split_at sep (pred (length sep)) [] r
          else split_at sep O (c :: cur) r
      end
  end.

Definition split_on (sep s : str) : list str := split_at sep O [] s.

(** [sep.join(parts)] *)
Fixpoint join (sep : str) (parts : list str) : str :=
  match parts with
  | [] => []
  | [p] => p
  | p :: rest => p ++ sep ++ join sep rest
  end.

(** [s.replace(old, new)] where [old] is one character. *)
Definition replace_char (old : N) (new : str) (s : str) : str :=
  flat_map (fun c => if (c =? old)%N then new else [c]) s.

(** [str(n)] on an integer. *)
Definition of_int (n : Z) : str :=
  of_string (NilZero.string_of_int (Z.to_int n)).

End PyStr.

Import PyStr.

(** ** The three regular expressions of the heading heuristic

    Each is used with [re.match], so it is anchored at the start. *)

Module Re.

(** A pattern letter under [re.IGNORECASE]: itself, its capital, and the
    additional code points the [re] module folds onto it (long s onto [s],
    dotted capital I and dotless i onto [i]).  Every letter of the keyword
    pattern is a small letter whose capital is 32 code points below. *)
Definition ieq (p t : N) : bool :=
  (t =? p)%N || (t =? p - 32)%N
  || ((p =? 0x73)%N && (t =? 0x17f)%N)
  || ((p =? 0x69)%N && ((t =? 0x130)%N || (t =? 0x131)%N)).

(** A pattern is a sequence of character classes, a class being the list of
    letters it admits; [match_seq] gives what follows the match. *)
Fixpoint match_seq (pat : list (list N)) (s : str) : option str :=
  match pat with
  | [] => Some s
  | cls :: pat' =>
      match s with
      | c :: s' => if existsb (fun p => ieq p c) cls then match_seq pat' s' else None
      | [] => None
      end
  end.

Definition letters (w : string) : list (list N) :=
  map (fun c => [c]) (of_string w).

(** [cap[íi]tulo|chapter|parte|part|secci[oó]n|section] *)
Definition keywords : list (list (list N)) :=
  [ letters "cap" ++ [[0xed; 0x69]%N] ++ letters "tulo";
    letters "chapter";
    letters "parte";
    letters "part";
    letters "secci" ++ [[0x6f; 0xf3]%N] ++ letters "n";
    letters "section" ].

(** [^(cap[íi]tulo|chapter|parte|part|secci[oó]n|section)\s], ignoring case:
    some alternative matches and a space character follows it. *)
Definition keyword_prefix (text : str) : bool :=
  existsb
    (fun alt =>
       match match_seq alt text with
       | Some (c :: _) => isspace c
       | _ => false
       end)
    keywords.

(** The class [[\.\)\-\s]]. *)
Definition is_delimiter (c : N) : bool :=
  (c =? 0x2e)%N || (c =? 0x29)%N || (c =? 0x2d)%N || isspace c.

(** [^C+[\.\)\-\s]] for a class [C] disjoint from the delimiters: the
    longest run of [C] is not empty and a delimiter follows it. *)
Fixpoint run_then_delimiter (cls : N -> bool) (seen : bool) (s : str) : bool :=
  match s with
  | [] => false
  | c :: r =>
      if cls c then run_then_delimiter cls true r
      else seen && is_delimiter c
  end.

(** [^\d+[\.\)\-\s]] *)
Definition decimal_prefix (text : str) : bool :=
  run_then_delimiter isdecimal false text.

(** [^[IVXLCDM]+[\.\)\-\s]] *)
Definition is_roman (c : N) : bool :=
  existsb (N.eqb c) (of_string "IVXLCDM").

Definition roman_prefix (text : str) : bool :=
  run_then_delimiter is_roman false text.

(** [re.sub(r'<[^>]+>', ' ', s)].  [tag_body s] is the length of the match
    that starts at a [<] followed by [s], counted from after the [<]: a
    non-empty run of characters other than [>] and the [>] closing it. *)
Fixpoint tag_body (n : nat) (s : str) : option nat :=
  match s with
  | [] => None
  | c :: r =>
      if (c =? 0x3e)%N
      then match n with O => None | _ => Some (S n) end
      else tag_body (S n) r
  end.

Fixpoint sub_tags (skip : nat) (s : str) : str :=
  match s with
  | [] => []
  | c :: r =>
      match skip with
      | S k => sub_tags k r
      | O =>
          if (c =? 0x3c)%N
          then match tag_body O r with
               | Some n => 0x20%N :: sub_tags n r
               | None => c :: sub_tags O r
               end
          else c :: sub_tags O r
      end
  end.

Definition strip_tags (s : str) : str := sub_tags O s.

End Re.

(** ** The data of the analysis stage *)

(** A text span as [analyze_pdf] records it.  The keys [flags] and [bbox]
    are stored but read by no later stage. *)
Module Block.
Record t : Type := mk { text : str; size : float; bold : bool }.
End Block.

Module Image.
Record t : Type := mk { data : list N; ext : option str; page : Z; index : Z }.
End Image.

Module Page.
Record t : Type := mk {
  page_num : Z;
  blocks : list Block.t;
  word_count : Z;
  is_scanned : bool;
  images : option (list Image.t)
}.
End Page.

(** An outline entry is the triple [(level, title, page_num)], the page
    counted from 1. *)
Definition toc_entry : Type := Z * str * Z.

(** The dictionary [analyze_pdf] returns.  Its keys [images],
    [scanned_pages] and [total_pages] repeat what [pages] holds. *)
Module Analysis.
Record t : Type := mk {
  pages : list Page.t;
  body_font_size : float;
  toc : list toc_entry;
  total_words : Z
}.
End Analysis.

(** ** Stage 1: the analysis *)

(** What the parsing engine gives for a page: its blocks (an image block,
    a text block with its lines of spans, or a block without lines), and
    for each image of the page what [extract_image] gives, [None] when it
    raises or returns nothing. *)
Module Span.
Record t : Type := mk { text : str; size : float; flags : Z }.
End Span.

Inductive raw_block : Type :=
| ImageBlock
| TextBlock (lines : list (list Span.t))
| OtherBlock.

Module RawPage.
Record t : Type := mk {
  blocks : list raw_block;
  images : list (option (list N * str))
}.
End RawPage.

(** [enumerate(l, start)] *)
Fixpoint enumerate {A : Type} (start : Z) (l : list A) : list (Z * A) :=
  match l with
  | [] => []
  | x :: r => (start, x) :: enumerate (start + 1) r
  end.

Definition span_blocks (span : Span.t) : list Block.t :=
  match strip (Span.text span) with
  | [] => []
  | text =>
      [Block.mk text (py_round (Span.size span) 1)
         (negb (Z.land (Span.flags span) 16 =? 0))]
  end.

Definition page_text_blocks (blocks : list raw_block) : list Block.t :=
  flat_map
    (fun block =>
       match block with
       | TextBlock lines => flat_map (flat_map span_blocks) lines
       | _ => []
       end)
    blocks.

Definition page_has_images (blocks : list raw_block) : bool :=
  existsb (fun block => match block with ImageBlock => true | _ => false end) blocks.

Definition page_images (page_num : Z) (image_list : list (option (list N * str)))
  : list Image.t :=
  flat_map
    (fun entry =>
       match entry with
       | (img_index, Some (data, ext)) => [Image.mk data (Some ext) page_num img_index]
       | (_, None) => []
       end)
    (enumerate 0 image_list).

Definition analyze_page (page_num : Z) (page : RawPage.t) : Page.t :=
  let blocks := page_text_blocks (RawPage.blocks page) in
  let page_word_count :=
    fold_left (fun n block => n + len (split (Block.text block))) blocks 0 in
  Page.mk page_num blocks page_word_count
    (page_has_images (RawPage.blocks page) && (page_word_count <? 10))
    (Some (page_images page_num (RawPage.images page))).

(** [Counter(font_sizes).most_common(1)[0][0]]: the counts in the order
    the sizes were first met, and the first size of the highest count. *)
Fixpoint count_size (size : float) (counts : list (float * Z)) : list (float * Z) :=
  match counts with
  | [] => [(size, 1)]
  | (k, n) :: r =>
      if SFeqb k size then (k, n + 1) :: r else (k, n) :: count_size size r
  end.

Definition most_common (counts : list (float * Z)) : option (float * Z) :=
  fold_left
    (fun best entry =>
       match best with
       | None => Some entry
       | Some kept => if kept.2 <? entry.2 then Some entry else best
       end)
    counts None.

Definition body_size_of (font_sizes : list float) : float :=
  match most_common (fold_left (fun counts size => count_size size counts) font_sizes []) with
  | Some (size, _) => size
  | None => lit 12 1
  end.

Definition analyze_pdf (doc : list RawPage.t) (toc : list toc_entry) : Analysis.t :=
  let pages_data := map (fun entry => analyze_page entry.1 entry.2) (enumerate 0 doc) in
  let font_sizes := flat_map (fun page => map Block.size (Page.blocks page)) pages_data in
  let total_words := fold_left (fun n page => n + Page.word_count page) pages_data 0 in
  Analysis.mk pages_data (body_size_of font_sizes) toc total_words.

(** The key [scanned_pages] of the analysis. *)
Definition scanned_pages (analysis : Analysis.t) : list Z :=
  map Page.page_num (List.filter Page.is_scanned (Analysis.pages analysis)).

(** The heuristic parameters: a dictionary read with [.get(key, default)]. *)
Module Params.
Record t : Type := mk {
  heading_threshold : option float;
  chunk_size : option Z;
  min_chapter_words : option Z
}.
End Params.

Module Boundary.
Record t : Type := mk { title : str; start_page : Z }.
End Boundary.

Module Heading.
Record t : Type := mk { title : str; page : Z; size : float }.
End Heading.

(** A chapter dictionary: [title] and [pages] from the structuring, the
    other three keys added in place by [_build_chapter_content]. *)
Module Chapter.
Record t : Type := mk {
  title : str;
  pages : list Z;
  content_html : option str;
  word_count : option Z;
  images : option (list Image.t)
}.
Definition span (title : str) (pages : list Z) : t :=
  mk title pages None None None.
End Chapter.

(** [dict.get(key, default)] *)
Definition get {A : Type} (field : option A) (default : A) : A :=
  match field with
  | Some v => v
  | None => default
  end.

(** [range(a, b)] and [range(a, b, step)] *)
Definition py_range (a b : Z) : list Z := seqZ a (b - a).

Definition py_range_step (a b step : Z) : result (list Z) :=
  if step =? 0 then Raise ValueError
  else if 0 <? step
       then Ok (map (fun k => a + k * step) (seqZ 0 ((b - a + step - 1) / step)))
       else Ok (map (fun k => a + k * step) (seqZ 0 ((a - b - step - 1) / (- step)))).

(** [l[i]], a negative index counting from the end. *)
Definition py_index {A : Type} (l : list A) (i : Z) : result A :=
  let j := if i <? 0 then len l + i else i in
  if j <? 0 then Raise IndexError
  else match nth_error l (Z.to_nat j) with
       | Some x => Ok x
       | None => Raise IndexError
       end.

(** ** Stage 3: chapter structuring *)

Inductive strategy : Type :=
| EmbeddedToc
| HeadingDetection
| PageChunk.

Definition front_matter_title : str := of_string "Portada".

(** [f"Sección {n}"] *)
Definition section_title (n : Z) : str :=
  of_string "Secci" ++ [0xf3%N] ++ of_string "n " ++ of_int n.

(** Strategy 1, the comprehension over the outline. *)
Definition chapter_boundaries (toc : list toc_entry) : list Boundary.t :=
  flat_map
    (fun e =>
       let '(level, title, page_num) := e in
       if level <=? 2 then [Boundary.mk title (page_num - 1)] else [])
    toc.

(** Strategy 1, the loop over the boundaries; [total] is [len(pages)]. *)
Fixpoint toc_chapters (total : Z) (bs : list Boundary.t) : list Chapter.t :=
  match bs with
  | [] => []
  | boundary :: rest =>
      let start := Boundary.start_page boundary in
      let end_ :=
        match rest with
        | next :: _ => Boundary.start_page next
        | [] => total
        end in
      let chapter_pages := py_range (Z.max 0 start) (Z.min end_ total) in
      match chapter_pages with
      | [] => toc_chapters total rest
      | _ => Chapter.span (Boundary.title boundary) chapter_pages
               :: toc_chapters total rest
      end
  end.

(** The front-matter step shared by strategies 1 and 2; [chapters] is not
    empty where the program runs it. *)
Definition add_front_matter (chapters : list Chapter.t) : result (list Chapter.t) :=
  let* first := py_index chapters 0 in
  let* first_page := py_index (Chapter.pages first) 0 in
  if 0 <? first_page
  then match py_range 0 first_page with
       | [] => Ok chapters
       | front_pages => Ok (Chapter.span front_matter_title front_pages :: chapters)
       end
  else Ok chapters.

(** Strategy 2, the test on one block. *)
Definition is_chapter_like (body_size : float) (text : str) (size : float) : bool :=
  Re.keyword_prefix text
  || Re.decimal_prefix text
  || Re.roman_prefix text
  || fge size (fmul body_size f_1_5).

Definition detect_block (body_size heading_min_size : float) (page_num : Z)
    (block : Block.t) : list Heading.t :=
  if fge (Block.size block) heading_min_size
     && Block.bold block
     && (len (split (Block.text block)) <=? 12)
     && (2 <? len (Block.text block))
  then
    let text := strip (Block.text block) in
    if is_chapter_like body_size text (Block.size block)
       || fge (Block.size block) heading_min_size
    then [Heading.mk text page_num (Block.size block)]
    else []
  else [].

Definition detect_headings (body_size heading_min_size : float)
    (pages : list Page.t) : list Heading.t :=
  flat_map
    (fun page_data =>
       if Page.is_scanned page_data then []
       else flat_map
              (detect_block body_size heading_min_size (Page.page_num page_data))
              (Page.blocks page_data))
    pages.

(** The dictionary [seen_pages], in insertion order. *)
Fixpoint dict_get (k : Z) (d : list (Z * Heading.t)) : option Heading.t :=
  match d with
  | [] => None
  | (k', v) :: r => if k' =? k then Some v else dict_get k r
  end.

Fixpoint dict_set (k : Z) (v : Heading.t) (d : list (Z * Heading.t))
  : list (Z * Heading.t) :=
  match d with
  | [] => [(k, v)]
  | (k', v') :: r => if k' =? k then (k, v) :: r else (k', v') :: dict_set k v r
  end.

(** One round of the loop that fills [seen_pages]. *)
Definition see (seen : list (Z * Heading.t)) (h : Heading.t) : list (Z * Heading.t) :=
  match dict_get (Heading.page h) seen with
  | None => dict_set (Heading.page h) h seen
  | Some kept =>
      if fgt (Heading.size h) (Heading.size kept)
      then dict_set (Heading.page h) h seen
      else seen
  end.

Definition seen_pages (detected_headings : list Heading.t) : list (Z * Heading.t) :=
  fold_left see detected_headings [].

(** [sorted(values, key=lambda x: x["page"])]: a stable sort. *)
Fixpoint insert_by_page (h : Heading.t) (l : list Heading.t) : list Heading.t :=
  match l with
  | [] => [h]
  | x :: r =>
      if Heading.page h <? Heading.page x then h :: l
      else x :: insert_by_page h r
  end.

Definition sorted_by_page (l : list Heading.t) : list Heading.t :=
  fold_left (fun acc h => insert_by_page h acc) l [].

(** Strategy 2, the loop over the sorted headings. *)
Fixpoint heading_chapters (total : Z) (hs : list Heading.t) : list Chapter.t :=
  match hs with
  | [] => []
  | heading :: rest =>
      let start := Heading.page heading in
      let end_ :=
        match rest with
        | next :: _ => Heading.page next
        | [] => total
        end in
      let chapter_pages := py_range start end_ in
      match chapter_pages with
      | [] => heading_chapters total rest
      | _ => Chapter.span (Heading.title heading) chapter_pages
               :: heading_chapters total rest
      end
  end.

(** One round of the loop over the chunk starts. *)
Definition add_chunk (total chunk_size : Z) (chapters : list Chapter.t) (i : Z)
  : list Chapter.t :=
  chapters ++ [Chapter.span (section_title (len chapters + 1))
                 (py_range i (Z.min (i + chunk_size) total))].

(** Strategy 3, the loop over [range(0, total, chunk_size)]. *)
Definition chunk_chapters (total chunk_size : Z) : result (list Chapter.t) :=
  let* starts := py_range_step 0 total chunk_size in
  Ok (fold_left (add_chunk total chunk_size) starts []).

(** The three-tier choice of [structure_chapters], up to the call of
    [_build_chapter_content]: the chapters, tagged with the strategy whose
    [return] was reached.  The list [chapters] of the program is empty
    whenever a strategy is left without returning, so each strategy starts
    from the empty list. *)
Definition structure_spans (analysis : Analysis.t) (params : Params.t)
  : strategy * result (list Chapter.t) :=
  let pages := Analysis.pages analysis in
  let toc := Analysis.toc analysis in
  let body_size := Analysis.body_font_size analysis in
  let heading_threshold := get (Params.heading_threshold params) f_1_3 in
  let chunk_size := get (Params.chunk_size params) 15 in
  let min_chapter_words := get (Params.min_chapter_words params) 100 in
  let by_toc :=
    if 2 <=? len toc
    then toc_chapters (len pages) (chapter_boundaries toc)
    else [] in
  match by_toc with
  | _ :: _ => (EmbeddedToc, add_front_matter by_toc)
  | [] =>
      let heading_min_size := fmul body_size heading_threshold in
      let detected_headings := detect_headings body_size heading_min_size pages in
      let by_heading :=
        if 2 <=? len detected_headings
        then heading_chapters (len pages)
               (sorted_by_page (map snd (seen_pages detected_headings)))
        else [] in
      match by_heading with
      | _ :: _ => (HeadingDetection, add_front_matter by_heading)
      | [] => (PageChunk, chunk_chapters (len pages) chunk_size)
      end
  end.

(** ** The renderer *)

Definition _escape_html (text : str) : str :=
  replace_char 0x22 (of_string "&quot;")
    (replace_char 0x3e (of_string "&gt;")
       (replace_char 0x3c (of_string "&lt;")
          (replace_char 0x26 (of_string "&amp;") text))).

Definition tagged (open_ : string) (text : str) (close : string) : str :=
  of_string open_ ++ _escape_html text ++ of_string close.

(** The paragraphs of the recognised text of a scanned page: the markup
    parts and the words they add. *)
Definition render_ocr (ocr_text : str) : list str * Z :=
  fold_left
    (fun acc p =>
       let p := strip p in
       match p with
       | [] => acc
       | _ => (acc.1 ++ [tagged "<p>" p "</p>"], acc.2 + len (split p))
       end)
    (split_on [0xa; 0xa]%N ocr_text) ([], 0).

Definition render_block (body_size : float) (block : Block.t) : str :=
  let text := Block.text block in
  let size := Block.size block in
  if fge size (fmul body_size f_1_5) then tagged "<h2>" text "</h2>"
  else if fge size (fmul body_size f_1_2) then tagged "<h3>" text "</h3>"
  else if Block.bold block then tagged "<p><strong>" text "</strong></p>"
  else tagged "<p>" text "</p>".

Definition render_blocks (body_size : float) (blocks : list Block.t) : list str * Z :=
  fold_left
    (fun acc block =>
       (acc.1 ++ [render_block body_size block],
        acc.2 + len (split (Block.text block))))
    blocks ([], 0).

(** The state of the loop over the pages of one chapter. *)
Record page_acc : Type := mk_acc {
  html_parts : list str;
  chapter_word_count : Z;
  chapter_images : list Image.t
}.

Definition render_page (pages : list Page.t) (ocr_results : gmap Z str)
    (body_size : float) (acc : page_acc) (page_num : Z) : result page_acc :=
  if len pages <=? page_num then Ok acc
  else
    let* page_data := py_index pages page_num in
    let '(parts, words) :=
      match Page.is_scanned page_data, ocr_results !! page_num with
      | true, Some ocr_text =>
          match ocr_text with
          | [] => ([], 0)
          | _ => render_ocr ocr_text
          end
      | _, _ => render_blocks body_size (Page.blocks page_data)
      end in
    Ok (mk_acc (html_parts acc ++ parts)
               (chapter_word_count acc + words)
               (chapter_images acc ++ get (Page.images page_data) [])).

Fixpoint render_pages (pages : list Page.t) (ocr_results : gmap Z str)
    (body_size : float) (acc : page_acc) (page_nums : list Z) : result page_acc :=
  match page_nums with
  | [] => Ok acc
  | page_num :: rest =>
      let* acc' := render_page pages ocr_results body_size acc page_num in
      render_pages pages ocr_results body_size acc' rest
  end.

Definition build_chapter (pages : list Page.t) (ocr_results : gmap Z str)
    (analysis : Analysis.t) (chapter : Chapter.t) : result Chapter.t :=
  let* acc := render_pages pages ocr_results (Analysis.body_font_size analysis)
                (mk_acc [] 0 []) (Chapter.pages chapter) in
  Ok (Chapter.mk (Chapter.title chapter) (Chapter.pages chapter)
        (Some (join [0xa%N] (html_parts acc)))
        (Some (chapter_word_count acc))
        (Some (chapter_images acc))).

Fixpoint _build_chapter_content (chapters : list Chapter.t) (pages : list Page.t)
    (ocr_results : gmap Z str) (analysis : Analysis.t) : result (list Chapter.t) :=
  match chapters with
  | [] => Ok []
  | chapter :: rest =>
      let* built := build_chapter pages ocr_results analysis chapter in
      let* others := _build_chapter_content rest pages ocr_results analysis in
      Ok (built :: others)
  end.

Definition structure_chapters (analysis : Analysis.t) (ocr_results : gmap Z str)
    (params : Params.t) : result (list Chapter.t) :=
  let* chapters := (structure_spans analysis params).2 in
  _build_chapter_content chapters (Analysis.pages analysis) ocr_results analysis.

(** ** Stage 4: what [build_epub] hands to the container writer *)

(** A literal of the program that contains double quotes, written here
    with a single quote in the place of each double quote. *)
Definition quoted (s : string) : str :=
  map (fun c => if (c =? 0x27)%N then 0x22%N else c) (of_string s).

Definition image_file_name (image_counter : Z) (ext : str) : str :=
  of_string "images/img_" ++ of_int image_counter ++ of_string "." ++ ext.

Definition image_tag (ref : str) : str :=
  quoted "<img src='" ++ ref ++ quoted "' alt='Image'/>".

Definition chapter_html (title content_html images_html : str) : str :=
  join [0xa%N]
    [ quoted "<?xml version='1.0' encoding='utf-8'?>";
      quoted "<html xmlns='http://www.w3.org/1999/xhtml'>";
      of_string "<head>";
      of_string "  <title>" ++ _escape_html title ++ of_string "</title>";
      quoted "  <link rel='stylesheet' href='style/main.css' type='text/css'/>";
      of_string "</head>";
      of_string "<body>";
      quoted "  <div class='chapter-title'><h1>" ++ _escape_html title
        ++ of_string "</h1></div>";
      of_string "  " ++ content_html;
      of_string "  " ++ images_html;
      of_string "</body>";
      of_string "</html>" ].

(** One round of the loop over the chapters: the document of the chapter
    and the image counter after it. *)
Definition build_document (image_counter : Z) (chapter : Chapter.t)
  : result (str * Z) :=
  let imgs := get (Chapter.images chapter) [] in
  let image_refs :=
    (fold_left
       (fun acc img =>
          let counter := acc.2 + 1 in
          (acc.1 ++ [image_file_name counter (get (Image.ext img) (of_string "png"))],
           counter))
       imgs ([], image_counter)) in
  let images_html := join [0xa%N] (map image_tag image_refs.1) in
  match Chapter.content_html chapter with
  | None => Raise (KeyError "content_html")
  | Some content =>
      Ok (chapter_html (Chapter.title chapter) content images_html, image_refs.2)
  end.

Fixpoint build_documents (image_counter : Z) (chapters : list Chapter.t)
  : result (list str * Z) :=
  match chapters with
  | [] => Ok ([], image_counter)
  | chapter :: rest =>
      let* doc := build_document image_counter chapter in
      let* docs := build_documents doc.2 rest in
      Ok (doc.1 :: docs.1, docs.2)
  end.

(** The chapter documents, and the pair [build_epub] returns.  The book
    is put together in memory and then handed to [epub.write_epub], the
    last statement before the [return]; [write_epub] is that call on the
    chapter documents of the book: it returns, or it raises. *)
Definition build_epub (write_epub : list str -> result unit)
    (chapters : list Chapter.t) : result (list str * (Z * Z)) :=
  let* docs := build_documents 0 chapters in
  let* _ := write_epub docs.1 in
  Ok (docs.1, (len docs.1, docs.2)).

(** ** Stage 5: validation *)

Inductive num : Type :=
| Int (z : Z)
| Float (f : float).

Module Report.
Record t : Type := mk {
  passed : bool;
  error : option str;
  word_ratio : option num;
  source_words : option Z;
  epub_words : option Z;
  chapters : Z;
  images : Z;
  empty_chapters : option bool;
  failure_mode : option string
}.
End Report.

(** What reading the written publication back gives: the decoded text of
    every XHTML document item, or the exception raised on the way. *)
Inductive readback : Type :=
| ReadItems (contents : list str)
| ReadFailed (message : str).

Definition count_words (contents : list str) : Z :=
  fold_left (fun epub_word_count content =>
               epub_word_count + len (split (Re.strip_tags content)))
    contents 0.

(** The local [word_ratio] of [validate_epub]. *)
Definition word_ratio (epub_word_count source_words : Z) : float :=
  match source_words with
  | Zpos s => py_min (truediv epub_word_count s) f_1_0
  | _ => if epub_word_count =? 0 then f_1_0 else f_0_5
  end.

Definition failure_of (word_ratio : float) : string :=
  if flt word_ratio f_0_5 then "severe_word_loss"
  else if flt word_ratio f_0_9 then "moderate_word_loss"
  else "minor".

Definition validate_epub (epub : readback) (source_analysis : Analysis.t)
    (chapter_count_expected image_count_expected : Z) : Report.t :=
  match epub with
  | ReadFailed e =>
      Report.mk false
        (Some (of_string "Could not read EPUB for validation: " ++ e))
        (Some (Int 0)) None None chapter_count_expected image_count_expected
        None None
  | ReadItems contents =>
      let epub_word_count := count_words contents in
      let source_words := Analysis.total_words source_analysis in
      let word_ratio := word_ratio epub_word_count source_words in
      let passed := fge word_ratio f_0_9 in
      Report.mk passed None (Some (Float (round3 word_ratio)))
        (Some source_words) (Some epub_word_count)
        chapter_count_expected image_count_expected (Some false)
        (if negb passed then Some (failure_of word_ratio) else None)
  end.

Definition adjust_params (current_params : Params.t) (validation_report : Report.t)
  : Params.t :=
  let new_params := current_params in
  let failure := get (Report.failure_mode validation_report) "minor"%string in
  if String.eqb failure "severe_word_loss" then
    Params.mk
      (Some (py_max f_1_1
               (fsub (get (Params.heading_threshold current_params) f_1_3) f_0_15)))
      (Some (Z.min 30 (get (Params.chunk_size current_params) 15 + 10)))
      (Some (Z.max 25 (get (Params.min_chapter_words current_params) 100 - 50)))
  else if String.eqb failure "moderate_word_loss" then
    Params.mk
      (Some (py_max f_1_1
               (fsub (get (Params.heading_threshold current_params) f_1_3) f_0_1)))
      (Some (Z.min 25 (get (Params.chunk_size current_params) 15 + 5)))
      (Some (Z.max 50 (get (Params.min_chapter_words current_params) 100 - 25)))
  else new_params.

(** ** The closed loop of [process_epub_conversion] *)

Definition MAX_ITERATIONS : Z := 3.

Definition initial_params : Params.t :=
  Params.mk (Some f_1_3) (Some 15) (Some 100).

(** How the [for] loop was left: by its [break], or by running out of
    iterations. *)
Inductive loop_exit : Type :=
| Passed
| Exhausted.

(** The variables alive after the loop.  [reports] is the history of the
    reports, oldest first; the program itself keeps the last one only, in
    [best_result]. *)
Record loop_state : Type := mk_loop {
  exit : loop_exit;
  params_after : Params.t;
  best_result : option Report.t;
  reports : list Report.t
}.

Module Quality.
Record t : Type := mk {
  wordRatio : num;
  sourceWords : Z;
  epubWords : Z;
  chapters : Z;
  images : Z;
  passed : bool
}.
End Quality.

Inductive status : Type :=
| Completed (qualityReport : Quality.t)
| Error (e : exn).

(** [d[key]] on a key that may be absent. *)
Definition item {A : Type} (key : string) (field : option A) : result A :=
  match field with
  | Some v => Ok v
  | None => Raise (KeyError key)
  end.

(** The [qualityReport] entry of the final update; the entries are
    evaluated in the order they are written. *)
Definition quality_report (best_result : option Report.t) : result Quality.t :=
  match best_result with
  | None => Ok (Quality.mk (Int 0) 0 0 0 0 false)
  | Some r =>
      let* wordRatio := item "word_ratio" (Report.word_ratio r) in
      let* sourceWords := item "source_words" (Report.source_words r) in
      let* epubWords := item "epub_words" (Report.epub_words r) in
      Ok (Quality.mk wordRatio sourceWords epubWords
            (Report.chapters r) (Report.images r) (Report.passed r))
  end.

Section Controller.

(** The analysis and the OCR dictionary as they stand when the loop
    starts, and the container library: what writing the documents of
    iteration [i] does, and what reading them back gives after they were
    written. *)
Variable analysis : Analysis.t.
Variable ocr_results : gmap Z str.
Variable epub_write : Z -> list str -> result unit.
Variable epub_io : Z -> list str -> readback.

(** Stages 3 to 5 of one iteration. *)
Definition attempt (iteration : Z) (params : Params.t) : result Report.t :=
  let* chapters := structure_chapters analysis ocr_results params in
  let* built := build_epub (epub_write iteration) chapters in
  let '(documents, (chapter_count, image_count)) := built in
  Ok (validate_epub (epub_io iteration documents) analysis chapter_count image_count).

Fixpoint iterate (iterations : list Z) (params : Params.t)
    (best_result : option Report.t) (reports : list Report.t) : result loop_state :=
  match iterations with
  | [] => Ok (mk_loop Exhausted params best_result reports)
  | iteration :: rest =>
      let* report := attempt iteration params in
      if Report.passed report
      then Ok (mk_loop Passed params (Some report) (reports ++ [report]))
      else
        let params' :=
          if iteration <? MAX_ITERATIONS then adjust_params params report
          else params in
        iterate rest params' (Some report) (reports ++ [report])
  end.

Definition closed_loop : result loop_state :=
  iterate (py_range 1 (MAX_ITERATIONS + 1)) initial_params None [].

(** The status record the invocation ends with, a fault of stages 3 to 5
    or of the final update being caught at the top level. *)
Definition final_status : status :=
  match (let* final := closed_loop in quality_report (best_result final)) with
  | Ok qualityReport => Completed qualityReport
  | Raise e => Error e
  end.

End Controller.

(** Stage 2 as the orchestrator runs it: the recognition service is asked
    for the scanned pages, if there are any, and the words of its texts
    are added to [total_words]. *)
Definition merge_ocr_words (analysis : Analysis.t) (ocr_results : gmap Z str)
  : Analysis.t :=
  Analysis.mk (Analysis.pages analysis) (Analysis.body_font_size analysis)
    (Analysis.toc analysis)
    (map_fold
       (fun (_ : Z) (text : str) total_words =>
          match text with
          | [] => total_words
          | _ => total_words + len (split text)
          end)
       (Analysis.total_words analysis) ocr_results).

Definition stage_2 (ocr_scanned_pages : list Z -> gmap Z str) (analysis : Analysis.t)
  : Analysis.t * gmap Z str :=
  match scanned_pages analysis with
  | [] => (analysis, ∅)
  | scanned =>
      let ocr_results := ocr_scanned_pages scanned in
      (merge_ocr_words analysis ocr_results, ocr_results)
  end.

(** The invocation on an uploaded document: the pages and the outline the
    parsing engine gives, the recognition service, the container
    library. *)
Definition process_epub_conversion (doc : list RawPage.t) (toc : list toc_entry)
    (ocr_scanned_pages : list Z -> gmap Z str)
    (epub_write : Z -> list str -> result unit)
    (epub_io : Z -> list str -> readback) : status :=
  let '(analysis, ocr_results) := stage_2 ocr_scanned_pages (analyze_pdf doc toc) in
  final_status analysis ocr_results epub_write epub_io.

(** * The vocabulary of the statements *)

(** The page numbers [analyze_pdf] gives: the position in the list. *)
Definition well_numbered (pages : list Page.t) : Prop :=
  forall i page_data,
    nth_error pages i = Some page_data -> Page.page_num page_data = Z.of_nat i.

(** A chapter's pages are consecutive; the chapters cover [0, total), each
    page once. *)
Definition contiguous (page_nums : list Z) : Prop :=
  exists a b, page_nums = py_range a b.

Definition all_pages (chapters : list Chapter.t) : list Z :=
  concat (map Chapter.pages chapters).

Definition exact_cover (total : Z) (chapters : list Chapter.t) : Prop :=
  Forall (fun c => contiguous (Chapter.pages c)) chapters
  /\ Permutation (all_pages chapters) (py_range 0 total).

(** What every strategy maintains of the chapters it builds. *)
Definition sound_chapter (c : Chapter.t) : Prop :=
  Chapter.pages c <> [] /\ contiguous (Chapter.pages c)
  /\ Forall (fun x => 0 <= x) (Chapter.pages c).

Fixpoint ascending (l : list Z) : Prop :=
  match l with
  | a :: (b :: _) as r => a <= b /\ ascending r
  | _ => True
  end.

(** The outline lists its entries of level 1 and 2 in page order. *)
Definition toc_in_page_order (toc : list toc_entry) : Prop :=
  ascending (map Boundary.start_page (chapter_boundaries toc)).

(** A page number brought into [0, total]. *)
Definition clamp (total x : Z) : Z := Z.max 0 (Z.min x total).

(** Some boundary starts a range of pages that is not empty. *)
Fixpoint spans_a_page (total : Z) (bs : list Boundary.t) : Prop :=
  match bs with
  | [] => False
  | b :: rest =>
      Z.max 0 (Boundary.start_page b)
      < Z.min (match rest with
               | next :: _ => Boundary.start_page next
               | [] => total
               end) total
      \/ spans_a_page total rest
  end.

(** The four tests on size, weight and length of a block. *)
Definition heading_shaped (heading_min_size : float) (block : Block.t) : bool :=
  fge (Block.size block) heading_min_size
  && Block.bold block
  && (len (split (Block.text block)) <=? 12)
  && (2 <? len (Block.text block)).

(** A datum that is not NaN and not negative. *)
Definition nonneg (x : float) : Prop :=
  match x with
  | S754_zero s | S754_infinity s | S754_finite s _ _ => s = false
  | S754_nan => False
  end.

(** The entity of one character. *)
Definition entity (c : N) : str :=
  if (c =? 0x26)%N then of_string "&amp;"
  else if (c =? 0x3c)%N then of_string "&lt;"
  else if (c =? 0x3e)%N then of_string "&gt;"
  else if (c =? 0x22)%N then of_string "&quot;"
  else [c].

(** Reading entities back.  [skip] counts the characters of an entity
    still to pass over. *)
Fixpoint unescape (skip : nat) (s : str) : str :=
  match s with
  | [] => []
  | c :: r =>
      match skip with
      | S k => unescape k r
      | O =>
          if (c =? 0x26)%N then
            if starts_with (of_string "amp;") r then 0x26%N :: unescape 4 r
            else if starts_with (of_string "lt;") r then 0x3c%N :: unescape 3 r
            else if starts_with (of_string "gt;") r then 0x3e%N :: unescape 3 r
            else if starts_with (of_string "quot;") r then 0x22%N :: unescape 5 r
            else c :: unescape O r
          else c :: unescape O r
      end
  end.


(** The chunk size the loop works with: present, and at least 15. *)
Definition chunk_ok (params : Params.t) : Prop :=
  exists c, Params.chunk_size params = Some c /\ 15 <= c.

Definition failed (r : Report.t) : Prop := Report.passed r = false.

(** A document of [n] pages without text, and its outline. *)
Definition blank_pages (n : Z) : list Page.t :=
  map (fun i => Page.mk i [] 0 false (Some [])) (seqZ 0 n).

Definition outlined (n : Z) (toc : list toc_entry) : Analysis.t :=
  Analysis.mk (blank_pages n) (exact 12) toc 0.

(** The sum of a list of integers. *)
Definition zsum (l : list Z) : Z := fold_right Z.add 0 l.

(** The words of a text, as [len(text.split())] counts them. *)
Definition words (text : str) : Z := len (split text).

(** A chapter whose pages are a non-empty run of consecutive indices of
    the document. *)
Definition valid_chapter (total : Z) (c : Chapter.t) : Prop :=
  Chapter.pages c <> [] /\ contiguous (Chapter.pages c)
  /\ Forall (fun x => 0 <= x < total) (Chapter.pages c).

Fixpoint strictly_ascending (l : list Z) : Prop :=
  match l with
  | a :: (b :: _) as r => a < b /\ strictly_ascending r
  | _ => True
  end.

(** The first page of each chapter. *)
Definition chapter_starts (chapters : list Chapter.t) : list Z :=
  flat_map (fun c => match Chapter.pages c with
                     | first :: _ => [first]
                     | [] => []
                     end) chapters.

(** The number of words that start in [s]; [inword] tells whether the
    character before [s] belongs to a word. *)
Fixpoint count_runs (inword : bool) (s : str) : Z :=
  match s with
  | [] => 0
  | c :: r =>
      if isspace c then count_runs false r
      else (if inword then 0 else 1) + count_runs true r
  end.

(** A part of the markup of a chapter, as the word count of the
    validation reads it: whatever comes before and after, it adds [n]
    words and leaves the reading between two words. *)
Definition adds_words (part : str) (n : Z) : Prop :=
  forall b rest,
    count_runs b (Re.sub_tags O (part ++ rest))
    = n + count_runs false (Re.sub_tags O rest).

(** The markup parts with the words each adds. *)
Definition parts_add (parts : list str) (n : Z) : Prop :=
  exists ns, Forall2 adds_words parts ns /\ n = zsum ns.

(** Attempt [k], run with [params], gives the report [r]: the chapters
    are structured and rendered, their documents are built, the container
    library writes them without raising, and [r] is the validation of what
    it reads back. *)
Definition attempt_gives (analysis : Analysis.t) (ocr_results : gmap Z str)
    (epub_write : Z -> list str -> result unit)
    (epub_io : Z -> list str -> readback)
    (k : Z) (params : Params.t) (r : Report.t) : Prop :=
  exists chapters documents image_count,
    structure_chapters analysis ocr_results params = Ok chapters
    /\ build_documents 0 chapters = Ok (documents, image_count)
    /\ epub_write k documents = Ok tt
    /\ r = validate_epub (epub_io k documents) analysis (len chapters) image_count.

(** Attempt [k], run with [params], is left by the exception [e], which
    the container library raises on writing the documents. *)
Definition attempt_raises (analysis : Analysis.t) (ocr_results : gmap Z str)
    (epub_write : Z -> list str -> result unit)
    (k : Z) (params : Params.t) (e : exn) : Prop :=
  exists chapters documents image_count,
    structure_chapters analysis ocr_results params = Ok chapters
    /\ build_documents 0 chapters = Ok (documents, image_count)
    /\ epub_write k documents = Raise e.

(** The reports [rs] are those of the attempts 1, 2, ... in a row: each
    is what its attempt gives, run with the initial parameters adjusted by
    every report before it. *)
Definition reports_of_attempts (analysis : Analysis.t) (ocr_results : gmap Z str)
    (epub_write : Z -> list str -> result unit)
    (epub_io : Z -> list str -> readback)
    (rs : list Report.t) : Prop :=
  forall before r after,
    rs = before ++ r :: after ->
    attempt_gives analysis ocr_results epub_write epub_io
      (len before + 1) (fold_left adjust_params before initial_params) r.

(** The spans of the text blocks of a page, in reading order. *)
Definition page_spans (page : RawPage.t) : list Span.t :=
  flat_map
    (fun block =>
       match block with
       | TextBlock lines => concat lines
       | _ => []
       end)
    (RawPage.blocks page).











(** * Checks of the embedding against the machine *)

(** The embedding's literals and operations agree with the machine's. *)
Example lit_bits :
  f_1_3 = Prim2SF 1.3%float /\ f_0_9 = Prim2SF 0.9%float /\
  f_1_1 = Prim2SF 1.1%float /\ f_0_15 = Prim2SF 0.15%float /\
  f_0_1 = Prim2SF 0.1%float /\ f_1_5 = Prim2SF 1.5%float /\
  f_1_2 = Prim2SF 1.2%float /\ f_0_5 = Prim2SF 0.5%float /\
  f_1_0 = Prim2SF 1%float.
Proof. vm_compute. repeat split. Qed.

Example truediv_third : truediv 1 3 = S754_finite false 6004799503160661 (-54).
Proof. reflexivity. Qed.

Example round3_third :
  round3 (truediv 1 3) = S754_finite false 5998794703657501 (-54).
Proof. reflexivity. Qed.

Example round3_ties :
  round3 (lit 5 10000) = lit 1 1000 /\
  round3 (lit 8995 10000) = lit 899 1000 /\
  round3 (lit 25 100000) = S754_zero false.
Proof. vm_compute. repeat split. Qed.

Example sub_bits :
  fsub f_1_3 f_0_15 = Prim2SF (1.3 - 0.15)%float /\
  fsub f_1_3 f_0_1 = Prim2SF (1.3 - 0.1)%float /\
  fmul (exact 12) f_1_3 = Prim2SF (12 * 1.3)%float.
Proof. vm_compute. repeat split. Qed.

(** * Facts about the binary64 operations *)

Lemma shr_1_nonneg mrs : 0 <= shr_m mrs -> 0 <= shr_m (shr_1 mrs).
Proof.
  destruct mrs as [m r s]; simpl.
  destruct m as [|p|p]; simpl; try lia; destruct p; simpl; lia.
Qed.

Lemma iter_pos_nonneg (p : positive) : forall mrs,
  0 <= shr_m mrs -> 0 <= shr_m (SpecFloat.iter_pos shr_1 p mrs).
Proof.
  induction p as [p IH|p IH|]; intros mrs H; simpl.
  - apply IH, IH, shr_1_nonneg, H.
  - apply IH, IH, H.
  - apply shr_1_nonneg, H.
Qed.

Lemma shr_fexp_nonneg m e l :
  0 <= m -> 0 <= shr_m (shr_fexp prec emax m e l).1.
Proof.
  intros H. unfold shr_fexp, shr.
  assert (H0 : 0 <= shr_m (shr_record_of_loc m l)).
  { destruct l as [|[]]; simpl; exact H. }
  destruct (fexp prec emax (Zdigits2 m + e) - e) as [|p|p]; simpl; auto.
  apply iter_pos_nonneg, H0.
Qed.

Lemma round_nearest_even_nonneg m l : 0 <= m -> 0 <= round_nearest_even m l.
Proof.
  intros H. destruct l as [|[]]; simpl; try lia.
  destruct (Z.even m); lia.
Qed.

Lemma binary_round_aux_nonneg m e l :
  0 <= m -> nonneg (binary_round_aux prec emax false m e l).
Proof.
  intros H. unfold binary_round_aux.
  pose proof (shr_fexp_nonneg m e l H) as H1.
  destruct (shr_fexp prec emax m e l) as [mrs' e']. simpl in H1.
  pose proof (shr_fexp_nonneg _ e' loc_Exact
                (round_nearest_even_nonneg _ (loc_of_shr_record mrs') H1)) as H2.
  destruct (shr_fexp prec emax _ e' loc_Exact) as [mrs'' e'']. simpl in H2.
  destruct (shr_m mrs'') as [|p|p]; simpl; try reflexivity; try lia.
  destruct (e'' <=? emax - prec); reflexivity.
Qed.

Lemma truediv_nonneg a b : 0 <= a -> nonneg (truediv a b).
Proof.
  intros H. unfold truediv, exact.
  destruct a as [|p|p]; try lia; [reflexivity|].
  unfold SFdiv, SFdiv_core_binary.
  set (m' := match _ - _ - _ with Z0 => _ | Zpos _ => _ | Zneg _ => _ end).
  assert (Hm : 0 <= m').
  { subst m'. destruct (_ - _ - _); try lia. apply Z.shiftl_nonneg. lia. }
  pose proof (Z_div_mod m' (Zpos b) eq_refl) as Hd.
  destruct (Z.div_eucl m' (Zpos b)) as [q r].
  apply binary_round_aux_nonneg. nia.
Qed.

Lemma fle_zero_nonneg x : nonneg x -> fle (S754_zero false) x = true.
Proof. destruct x as [s|s| |s m e]; simpl; intros H; subst; easy. Qed.

(** Comparison is antisymmetric wherever it is defined. *)
Lemma SFcompare_antisym x y c :
  SFcompare x y = Some c -> SFcompare y x = Some (CompOpp c).
Proof.
  destruct x as [sx|sx| |sx mx ex], y as [sy|sy| |sy my ey]; simpl;
    try discriminate; intros [= <-];
    try (destruct sx; reflexivity); try (destruct sy; reflexivity);
    try (destruct sx, sy; reflexivity).
  destruct sx, sy; simpl; try reflexivity;
    rewrite (Z.compare_antisym ex ey);
    destruct (ex ?= ey); simpl; try reflexivity;
    repeat f_equal; symmetry; exact (Pos.compare_cont_antisym mx my Eq).
Qed.

Lemma not_flt_fle x y : nonneg x -> nonneg y -> flt x y = false -> fle y x = true.
Proof.
  unfold flt, fle, SFltb, SFleb. intros Hx Hy H.
  destruct (SFcompare x y) as [c|] eqn:E.
  - rewrite (SFcompare_antisym _ _ _ E). destruct c; easy.
  - destruct x as [sx|sx| |sx mx ex], y as [sy|sy| |sy my ey];
      simpl in *; try discriminate; contradiction.
Qed.

Lemma nonneg_one : nonneg f_1_0.
Proof. reflexivity. Qed.

(** [min(x, 1.0)] of a datum that is neither NaN nor negative lies
    between 0 and 1. *)
Lemma py_min_one_bounds x :
  nonneg x ->
  fle (S754_zero false) (py_min x f_1_0) = true /\ fle (py_min x f_1_0) f_1_0 = true.
Proof.
  intros Hx. unfold py_min.
  destruct (flt f_1_0 x) eqn:E.
  - split; reflexivity.
  - split; [apply fle_zero_nonneg, Hx|].
    apply not_flt_fle; [exact nonneg_one | exact Hx | exact E].
Qed.

(** * The validator *)

Lemma count_words_from acc contents :
  fold_left (fun n content => n + len (split (Re.strip_tags content))) contents acc
  = acc + count_words contents.
Proof.
  revert acc.
  induction contents as [|c cs IH]; intros acc; [unfold count_words; simpl; lia|].
  unfold count_words. simpl. rewrite IH, (IH (0 + _)). lia.
Qed.

Lemma count_words_nonneg contents : 0 <= count_words contents.
Proof.
  induction contents as [|c cs IH]; [easy|].
  unfold count_words. simpl. rewrite count_words_from.
  assert (0 <= len (split (Re.strip_tags c))) by (unfold len; lia).
  lia.
Qed.

Lemma word_ratio_nonneg r s : 0 <= r -> nonneg (word_ratio r s).
Proof.
  intros Hr. unfold word_ratio.
  destruct s as [|p|p]; try (destruct (r =? 0); reflexivity).
  unfold py_min. destruct (flt f_1_0 (truediv r p)); [reflexivity|].
  apply truediv_nonneg, Hr.
Qed.

(** C4, as the program has it.  When the publication is readable, with
    [q] the ratio the validator computes (the quotient of the rendered by
    the source word count capped at 1.0 when the source has words, else 1.0
    or 0.5): [q] lies in [0, 1]; the verdict [passed] is [q >= 0.90] and
    the failure mode is read off [q]; the [word_ratio] stored in the report
    is [q] rounded to three decimals. *)
Theorem validate_epub_readable contents a chapter_count image_count :
  let r := count_words contents in
  let s := Analysis.total_words a in
  let q := word_ratio r s in
  let report := validate_epub (ReadItems contents) a chapter_count image_count in
  (0 < s -> q = py_min (truediv r (Z.to_pos s)) f_1_0
            /\ fle (S754_zero false) q = true /\ fle q f_1_0 = true)
  /\ (s = 0 -> q = if r =? 0 then f_1_0 else f_0_5)
  /\ Report.word_ratio report = Some (Float (round3 q))
  /\ Report.passed report = fge q f_0_9
  /\ Report.failure_mode report
     = (if Report.passed report then None
        else Some (if flt q f_0_5 then "severe_word_loss"
                   else if flt q f_0_9 then "moderate_word_loss"
                   else "minor")%string)
  /\ Report.source_words report = Some s
  /\ Report.epub_words report = Some r.
Proof.
  intros r s q report. repeat split.
  - subst q. destruct s as [|p|p]; try lia. reflexivity.
  - subst q. unfold word_ratio. destruct s as [|p|p]; try lia.
    apply py_min_one_bounds, truediv_nonneg, count_words_nonneg.
  - subst q. unfold word_ratio. destruct s as [|p|p]; try lia.
    apply py_min_one_bounds, truediv_nonneg, count_words_nonneg.
  - intros Hs. subst q. unfold word_ratio. rewrite Hs. reflexivity.
  - subst report. simpl. fold r s q.
    destruct (fge q f_0_9); reflexivity.
Qed.

(** C4 as the specification words it fails on the report: for 188
    rendered words against 209 source words the stored [word_ratio] is
    0.9, which is [>= 0.90], and yet [passed] is false and the failure
    mode is [moderate_word_loss]; and the stored value is not the capped
    quotient. *)
Lemma validate_epub_rounds_the_stored_ratio :
  let report :=
    validate_epub (ReadItems (repeat (of_string "w") 188))
      (Analysis.mk [] f_1_0 [] 209) 1 0 in
  Report.source_words report = Some 209
  /\ Report.epub_words report = Some 188
  /\ Report.word_ratio report = Some (Float f_0_9)
  /\ fge f_0_9 f_0_9 = true
  /\ Report.passed report = false
  /\ Report.failure_mode report = Some "moderate_word_loss"%string
  /\ Report.word_ratio report <> Some (Float (py_min (truediv 188 209) f_1_0)).
Proof.
  vm_compute. repeat split; discriminate.
Qed.

(** * The heading heuristic *)

(** A block gives a candidate exactly when it is heading-shaped. *)
Lemma detect_block_in body_size heading_min_size page_num block h :
  In h (detect_block body_size heading_min_size page_num block)
  <-> heading_shaped heading_min_size block = true
      /\ h = Heading.mk (strip (Block.text block)) page_num (Block.size block).
Proof.
  unfold detect_block, heading_shaped.
  destruct (fge (Block.size block) heading_min_size) eqn:Hsize; simpl.
  - rewrite orb_true_r.
    destruct (Block.bold block && _ && _) eqn:Hrest; simpl.
    + split; [intros [<-|[]]; auto | intros [_ ->]; auto].
    + split; [intros [] | intros [H _]; discriminate].
  - split; [intros [] | intros [H _]; discriminate].
Qed.

(** The candidates of a document are exactly the heading-shaped blocks of
    its pages that are not scanned. *)
Lemma detect_headings_in body_size heading_min_size pages h :
  In h (detect_headings body_size heading_min_size pages)
  <-> exists page_data block,
        In page_data pages /\ Page.is_scanned page_data = false
        /\ In block (Page.blocks page_data)
        /\ heading_shaped heading_min_size block = true
        /\ h = Heading.mk (strip (Block.text block)) (Page.page_num page_data)
                 (Block.size block).
Proof.
  unfold detect_headings. rewrite in_flat_map. split.
  - intros (pd & Hpd & Hin). destruct (Page.is_scanned pd) eqn:Hs; [destruct Hin|].
    apply in_flat_map in Hin as (b & Hb & Hin).
    apply detect_block_in in Hin as [Hshape ->].
    exists pd, b. auto.
  - intros (pd & b & Hpd & Hs & Hb & Hshape & ->).
    exists pd. split; [exact Hpd|]. rewrite Hs.
    apply in_flat_map. exists b. split; [exact Hb|].
    apply detect_block_in. auto.
Qed.

(** C3, as the program has it.  A block of a page that is not scanned is
    collected as a heading candidate iff its size is at least
    [body_size * heading_threshold], it is bold, and its text has at most
    12 words and more than 2 characters.  The chapter-likeness test is
    evaluated but decides nothing: the condition that uses it also admits
    every block that is large enough, which all these blocks are. *)
Theorem heading_candidates_by_shape body_size heading_threshold :
  let heading_min_size := fmul body_size heading_threshold in
  (forall page_num block,
      detect_block body_size heading_min_size page_num block
      = if fge (Block.size block) heading_min_size
           && Block.bold block
           && (len (split (Block.text block)) <=? 12)
           && (2 <? len (Block.text block))
        then [Heading.mk (strip (Block.text block)) page_num (Block.size block)]
        else [])
  /\ (forall pages h,
        In h (detect_headings body_size heading_min_size pages)
        <-> exists page_data block,
              In page_data pages /\ Page.is_scanned page_data = false
              /\ In block (Page.blocks page_data)
              /\ heading_shaped heading_min_size block = true
              /\ h = Heading.mk (strip (Block.text block))
                       (Page.page_num page_data) (Block.size block)).
Proof.
  intros heading_min_size. split.
  - intros page_num block. unfold detect_block.
    destruct (fge (Block.size block) heading_min_size) eqn:Hsize; simpl;
      [|reflexivity].
    rewrite orb_true_r. reflexivity.
  - intros pages h. apply detect_headings_in.
Qed.

(** C3 as the specification words it fails: with body size 10 and
    threshold 1.3, the bold block "Summary" of size 13.5 passes none of
    the chapter-likeness tests (no keyword, no ordinal prefix, size below
    15) and is collected all the same. *)
Lemma detect_block_not_chapter_like :
  let block := Block.mk (of_string "Summary") (lit 135 10) true in
  let body_size := exact 10 in
  let heading_min_size := fmul body_size f_1_3 in
  heading_shaped heading_min_size block = true
  /\ is_chapter_like body_size (strip (Block.text block)) (Block.size block) = false
  /\ detect_block body_size heading_min_size 0 block
     = [Heading.mk (of_string "Summary") 0 (lit 135 10)].
Proof.
  vm_compute. repeat split.
Qed.

(** * The parameter adjuster *)

Lemma fle_py_max a b : fle a a = true -> fle a (py_max a b) = true.
Proof.
  intros Ha. unfold py_max, fgt, flt, SFltb.
  destruct (SFcompare a b) as [[]|] eqn:E; try exact Ha.
  unfold fle, SFleb. rewrite E. reflexivity.
Qed.

(** C5.  [adjust_params] depends on the report through its failure mode
    only.  On [severe_word_loss] the heading threshold drops by 0.15 but
    not below 1.1, the chunk size grows by 10 but not above 30, and the
    minimal chapter word count drops by 50 but not below 25; on
    [moderate_word_loss] the steps are 0.10, 5 and 25 and the bounds 1.1,
    25 and 50; on every other or absent mode the parameters come back
    unchanged. *)
Theorem adjust_params_table heading_threshold chunk_size min_chapter_words report :
  let params :=
    Params.mk (Some heading_threshold) (Some chunk_size) (Some min_chapter_words) in
  let mode := Report.failure_mode report in
  (mode = Some "severe_word_loss"%string ->
     adjust_params params report
     = Params.mk (Some (py_max f_1_1 (fsub heading_threshold f_0_15)))
         (Some (Z.min 30 (chunk_size + 10)))
         (Some (Z.max 25 (min_chapter_words - 50))))
  /\ (mode = Some "moderate_word_loss"%string ->
        adjust_params params report
        = Params.mk (Some (py_max f_1_1 (fsub heading_threshold f_0_1)))
            (Some (Z.min 25 (chunk_size + 5)))
            (Some (Z.max 50 (min_chapter_words - 25))))
  /\ (mode <> Some "severe_word_loss"%string ->
      mode <> Some "moderate_word_loss"%string ->
        adjust_params params report = params)
  /\ (forall report',
        Report.failure_mode report' = mode ->
        adjust_params params report' = adjust_params params report)
  /\ (forall x, fle f_1_1 (py_max f_1_1 x) = true).
Proof.
  intros params mode. unfold adjust_params. fold mode.
  repeat split.
  - intros ->. reflexivity.
  - intros ->. reflexivity.
  - intros Hs Hm. destruct mode as [m|]; [|reflexivity]. simpl.
    destruct (String.eqb_spec m "severe_word_loss"); [congruence|].
    destruct (String.eqb_spec m "moderate_word_loss"); [congruence|].
    reflexivity.
  - intros report' ->. reflexivity.
  - intros x. apply fle_py_max. reflexivity.
Qed.

(** The adjuster on a dictionary with absent keys reads the defaults 1.3,
    15 and 100, and leaves a chunk size of at least 15 at least 15. *)
Lemma adjust_params_chunk_size params report c :
  Params.chunk_size params = Some c -> 15 <= c ->
  exists c', Params.chunk_size (adjust_params params report) = Some c' /\ 15 <= c'.
Proof.
  intros Hc Hle. unfold adjust_params.
  destruct (String.eqb _ "severe_word_loss"); simpl.
  { rewrite Hc. simpl. eexists; split; [reflexivity|lia]. }
  destruct (String.eqb _ "moderate_word_loss"); simpl.
  { rewrite Hc. simpl. eexists; split; [reflexivity|lia]. }
  exists c. auto.
Qed.

(** C8, as the program has it.  A publication that cannot be read back
    gives a report with [passed] false, an error message, the word ratio
    0, no word counts and no failure mode, and [adjust_params] returns the
    parameters unchanged on it. *)
Theorem readback_failure_report message a chapter_count image_count params :
  let report := validate_epub (ReadFailed message) a chapter_count image_count in
  Report.passed report = false
  /\ Report.failure_mode report = None
  /\ Report.word_ratio report = Some (Int 0)
  /\ Report.source_words report = None
  /\ Report.epub_words report = None
  /\ Report.error report <> None
  /\ adjust_params params report = params.
Proof.
  intros report. subst report. unfold adjust_params. simpl.
  repeat split. discriminate.
Qed.

(** C8 as the specification words it fails in one place: the report of
    a failed readback does carry a number under [word_ratio]. *)
Lemma readback_failure_has_ratio :
  Report.word_ratio (validate_epub (ReadFailed (of_string "bad zip"))
                       (Analysis.mk [] f_1_0 [] 100) 1 0)
  <> None.
Proof.
  simpl. discriminate.
Qed.

(** * The unused parameter *)

(** C10.  Two parameter dictionaries that agree on [heading_threshold] and
    on [chunk_size] give the same chapters, whatever their
    [min_chapter_words]: the strategy chosen, the page sets, and the
    rendered chapters are the same. *)
Theorem min_chapter_words_unused analysis ocr_results p1 p2 :
  Params.heading_threshold p1 = Params.heading_threshold p2 ->
  Params.chunk_size p1 = Params.chunk_size p2 ->
  structure_spans analysis p1 = structure_spans analysis p2
  /\ structure_chapters analysis ocr_results p1
     = structure_chapters analysis ocr_results p2.
Proof.
  intros Hh Hc. destruct p1 as [h1 c1 m1], p2 as [h2 c2 m2].
  simpl in Hh, Hc. subst h2 c2.
  assert (E : structure_spans analysis (Params.mk h1 c1 m1)
              = structure_spans analysis (Params.mk h1 c1 m2)) by reflexivity.
  split; [exact E|]. unfold structure_chapters. rewrite E. reflexivity.
Qed.

Lemma min_chapter_words_unused_witness :
  structure_spans (Analysis.mk [Page.mk 0 [] 0 false None] f_1_0 [] 0)
    (Params.mk (Some f_1_3) (Some 15) (Some 100))
  = structure_spans (Analysis.mk [Page.mk 0 [] 0 false None] f_1_0 [] 0)
      (Params.mk (Some f_1_3) (Some 15) (Some 7))
  /\ structure_chapters (Analysis.mk [Page.mk 0 [] 0 false None] f_1_0 [] 0) ∅
       (Params.mk (Some f_1_3) (Some 15) (Some 100))
     = structure_chapters (Analysis.mk [Page.mk 0 [] 0 false None] f_1_0 [] 0) ∅
         (Params.mk (Some f_1_3) (Some 15) (Some 7)).
Proof.
  apply (min_chapter_words_unused
           (Analysis.mk [Page.mk 0 [] 0 false None] f_1_0 [] 0) ∅
           (Params.mk (Some f_1_3) (Some 15) (Some 100))
           (Params.mk (Some f_1_3) (Some 15) (Some 7))); reflexivity.
Defined.

(** * Escaping *)

Lemma replace_char_flat_map old new (f : N -> str) (s : str) :
  replace_char old new (flat_map f s)
  = flat_map (fun c => replace_char old new (f c)) s.
Proof.
  unfold replace_char. induction s as [|c s IH]; simpl; [reflexivity|].
  rewrite flat_map_app, IH. reflexivity.
Qed.

Lemma replace_char_id old new s :
  replace_char old new s = flat_map (fun c => if (c =? old)%N then new else [c]) s.
Proof. reflexivity. Qed.

(** The four replacements in a row amount to one pass that writes each
    character as its entity. *)
Lemma escape_html_flat_map text : _escape_html text = flat_map entity text.
Proof.
  unfold _escape_html.
  rewrite (replace_char_id 0x26), !replace_char_flat_map.
  apply flat_map_ext. intros c. unfold entity.
  destruct (N.eqb_spec c 0x26) as [->|H26]; [reflexivity|].
  destruct (N.eqb_spec c 0x3c) as [->|H3c]; [reflexivity|].
  destruct (N.eqb_spec c 0x3e) as [->|H3e]; [reflexivity|].
  destruct (N.eqb_spec c 0x22) as [->|H22]; [reflexivity|].
  unfold replace_char. simpl.
  destruct (N.eqb_spec c 0x3c); [contradiction|]. simpl.
  destruct (N.eqb_spec c 0x3e); [contradiction|]. simpl.
  destruct (N.eqb_spec c 0x22); [contradiction|]. reflexivity.
Qed.


Lemma unescape_entity c rest :
  unescape O (entity c ++ rest) = c :: unescape O rest.
Proof.
  unfold entity.
  destruct (N.eqb_spec c 0x26) as [->|H26]; [reflexivity|].
  destruct (N.eqb_spec c 0x3c) as [->|H3c]; [reflexivity|].
  destruct (N.eqb_spec c 0x3e) as [->|H3e]; [reflexivity|].
  destruct (N.eqb_spec c 0x22) as [->|H22]; [reflexivity|].
  simpl. apply N.eqb_neq in H26. rewrite H26. reflexivity.
Qed.

(** * Ranges and page lists *)

Lemma py_range_nil a b : b <= a -> py_range a b = [].
Proof. intros H. unfold py_range. apply seqZ_nil. lia. Qed.

Lemma py_range_cons a b : a < b -> py_range a b = a :: py_range (a + 1) b.
Proof.
  intros H. unfold py_range. rewrite seqZ_cons by lia.
  f_equal. f_equal; lia.
Qed.

Lemma py_range_app a b c :
  a <= b -> b <= c -> py_range a b ++ py_range b c = py_range a c.
Proof.
  intros Hab Hbc. unfold py_range.
  replace (c - a) with ((b - a) + (c - b)) by lia.
  rewrite seqZ_app by lia. do 2 f_equal. lia.
Qed.

Lemma py_range_nonneg a b x : 0 <= a -> In x (py_range a b) -> 0 <= x.
Proof.
  intros Ha Hx. apply list_elem_of_In, elem_of_seqZ in Hx. lia.
Qed.

Lemma py_range_is_nil a b : py_range a b = [] -> b <= a.
Proof.
  intros H. destruct (Z_lt_le_dec a b) as [Hlt|]; [|assumption].
  rewrite py_range_cons in H by assumption. discriminate.
Qed.

Lemma all_pages_cons c chapters :
  all_pages (c :: chapters) = Chapter.pages c ++ all_pages chapters.
Proof. reflexivity. Qed.

Lemma all_pages_app l1 l2 : all_pages (l1 ++ l2) = all_pages l1 ++ all_pages l2.
Proof. unfold all_pages. rewrite map_app, concat_app. reflexivity. Qed.

Lemma sound_span title a b :
  0 <= a -> a < b -> sound_chapter (Chapter.span title (py_range a b)).
Proof.
  intros Ha Hab. split; [|split]; simpl.
  - rewrite py_range_cons by assumption. discriminate.
  - exists a, b. reflexivity.
  - apply List.Forall_forall. intros x Hx. apply (py_range_nonneg a b x Ha Hx).
Qed.

(** ** The front-matter step *)

Lemma add_front_matter_cover chapters a total :
  chapters <> [] ->
  Forall sound_chapter chapters ->
  0 <= a ->
  all_pages chapters = py_range a total ->
  exists chapters',
    add_front_matter chapters = Ok chapters'
    /\ Forall sound_chapter chapters'
    /\ all_pages chapters' = py_range 0 total.
Proof.
  intros Hne Hsound Ha Hall.
  destruct chapters as [|c0 rest]; [contradiction|].
  apply Forall_cons_iff in Hsound as Hs. destruct Hs as [(Hp0 & _ & Hpos) _].
  destruct (Chapter.pages c0) as [|p0 ps] eqn:Ep; [contradiction|].
  unfold add_front_matter. simpl. rewrite Ep. simpl.
  rewrite all_pages_cons, Ep in Hall.
  assert (Hlt : a < total).
  { destruct (Z_lt_le_dec a total); [assumption|].
    rewrite py_range_nil in Hall by assumption. discriminate. }
  rewrite py_range_cons in Hall by assumption.
  injection Hall as -> Hrest.
  destruct (0 <? a) eqn:E0.
  - apply Z.ltb_lt in E0.
    rewrite (py_range_cons 0 a) by lia.
    eexists. split; [reflexivity|]. split.
    + constructor; [|exact Hsound].
      rewrite <- (py_range_cons 0 a) by lia. apply sound_span; lia.
    + rewrite all_pages_cons. cbn [Chapter.pages Chapter.span].
      rewrite <- (py_range_cons 0 a) by lia.
      rewrite all_pages_cons, Ep.
      change ((a :: ps) ++ all_pages rest) with (a :: (ps ++ all_pages rest)).
      rewrite Hrest, <- py_range_cons by assumption.
      apply py_range_app; lia.
  - apply Z.ltb_ge in E0. assert (a = 0) as -> by lia.
    eexists. split; [reflexivity|]. split; [exact Hsound|].
    rewrite all_pages_cons, Ep.
    change ((0 :: ps) ++ all_pages rest) with (0 :: (ps ++ all_pages rest)).
    rewrite Hrest. symmetry. apply py_range_cons. assumption.
Qed.

(** Without any order among the chapters the step still succeeds. *)
Lemma add_front_matter_ok chapters :
  chapters <> [] ->
  Forall sound_chapter chapters ->
  exists chapters',
    add_front_matter chapters = Ok chapters' /\ Forall sound_chapter chapters'.
Proof.
  intros Hne Hsound.
  destruct chapters as [|c0 rest]; [contradiction|].
  apply Forall_cons_iff in Hsound as Hs. destruct Hs as [(Hp0 & _ & Hpos) _].
  destruct (Chapter.pages c0) as [|p0 ps] eqn:Ep; [contradiction|].
  unfold add_front_matter. simpl. rewrite Ep. simpl.
  destruct (0 <? p0) eqn:E0.
  - apply Z.ltb_lt in E0.
    rewrite (py_range_cons 0 p0) by lia.
    eexists. split; [reflexivity|].
    constructor; [|exact Hsound].
    rewrite <- (py_range_cons 0 p0) by lia. apply sound_span; lia.
  - eexists. split; [reflexivity|]. exact Hsound.
Qed.

(** ** Strategy 1 on an outline in page order *)

Lemma all_pages_step title page_nums chapters :
  all_pages match page_nums with
            | [] => chapters
            | _ :: _ => Chapter.span title page_nums :: chapters
            end
  = page_nums ++ all_pages chapters.
Proof. destruct page_nums; reflexivity. Qed.

Lemma sound_step title a b chapters :
  0 <= a ->
  Forall sound_chapter chapters ->
  Forall sound_chapter match py_range a b with
                       | [] => chapters
                       | _ :: _ => Chapter.span title (py_range a b) :: chapters
                       end.
Proof.
  intros Ha Hs. destruct (py_range a b) as [|x xs] eqn:E; [exact Hs|].
  constructor; [|exact Hs]. rewrite <- E. apply sound_span; [exact Ha|].
  destruct (Z_lt_le_dec a b) as [|Hle]; [assumption|].
  rewrite py_range_nil in E by assumption. discriminate.
Qed.

Lemma toc_chapters_cons total b rest :
  toc_chapters total (b :: rest)
  = let end_ := match rest with
                | next :: _ => Boundary.start_page next
                | [] => total
                end in
    match py_range (Z.max 0 (Boundary.start_page b)) (Z.min end_ total) with
    | [] => toc_chapters total rest
    | _ :: _ =>
        Chapter.span (Boundary.title b)
          (py_range (Z.max 0 (Boundary.start_page b)) (Z.min end_ total))
          :: toc_chapters total rest
    end.
Proof. reflexivity. Qed.

Lemma heading_chapters_cons total h rest :
  heading_chapters total (h :: rest)
  = let end_ := match rest with
                | next :: _ => Heading.page next
                | [] => total
                end in
    match py_range (Heading.page h) end_ with
    | [] => heading_chapters total rest
    | _ :: _ =>
        Chapter.span (Heading.title h) (py_range (Heading.page h) end_)
          :: heading_chapters total rest
    end.
Proof. reflexivity. Qed.

Lemma toc_chapters_sound total bs : Forall sound_chapter (toc_chapters total bs).
Proof.
  induction bs as [|b rest IH]; [constructor|].
  rewrite toc_chapters_cons. apply sound_step; [lia|exact IH].
Qed.

Lemma toc_chapters_cover total b rest :
  0 <= total ->
  ascending (map Boundary.start_page (b :: rest)) ->
  all_pages (toc_chapters total (b :: rest))
  = py_range (clamp total (Boundary.start_page b)) total.
Proof.
  intros Htotal. revert b.
  induction rest as [|b' rest' IH]; intros b Hasc.
  - rewrite toc_chapters_cons. cbv zeta. rewrite all_pages_step.
    cbn [toc_chapters all_pages map concat].
    rewrite app_nil_r. unfold clamp.
    destruct (Z_lt_le_dec total (Boundary.start_page b)).
    + rewrite !py_range_nil by lia. reflexivity.
    + f_equal; lia.
  - rewrite toc_chapters_cons. cbv zeta. rewrite all_pages_step.
    destruct Hasc as [Hle Hasc]. rewrite (IH b' Hasc). unfold clamp.
    set (s := Boundary.start_page b) in *. set (s' := Boundary.start_page b') in *.
    destruct (Z_lt_le_dec (Z.max 0 s) (Z.min s' total)).
    + replace (Z.max 0 (Z.min s total)) with (Z.max 0 s) by lia.
      replace (Z.max 0 (Z.min s' total)) with (Z.min s' total) by lia.
      apply py_range_app; lia.
    + rewrite py_range_nil by lia. simpl. f_equal. lia.
Qed.

(** ** Strategy 2 on headings in page order *)

Lemma heading_chapters_sound total hs :
  Forall (fun h => 0 <= Heading.page h) hs ->
  Forall sound_chapter (heading_chapters total hs).
Proof.
  induction hs as [|h rest IH]; intros Hpos; [constructor|].
  apply Forall_cons_iff in Hpos as [Hh Hrest].
  rewrite heading_chapters_cons. apply sound_step; auto.
Qed.

Lemma heading_chapters_cover total h rest :
  Forall (fun h => Heading.page h <= total) (h :: rest) ->
  ascending (map Heading.page (h :: rest)) ->
  all_pages (heading_chapters total (h :: rest)) = py_range (Heading.page h) total.
Proof.
  revert h. induction rest as [|h' rest' IH]; intros h Hb Hasc.
  - rewrite heading_chapters_cons. cbv zeta. rewrite all_pages_step. apply app_nil_r.
  - rewrite heading_chapters_cons. cbv zeta. rewrite all_pages_step.
    destruct Hasc as [Hle Hasc].
    apply Forall_cons_iff in Hb as [Hh Hb].
    rewrite (IH h' Hb Hasc).
    apply Forall_cons_iff in Hb as [Hh' _].
    apply py_range_app; assumption.
Qed.

(** ** The sort and the dictionary of strategy 2 *)

Lemma insert_by_page_perm h l : Permutation (insert_by_page h l) (h :: l).
Proof.
  induction l as [|x r IH]; simpl; [reflexivity|].
  destruct (Heading.page h <? Heading.page x); [reflexivity|].
  rewrite IH. apply perm_swap.
Qed.

Lemma sorted_by_page_perm_from l acc :
  Permutation (fold_left (fun acc h => insert_by_page h acc) l acc) (l ++ acc).
Proof.
  revert acc. induction l as [|h l IH]; intros acc; simpl; [reflexivity|].
  rewrite IH, insert_by_page_perm. symmetry. apply Permutation_middle.
Qed.

Lemma sorted_by_page_perm l : Permutation (sorted_by_page l) l.
Proof.
  unfold sorted_by_page. rewrite sorted_by_page_perm_from, app_nil_r. reflexivity.
Qed.

Lemma insert_by_page_ascending h l :
  ascending (map Heading.page l) -> ascending (map Heading.page (insert_by_page h l)).
Proof.
  induction l as [|x r IH]; intros Hasc; [exact I|].
  cbn [insert_by_page].
  destruct (Heading.page h <? Heading.page x) eqn:E.
  - apply Z.ltb_lt in E. cbn [map ascending] in *. split; [lia|exact Hasc].
  - apply Z.ltb_ge in E. destruct r as [|y r'].
    + cbn. split; [exact E|exact I].
    + destruct Hasc as [Hxy Hasc]. specialize (IH Hasc).
      cbn [insert_by_page] in *.
      destruct (Heading.page h <? Heading.page y) eqn:E'.
      * cbn [map ascending] in *. split; [exact E|].
        apply Z.ltb_lt in E'. split; [lia|exact Hasc].
      * cbn [map ascending] in *. split; [exact Hxy|exact IH].
Qed.

Lemma sorted_by_page_ascending l : ascending (map Heading.page (sorted_by_page l)).
Proof.
  unfold sorted_by_page.
  enough (H : forall acc, ascending (map Heading.page acc) ->
                          ascending (map Heading.page
                                       (fold_left (fun acc h => insert_by_page h acc) l acc))).
  { apply H. exact I. }
  induction l as [|h l IH]; intros acc Hacc; simpl; [exact Hacc|].
  apply IH, insert_by_page_ascending, Hacc.
Qed.

Lemma dict_set_in k v d x :
  In x (dict_set k v d) -> x = (k, v) \/ In x d.
Proof.
  induction d as [|[k' v'] r IH]; simpl.
  - intros [<-|[]]. auto.
  - destruct (k' =? k); simpl; intros [<-|H]; auto.
    destruct (IH H); auto.
Qed.

Lemma dict_set_not_nil k v d : dict_set k v d <> [].
Proof. destruct d as [|[k' v'] r]; simpl; [|destruct (k' =? k)]; discriminate. Qed.

Lemma seen_pages_fold l : seen_pages l = fold_left see l [].
Proof. reflexivity. Qed.

Lemma see_in seen h x : In x (see seen h) -> x = (Heading.page h, h) \/ In x seen.
Proof.
  unfold see. destruct (dict_get _ seen) as [kept|].
  - destruct (fgt _ _); [apply dict_set_in|auto].
  - apply dict_set_in.
Qed.

Lemma see_not_nil seen h : see seen h <> [] .
Proof.
  unfold see. destruct (dict_get _ seen) as [kept|] eqn:E.
  - destruct (fgt _ _); [apply dict_set_not_nil|].
    destruct seen; [discriminate|discriminate].
  - apply dict_set_not_nil.
Qed.

Lemma fold_see_in l : forall seen x,
  In x (fold_left see l seen) -> In x seen \/ In (snd x) l.
Proof.
  induction l as [|h l IH]; intros seen x Hx; simpl in *; [auto|].
  destruct (IH _ _ Hx) as [H|H]; [|auto].
  destruct (see_in _ _ _ H) as [->|H']; auto.
Qed.

Lemma fold_see_not_nil l : forall seen, seen <> [] -> fold_left see l seen <> [].
Proof.
  induction l as [|h l IH]; intros seen Hne; simpl; [exact Hne|].
  apply IH, see_not_nil.
Qed.

Lemma seen_pages_subset l h : In h (map snd (seen_pages l)) -> In h l.
Proof.
  rewrite seen_pages_fold, in_map_iff. intros ([k v] & <- & Hx).
  destruct (fold_see_in _ _ _ Hx) as [[]|H]. exact H.
Qed.

Lemma seen_pages_not_nil l : l <> [] -> seen_pages l <> [].
Proof.
  rewrite seen_pages_fold. destruct l as [|h l]; [contradiction|]. intros _.
  simpl. apply fold_see_not_nil, see_not_nil.
Qed.

Lemma detected_page_bounds body_size heading_min_size pages h :
  well_numbered pages ->
  In h (detect_headings body_size heading_min_size pages) ->
  0 <= Heading.page h < len pages.
Proof.
  intros Hwf Hin. apply detect_headings_in in Hin
    as (pd & b & Hpd & _ & _ & _ & ->). simpl.
  apply In_nth_error in Hpd as [i Hi].
  rewrite (Hwf i pd Hi).
  assert (i < length pages)%nat by (apply nth_error_Some; congruence).
  unfold len. lia.
Qed.

(** ** Strategy 3 *)

Lemma fold_add_chunk total chunk_size starts : forall chapters,
  all_pages (fold_left (add_chunk total chunk_size) starts chapters)
  = all_pages chapters
    ++ concat (map (fun i => py_range i (Z.min (i + chunk_size) total)) starts).
Proof.
  induction starts as [|i starts IH]; intros chapters; simpl.
  - symmetry. apply app_nil_r.
  - rewrite IH. unfold add_chunk. rewrite all_pages_app, <- app_assoc.
    f_equal. unfold all_pages. simpl. rewrite app_nil_r. reflexivity.
Qed.

Lemma fold_add_chunk_sound total chunk_size starts : forall chapters,
  0 < chunk_size ->
  Forall (fun i => 0 <= i < total) starts ->
  Forall sound_chapter chapters ->
  Forall sound_chapter (fold_left (add_chunk total chunk_size) starts chapters).
Proof.
  induction starts as [|i starts IH]; intros chapters Hc Hst Hs; simpl; [exact Hs|].
  apply Forall_cons_iff in Hst as [Hi Hst].
  apply IH; [exact Hc|exact Hst|].
  unfold add_chunk. apply Forall_app. split; [exact Hs|].
  constructor; [|constructor]. apply sound_span; lia.
Qed.

Lemma fold_add_chunk_length total chunk_size starts : forall chapters,
  length (fold_left (add_chunk total chunk_size) starts chapters)
  = (length chapters + length starts)%nat.
Proof.
  induction starts as [|i starts IH]; intros chapters; simpl; [lia|].
  rewrite IH. unfold add_chunk. rewrite length_app. simpl. lia.
Qed.

(** The chunks laid end to end reach [min(m * chunk_size, total)] after
    [m] of them. *)
Lemma chunks_reach total chunk_size (m : nat) :
  0 < chunk_size -> 0 <= total ->
  (Z.of_nat m - 1) * chunk_size < total \/ m = O ->
  concat (map (fun i => py_range i (Z.min (i + chunk_size) total))
            (map (fun k => 0 + k * chunk_size) (seqZ 0 (Z.of_nat m))))
  = py_range 0 (Z.min (Z.of_nat m * chunk_size) total).
Proof.
  intros Hc Ht. induction m as [|m IH]; intros Hm.
  - simpl. rewrite py_range_nil by lia. reflexivity.
  - rewrite seqZ_S, !map_app, concat_app, IH by nia.
    simpl. rewrite app_nil_r.
    replace (Z.min (Z.of_nat m * chunk_size) total) with (Z.of_nat m * chunk_size) by nia.
    replace (Z.min (Z.of_nat (S m) * chunk_size) total)
      with (Z.min (Z.of_nat m * chunk_size + chunk_size) total) by (f_equal; nia).
    replace (0 + Z.of_nat m) with (Z.of_nat m) by lia.
    apply py_range_app; nia.
Qed.

(** The number of chunks. *)
Lemma chunk_count total chunk_size :
  0 < chunk_size -> 0 <= total ->
  let n := (total - 0 + chunk_size - 1) / chunk_size in
  0 <= n /\ total <= n * chunk_size /\ (n - 1) * chunk_size < total.
Proof.
  intros Hc Ht n.
  pose proof (Z.div_mod (total - 0 + chunk_size - 1) chunk_size) as Hd.
  pose proof (Z.mod_pos_bound (total - 0 + chunk_size - 1) chunk_size Hc) as Hm.
  fold n in Hd. specialize (Hd ltac:(lia)).
  repeat split; nia.
Qed.

(** The fixed tiling covers [0, total) exactly, for every chunk size from
    1 up. *)
Lemma chunk_chapters_cover total chunk_size :
  0 < chunk_size -> 0 <= total ->
  exists chapters,
    chunk_chapters total chunk_size = Ok chapters
    /\ Forall sound_chapter chapters
    /\ all_pages chapters = py_range 0 total
    /\ len chapters = (total + chunk_size - 1) / chunk_size.
Proof.
  intros Hc Ht. unfold chunk_chapters, py_range_step.
  destruct (Z.eqb_spec chunk_size 0) as [|_]; [lia|].
  destruct (Z.ltb_spec 0 chunk_size) as [_|]; [|lia].
  destruct (chunk_count total chunk_size Hc Ht) as (Hn0 & Hn1 & Hn2).
  set (n := (total - 0 + chunk_size - 1) / chunk_size) in *.
  eexists. split; [reflexivity|].
  change (fun chapters i => _) with (add_chunk total chunk_size).
  split; [|split].
  - apply fold_add_chunk_sound; [exact Hc| |constructor].
    apply List.Forall_forall. intros i Hi.
    apply in_map_iff in Hi as (k & <- & Hk).
    apply list_elem_of_In, elem_of_seqZ in Hk. nia.
  - rewrite fold_add_chunk. simpl.
    rewrite <- (Z2Nat.id n Hn0), chunks_reach; try assumption.
    + f_equal. rewrite Z2Nat.id by assumption. lia.
    + rewrite Z2Nat.id by assumption. left. exact Hn2.
  - unfold len. rewrite fold_add_chunk_length, length_map, length_seqZ. simpl.
    rewrite Z2Nat.id by assumption. subst n. f_equal. lia.
Qed.

(** * The chapter partition *)

Lemma sorted_headings_facts body_size heading_min_size pages :
  well_numbered pages ->
  let detected := detect_headings body_size heading_min_size pages in
  let hs := sorted_by_page (map snd (seen_pages detected)) in
  Forall (fun h => 0 <= Heading.page h < len pages) hs
  /\ ascending (map Heading.page hs)
  /\ (detected <> [] -> hs <> []).
Proof.
  intros Hwf detected hs. split; [|split].
  - apply List.Forall_forall. intros h Hh.
    apply (Permutation_in _ (sorted_by_page_perm _)) in Hh.
    apply seen_pages_subset in Hh.
    apply (detected_page_bounds _ _ _ _ Hwf Hh).
  - apply sorted_by_page_ascending.
  - intros Hne Hnil. apply seen_pages_not_nil in Hne.
    subst hs. pose proof (sorted_by_page_perm (map snd (seen_pages detected))) as P.
    rewrite Hnil in P. apply Permutation_nil in P.
    apply map_eq_nil in P. contradiction.
Qed.

(** With headings on well-numbered pages, strategy 2 never comes out
    empty. *)
Lemma heading_chapters_not_nil total hs :
  hs <> [] ->
  Forall (fun h => 0 <= Heading.page h < total) hs ->
  ascending (map Heading.page hs) ->
  heading_chapters total hs <> [].
Proof.
  intros Hne Hb Hasc. destruct hs as [|h rest]; [contradiction|].
  intros Hnil.
  assert (Hc : all_pages (heading_chapters total (h :: rest))
               = py_range (Heading.page h) total).
  { apply heading_chapters_cover; [|exact Hasc].
    eapply Forall_impl; [exact Hb|]. simpl. intros; lia. }
  rewrite Hnil in Hc. apply Forall_cons_iff in Hb as [Hh _].
  rewrite py_range_cons in Hc by lia. discriminate.
Qed.

(** The partition of strategies 2 and 3, and of strategy 1 on an outline in
    page order: the chapters are not empty, each is a run of consecutive
    pages, and laid end to end they are the pages [0, total) in order. *)
Theorem structure_spans_cover analysis params :
  well_numbered (Analysis.pages analysis) ->
  0 < get (Params.chunk_size params) 15 ->
  ((structure_spans analysis params).1 = EmbeddedToc ->
   toc_in_page_order (Analysis.toc analysis)) ->
  exists chapters,
    (structure_spans analysis params).2 = Ok chapters
    /\ Forall sound_chapter chapters
    /\ all_pages chapters = py_range 0 (len (Analysis.pages analysis)).
Proof.
  intros Hwf Hchunk Horder. unfold structure_spans in *.
  set (pages := Analysis.pages analysis) in *.
  set (total := len pages) in *.
  assert (Htotal : 0 <= total) by (unfold total, len; lia).
  set (by_toc := if 2 <=? len (Analysis.toc analysis) then _ else []) in *.
  destruct by_toc as [|c0 cs] eqn:Etoc.
  - set (detected := detect_headings _ _ pages) in *.
    destruct (sorted_headings_facts (Analysis.body_font_size analysis)
                (fmul (Analysis.body_font_size analysis)
                   (get (Params.heading_threshold params) f_1_3))
                pages Hwf) as (Hb & Hasc & Hne).
    fold detected in Hb, Hasc, Hne.
    set (hs := sorted_by_page (map snd (seen_pages detected))) in *.
    set (by_heading := if 2 <=? len detected then _ else []) in *.
    destruct by_heading as [|d0 ds] eqn:Eh.
    + simpl. destruct (chunk_chapters_cover total _ Hchunk Htotal)
        as (chs & -> & Hs & Hall & _). eauto.
    + simpl. subst by_heading.
      destruct (2 <=? len detected); [|discriminate].
      destruct hs as [|h rest] eqn:Ehs; [discriminate|].
      rewrite <- Eh. apply (add_front_matter_cover _ (Heading.page h)).
      * rewrite Eh. discriminate.
      * apply heading_chapters_sound.
        eapply Forall_impl; [exact Hb|]. simpl. intros; lia.
      * apply Forall_cons_iff in Hb as [Hh _]. lia.
      * apply heading_chapters_cover; [|exact Hasc].
        eapply Forall_impl; [exact Hb|]. simpl. intros; lia.
  - simpl in *. specialize (Horder eq_refl). subst by_toc.
    destruct (2 <=? len (Analysis.toc analysis)); [|discriminate].
    unfold toc_in_page_order in Horder.
    destruct (chapter_boundaries (Analysis.toc analysis)) as [|b rest] eqn:Eb;
      [discriminate|].
    rewrite <- Etoc.
    apply (add_front_matter_cover _ (clamp total (Boundary.start_page b))).
    + rewrite Etoc. discriminate.
    + apply toc_chapters_sound.
    + unfold clamp. lia.
    + apply toc_chapters_cover; assumption.
Qed.

(** Whatever the order of the outline, the structuring succeeds and its
    chapters are sound. *)
Lemma structure_spans_ok analysis params :
  well_numbered (Analysis.pages analysis) ->
  0 < get (Params.chunk_size params) 15 ->
  exists chapters,
    (structure_spans analysis params).2 = Ok chapters
    /\ Forall sound_chapter chapters.
Proof.
  intros Hwf Hchunk.
  destruct ((structure_spans analysis params).1) eqn:E.
  - unfold structure_spans in *.
    set (by_toc := if 2 <=? len (Analysis.toc analysis) then _ else []) in *.
    destruct by_toc as [|c0 cs] eqn:Etoc.
    + exfalso. revert E. clear.
      match goal with |- context [match ?x with [] => _ | _ :: _ => _ end] =>
        destruct x end; discriminate.
    + simpl. rewrite <- Etoc. apply add_front_matter_ok.
      * rewrite Etoc. discriminate.
      * subst by_toc. destruct (2 <=? _); [apply toc_chapters_sound|constructor].
  - destruct (structure_spans_cover analysis params Hwf Hchunk) as (chs & H & Hs & _).
    { rewrite E. discriminate. }
    eauto.
  - destruct (structure_spans_cover analysis params Hwf Hchunk) as (chs & H & Hs & _).
    { rewrite E. discriminate. }
    eauto.
Qed.

Lemma sound_cover total chapters :
  Forall sound_chapter chapters ->
  all_pages chapters = py_range 0 total ->
  exact_cover total chapters.
Proof.
  intros Hs Hall. split; [|rewrite Hall; reflexivity].
  eapply Forall_impl; [exact Hs|]. intros c (_ & Hc & _). exact Hc.
Qed.

(** * The renderer succeeds on sound chapters *)

Lemma render_page_ok pages ocr_results body_size acc page_num :
  0 <= page_num ->
  exists acc', render_page pages ocr_results body_size acc page_num = Ok acc'.
Proof.
  intros Hpos. unfold render_page.
  destruct (Z.leb_spec (len pages) page_num) as [|Hlt]; [eauto|].
  unfold py_index.
  destruct (Z.ltb_spec page_num 0) as [|_]; [lia|].
  destruct (Z.ltb_spec page_num 0) as [|_]; [lia|].
  destruct (nth_error pages (Z.to_nat page_num)) as [page_data|] eqn:E.
  - simpl.
    destruct (if Page.is_scanned page_data then _ else _) as [parts words]. eauto.
  - apply nth_error_None in E. unfold len in Hlt. lia.
Qed.

Lemma render_pages_ok pages ocr_results body_size page_nums : forall acc,
  Forall (fun x => 0 <= x) page_nums ->
  exists acc', render_pages pages ocr_results body_size acc page_nums = Ok acc'.
Proof.
  induction page_nums as [|p ps IH]; intros acc Hpos; simpl; [eauto|].
  apply Forall_cons_iff in Hpos as [Hp Hps].
  destruct (render_page_ok pages ocr_results body_size acc p Hp) as [acc' ->].
  simpl. apply IH, Hps.
Qed.

Lemma build_chapter_content_ok chapters pages ocr_results analysis :
  Forall sound_chapter chapters ->
  exists built,
    _build_chapter_content chapters pages ocr_results analysis = Ok built
    /\ map Chapter.title built = map Chapter.title chapters
    /\ map Chapter.pages built = map Chapter.pages chapters
    /\ Forall (fun c => Chapter.content_html c <> None) built.
Proof.
  induction chapters as [|c cs IH]; intros Hs; simpl.
  - exists []. repeat split. constructor.
  - apply Forall_cons_iff in Hs as [(_ & _ & Hpos) Hcs].
    destruct (IH Hcs) as (built & -> & Ht & Hp & Hc).
    unfold build_chapter.
    destruct (render_pages_ok pages ocr_results (Analysis.body_font_size analysis)
                (Chapter.pages c) (mk_acc [] 0 []) Hpos) as [acc ->].
    simpl. eexists. split; [reflexivity|]. simpl.
    rewrite Ht, Hp. repeat split. constructor; [discriminate|exact Hc].
Qed.

Lemma build_documents_ok chapters : forall image_counter,
  Forall (fun c => Chapter.content_html c <> None) chapters ->
  exists docs,
    build_documents image_counter chapters = Ok docs
    /\ length docs.1 = length chapters.
Proof.
  induction chapters as [|c cs IH]; intros k Hc; simpl; [eauto|].
  apply Forall_cons_iff in Hc as [Hc Hcs].
  unfold build_document.
  destruct (Chapter.content_html c) as [content|]; [|contradiction].
  simpl.
  match goal with
  | |- context [build_documents ?k' cs] => destruct (IH k' Hcs) as (docs & -> & Hlen)
  end.
  simpl. eexists. split; [reflexivity|]. simpl. rewrite Hlen. reflexivity.
Qed.

(** * The closed loop *)

Lemma chunk_ok_initial : chunk_ok initial_params.
Proof. exists 15. split; [reflexivity|lia]. Qed.

Lemma chunk_ok_adjust params report :
  chunk_ok params -> chunk_ok (adjust_params params report).
Proof. intros (c & Hc & Hle). apply (adjust_params_chunk_size _ _ c Hc Hle). Qed.

Section Loop.

Variable analysis : Analysis.t.
Variable ocr_results : gmap Z str.
Variable epub_write : Z -> list str -> result unit.
Variable epub_io : Z -> list str -> readback.
Hypothesis numbered : well_numbered (Analysis.pages analysis).

(** An iteration gives the report of the validator on what the container
    library read back, unless the library raises on writing; nothing else
    raises. *)
Lemma attempt_cases iteration params :
  chunk_ok params ->
  match attempt analysis ocr_results epub_write epub_io iteration params with
  | Ok r => attempt_gives analysis ocr_results epub_write epub_io iteration params r
  | Raise e => attempt_raises analysis ocr_results epub_write iteration params e
  end.
Proof.
  intros (c & Hc & Hle).
  destruct (structure_spans_ok analysis params numbered) as (chs & Hspans & Hs).
  { rewrite Hc. simpl. lia. }
  destruct (build_chapter_content_ok chs (Analysis.pages analysis) ocr_results
              analysis Hs) as (built & Hbuilt & _ & _ & Hcontent).
  assert (Hch : structure_chapters analysis ocr_results params = Ok built).
  { unfold structure_chapters. rewrite Hspans. exact Hbuilt. }
  destruct (build_documents_ok built 0 Hcontent) as ([docs n] & Hdocs & Hlen).
  cbn [fst] in Hlen.
  unfold attempt. rewrite Hch. cbn [rbind]. unfold build_epub.
  rewrite Hdocs. cbn [rbind fst snd].
  destruct (epub_write iteration docs) as [[]|e] eqn:Ew; cbn [rbind].
  - exists built, docs, n. repeat split; try assumption.
    unfold len. rewrite Hlen. reflexivity.
  - exists built, docs, n. repeat split; assumption.
Qed.

Lemma reports_of_attempts_nil :
  reports_of_attempts analysis ocr_results epub_write epub_io [].
Proof. intros before r after H. destruct before; discriminate. Qed.

Lemma reports_of_attempts_snoc rs r :
  reports_of_attempts analysis ocr_results epub_write epub_io rs ->
  attempt_gives analysis ocr_results epub_write epub_io
    (len rs + 1) (fold_left adjust_params rs initial_params) r ->
  reports_of_attempts analysis ocr_results epub_write epub_io (rs ++ [r]).
Proof.
  intros Hrs Hr before x after Heq.
  destruct after as [|z after'] using rev_ind.
  - apply app_inj_tail in Heq as [<- <-]. exact Hr.
  - clear IHafter'. apply (Hrs before x after').
    rewrite app_comm_cons, app_assoc in Heq.
    apply app_inj_tail in Heq as [Heq _]. exact Heq.
Qed.

(** The loop, attempt by attempt.  It ends on a last report after one to
    three attempts, every earlier report having failed, each report being
    the report of its attempt; or it is left by the exception of the
    writer in an attempt that follows failed ones only. *)
Lemma closed_loop_cases :
  match closed_loop analysis ocr_results epub_write epub_io with
  | Ok final =>
      exists earlier r,
        reports final = earlier ++ [r]
        /\ (length earlier < 3)%nat
        /\ Forall failed earlier
        /\ reports_of_attempts analysis ocr_results epub_write epub_io
             (earlier ++ [r])
        /\ best_result final = Some r
        /\ match exit final with
           | Passed => Report.passed r = true
           | Exhausted => Report.passed r = false /\ length earlier = 2%nat
           end
  | Raise e =>
      exists earlier,
        (length earlier < 3)%nat
        /\ Forall failed earlier
        /\ reports_of_attempts analysis ocr_results epub_write epub_io earlier
        /\ attempt_raises analysis ocr_results epub_write
             (len earlier + 1) (fold_left adjust_params earlier initial_params) e
  end.
Proof.
  unfold closed_loop.
  change (py_range 1 (MAX_ITERATIONS + 1)) with [1; 2; 3].
  cbn [iterate].
  pose proof (attempt_cases 1 initial_params chunk_ok_initial) as H1.
  destruct (attempt analysis ocr_results epub_write epub_io 1 initial_params)
    as [r1|e]; cbn [rbind].
  2:{ exists []. split; [simpl; lia|]. split; [constructor|].
      split; [apply reports_of_attempts_nil|exact H1]. }
  assert (R1 : reports_of_attempts analysis ocr_results epub_write epub_io [r1]).
  { apply (reports_of_attempts_snoc [] r1 reports_of_attempts_nil H1). }
  destruct (Report.passed r1) eqn:P1.
  { exists [], r1. cbn. repeat split; try assumption; try lia. constructor. }
  change (1 <? MAX_ITERATIONS) with true. cbv iota.
  pose proof (attempt_cases 2 (adjust_params initial_params r1)
                (chunk_ok_adjust _ _ chunk_ok_initial)) as H2.
  destruct (attempt analysis ocr_results epub_write epub_io 2
              (adjust_params initial_params r1)) as [r2|e]; cbn [rbind].
  2:{ exists [r1]. split; [simpl; lia|]. split; [repeat constructor; exact P1|].
      split; [exact R1|exact H2]. }
  assert (R2 : reports_of_attempts analysis ocr_results epub_write epub_io [r1; r2]).
  { apply (reports_of_attempts_snoc [r1] r2 R1 H2). }
  destruct (Report.passed r2) eqn:P2.
  { exists [r1], r2. cbn. repeat split; try assumption; try lia.
    repeat constructor. exact P1. }
  change (2 <? MAX_ITERATIONS) with true. cbv iota.
  pose proof (attempt_cases 3 (adjust_params (adjust_params initial_params r1) r2)
                (chunk_ok_adjust _ _ (chunk_ok_adjust _ _ chunk_ok_initial))) as H3.
  destruct (attempt analysis ocr_results epub_write epub_io 3
              (adjust_params (adjust_params initial_params r1) r2)) as [r3|e];
    cbn [rbind].
  2:{ exists [r1; r2]. split; [simpl; lia|].
      split; [repeat constructor; assumption|]. split; [exact R2|exact H3]. }
  assert (R3 : reports_of_attempts analysis ocr_results epub_write epub_io
                 [r1; r2; r3]).
  { apply (reports_of_attempts_snoc [r1; r2] r3 R2 H3). }
  destruct (Report.passed r3) eqn:P3.
  - exists [r1; r2], r3. cbn. repeat split; try assumption; try lia.
    repeat constructor; assumption.
  - exists [r1; r2], r3. cbn. repeat split; try assumption; try lia.
    repeat constructor; assumption.
Qed.

End Loop.

(** ** The analysis numbers its pages *)

Lemma enumerate_nth {A : Type} (l : list A) : forall start i entry,
  nth_error (enumerate start l) i = Some entry -> entry.1 = start + Z.of_nat i.
Proof.
  induction l as [|x r IH]; intros start i entry H; destruct i as [|i];
    simpl in H; try discriminate.
  - injection H as <-. simpl. lia.
  - rewrite (IH _ _ _ H). lia.
Qed.

Lemma length_enumerate {A : Type} (l : list A) : forall start,
  length (enumerate start l) = length l.
Proof.
  induction l as [|x r IH]; intros start; simpl; [reflexivity|].
  rewrite IH. reflexivity.
Qed.

Lemma analyze_pdf_numbered doc toc :
  well_numbered (Analysis.pages (analyze_pdf doc toc)).
Proof.
  intros i page_data H. simpl in H.
  rewrite nth_error_map in H.
  destruct (nth_error (enumerate 0 doc) i) as [entry|] eqn:E; [|discriminate].
  injection H as <-. simpl. apply (enumerate_nth doc 0 i entry E).
Qed.

Lemma stage_2_pages ocr_scanned_pages analysis :
  Analysis.pages (stage_2 ocr_scanned_pages analysis).1 = Analysis.pages analysis.
Proof. unfold stage_2. destruct (scanned_pages analysis); reflexivity. Qed.

Lemma ready_numbered doc toc ocr_scanned_pages :
  well_numbered (Analysis.pages (stage_2 ocr_scanned_pages (analyze_pdf doc toc)).1).
Proof. rewrite stage_2_pages. apply analyze_pdf_numbered. Qed.



(** * The final quality summary *)

(** When the loop ends on a last report that carries its word counts,
    that report is the one the summary shows, field by field, whatever the
    earlier reports were. *)
Lemma exhausted_surfaces_last analysis ocr_results epub_write epub_io final r
    ratio s e :
  closed_loop analysis ocr_results epub_write epub_io = Ok final ->
  best_result final = Some r ->
  Report.word_ratio r = Some ratio ->
  Report.source_words r = Some s ->
  Report.epub_words r = Some e ->
  final_status analysis ocr_results epub_write epub_io
  = Completed (Quality.mk ratio s e (Report.chapters r) (Report.images r)
                 (Report.passed r)).
Proof.
  intros Hrun Hb Hw Hs He. unfold final_status.
  rewrite Hrun. simpl. rewrite Hb. simpl. rewrite Hw, Hs, He. reflexivity.
Qed.

(** An earlier attempt may have scored higher: with 5 source words, a
    first readback of 4 words and later readbacks of 1 word, the first
    report has the ratio 0.8 and the summary shows the 0.2 of the third. *)
Example last_report_not_best :
  let analysis := Analysis.mk [Page.mk 0 [] 0 false None] f_1_0 [] 5 in
  let epub_write := fun (_ : Z) (_ : list str) => Ok tt in
  let epub_io :=
    fun (i : Z) (_ : list str) =>
      ReadItems [if i =? 1 then of_string "<p>a b c d</p>" else of_string "<p>a</p>"] in
  (exists first rest final,
      closed_loop analysis ∅ epub_write epub_io = Ok final
      /\ exit final = Exhausted
      /\ reports final = first :: rest
      /\ Report.word_ratio first = Some (Float (lit 8 10)))
  /\ final_status analysis ∅ epub_write epub_io
     = Completed (Quality.mk (Float (lit 2 10)) 5 1 1 0 false).
Proof.
  vm_compute. split; [|reflexivity]. eexists _, _, _. repeat split.
Qed.

(** A report on a publication that could not be read back. *)
Lemma unreadable_report analysis ocr_results epub_write epub_io k params r :
  (forall i documents, exists message, epub_io i documents = ReadFailed message) ->
  attempt_gives analysis ocr_results epub_write epub_io k params r ->
  Report.passed r = false
  /\ Report.word_ratio r = Some (Int 0)
  /\ Report.source_words r = None.
Proof.
  intros Hio (chapters & documents & n & _ & _ & _ & ->).
  destruct (Hio k documents) as [message ->]. repeat split.
Qed.

(** When the container library writes every publication and can read
    none back, the loop is exhausted and the final update raises. *)
Lemma unreadable_analysis_ends_in_error analysis ocr_results epub_write epub_io :
  well_numbered (Analysis.pages analysis) ->
  (forall i documents, epub_write i documents = Ok tt) ->
  (forall i documents, exists message, epub_io i documents = ReadFailed message) ->
  (exists final,
      closed_loop analysis ocr_results epub_write epub_io = Ok final
      /\ exit final = Exhausted
      /\ length (reports final) = 3%nat
      /\ Forall failed (reports final)
      /\ reports_of_attempts analysis ocr_results epub_write epub_io
           (reports final))
  /\ final_status analysis ocr_results epub_write epub_io
     = Error (KeyError "source_words").
Proof.
  intros Hwf Hw Hio. unfold final_status.
  pose proof (closed_loop_cases analysis ocr_results epub_write epub_io Hwf) as H.
  destruct (closed_loop analysis ocr_results epub_write epub_io) as [final|e].
  - destruct H as (earlier & r & Hr & Hlen & Hfailed & Hof & Hbest & Hexit).
    destruct (unreadable_report analysis ocr_results epub_write epub_io
                (len earlier + 1) (fold_left adjust_params earlier initial_params)
                r Hio (Hof earlier r [] eq_refl)) as (Hp & Hratio & Hs).
    destruct (exit final) eqn:Eexit; [congruence|].
    destruct Hexit as [_ Hl]. split.
    + exists final. split; [reflexivity|]. split; [exact Eexit|].
      rewrite Hr. split; [rewrite length_app; simpl; lia|].
      split; [|exact Hof].
      apply Forall_app. split; [exact Hfailed|]. repeat constructor. exact Hp.
    + cbn [rbind]. rewrite Hbest. cbn [quality_report].
      rewrite Hratio, Hs. reflexivity.
  - exfalso. destruct H as (earlier & _ & _ & _ & chapters & documents & n & _ & _ & He).
    rewrite Hw in He. discriminate.
Qed.

(** C7 at the input where it fails: a document whose publication is
    written in every attempt and cannot be read back in any.  Every
    attempt fails and the loop is exhausted after three reports, each the
    report of its attempt; but the last report has no word counts, the
    final update raises [KeyError] on [source_words], and the invocation
    ends in the error status with no quality summary. *)
Theorem unreadable_publication_ends_in_error doc toc ocr_scanned_pages
    epub_write epub_io :
  (forall i documents, epub_write i documents = Ok tt) ->
  (forall i documents, exists message, epub_io i documents = ReadFailed message) ->
  let ready := stage_2 ocr_scanned_pages (analyze_pdf doc toc) in
  (exists final,
      closed_loop ready.1 ready.2 epub_write epub_io = Ok final
      /\ exit final = Exhausted
      /\ length (reports final) = 3%nat
      /\ Forall failed (reports final)
      /\ reports_of_attempts ready.1 ready.2 epub_write epub_io (reports final))
  /\ process_epub_conversion doc toc ocr_scanned_pages epub_write epub_io
     = Error (KeyError "source_words").
Proof.
  intros Hw Hio ready.
  assert (Hprocess : process_epub_conversion doc toc ocr_scanned_pages
                       epub_write epub_io
                     = final_status ready.1 ready.2 epub_write epub_io).
  { unfold process_epub_conversion. subst ready.
    destruct (stage_2 ocr_scanned_pages (analyze_pdf doc toc)). reflexivity. }
  rewrite Hprocess.
  apply unreadable_analysis_ends_in_error; [|exact Hw|exact Hio].
  apply ready_numbered.
Qed.

Lemma unreadable_publication_ends_in_error_witness :
  let doc := [RawPage.mk [TextBlock [[Span.mk (of_string "One page") (exact 12) 0]]] []] in
  let epub_write := fun (_ : Z) (_ : list str) => Ok tt in
  let epub_io := fun (_ : Z) (_ : list str) => ReadFailed (of_string "File is not a zip file") in
  let ready := stage_2 (fun _ => ∅) (analyze_pdf doc []) in
  (exists final,
      closed_loop ready.1 ready.2 epub_write epub_io = Ok final
      /\ exit final = Exhausted
      /\ length (reports final) = 3%nat
      /\ Forall failed (reports final)
      /\ reports_of_attempts ready.1 ready.2 epub_write epub_io (reports final))
  /\ process_epub_conversion doc [] (fun _ => ∅) epub_write epub_io
     = Error (KeyError "source_words").
Proof.
  intros doc epub_write epub_io.
  apply (unreadable_publication_ends_in_error doc [] (fun _ => ∅) epub_write epub_io).
  - intros i documents. reflexivity.
  - intros i documents. eexists. reflexivity.
Defined.

(** * The partition of [structure_chapters] *)

(** The partition of [structure_chapters] itself: under strategy 2 or 3,
    and under strategy 1 when the outline is in page order, the call
    succeeds and its chapters cover [0, total) exactly, for every chunk
    size from 1 up. *)
Theorem structure_chapters_cover analysis ocr_results params :
  well_numbered (Analysis.pages analysis) ->
  0 < get (Params.chunk_size params) 15 ->
  ((structure_spans analysis params).1 = EmbeddedToc ->
   toc_in_page_order (Analysis.toc analysis)) ->
  exists chapters,
    structure_chapters analysis ocr_results params = Ok chapters
    /\ exact_cover (len (Analysis.pages analysis)) chapters
    /\ all_pages chapters = py_range 0 (len (Analysis.pages analysis)).
Proof.
  intros Hwf Hchunk Horder. unfold structure_chapters.
  destruct (structure_spans_cover analysis params Hwf Hchunk Horder)
    as (chs & -> & Hs & Hall).
  simpl.
  destruct (build_chapter_content_ok chs (Analysis.pages analysis) ocr_results
              analysis Hs) as (built & -> & _ & Hp & _).
  exists built. split; [reflexivity|].
  assert (Hall' : all_pages built = py_range 0 (len (Analysis.pages analysis))).
  { unfold all_pages in *. rewrite Hp. exact Hall. }
  split; [|exact Hall'].
  split; [|rewrite Hall'; reflexivity].
  apply List.Forall_forall. intros c Hc.
  assert (Hin : In (Chapter.pages c) (map Chapter.pages chs)).
  { rewrite <- Hp. apply in_map, Hc. }
  apply in_map_iff in Hin as (c' & Heq & Hc').
  rewrite <- Heq.
  rewrite List.Forall_forall in Hs. destruct (Hs c' Hc') as (_ & Hcont & _).
  exact Hcont.
Qed.

(** The same for the analysis of any document, before or after the
    recognised words are counted in. *)
Corollary document_cover doc toc ocr_scanned_pages params :
  let ready := stage_2 ocr_scanned_pages (analyze_pdf doc toc) in
  0 < get (Params.chunk_size params) 15 ->
  ((structure_spans ready.1 params).1 = EmbeddedToc -> toc_in_page_order toc) ->
  exists chapters,
    structure_chapters ready.1 ready.2 params = Ok chapters
    /\ exact_cover (len doc) chapters.
Proof.
  intros ready Hchunk Horder.
  assert (Hpages : Analysis.pages ready.1 = Analysis.pages (analyze_pdf doc toc))
    by apply stage_2_pages.
  assert (Htoc : Analysis.toc ready.1 = toc).
  { subst ready. unfold stage_2. destruct (scanned_pages _); reflexivity. }
  assert (Hlen : len (Analysis.pages ready.1) = len doc).
  { rewrite Hpages. unfold len. simpl.
    rewrite length_map, length_enumerate. reflexivity. }
  destruct (structure_chapters_cover ready.1 ready.2 params) as (chs & Hok & Hc & _).
  - rewrite Hpages. apply analyze_pdf_numbered.
  - exact Hchunk.
  - rewrite Htoc. exact Horder.
  - exists chs. rewrite <- Hlen. auto.
Qed.

(** C1 at the input where it fails: a document of 10 pages whose outline
    lists page 1, then page 5, then page 3.  Strategy 1 takes the entries
    in the order of the outline: the first chapter runs over pages 0 to 3,
    the second entry gives no chapter, the third runs over pages 2 to 9.
    Pages 2 and 3 belong to two chapters, so the chapters are no exact
    cover of the ten pages. *)
Theorem outline_out_of_page_order_overlaps :
  let analysis :=
    outlined 10 [(1, of_string "A", 1); (1, of_string "B", 5); (1, of_string "C", 3)] in
  (structure_spans analysis initial_params).1 = EmbeddedToc
  /\ exists chapters,
       structure_chapters analysis ∅ initial_params = Ok chapters
       /\ map Chapter.pages chapters = [[0; 1; 2; 3]; [2; 3; 4; 5; 6; 7; 8; 9]]
       /\ ~ exact_cover 10 chapters.
Proof.
  intros analysis. split; [reflexivity|].
  destruct (structure_chapters analysis ∅ initial_params) as [chapters|e] eqn:E;
    vm_compute in E; [|discriminate].
  injection E as <-. eexists. split; [reflexivity|]. split; [reflexivity|].
  intros [_ Hperm]. apply Permutation_length in Hperm. discriminate.
Qed.

(** * The choice of the strategy *)

Lemma toc_chapters_not_nil total bs :
  toc_chapters total bs <> [] <-> spans_a_page total bs.
Proof.
  induction bs as [|b rest IH]; [simpl; tauto|].
  rewrite toc_chapters_cons. cbv zeta. cbn [spans_a_page].
  set (end_ := match rest with next :: _ => _ | [] => total end).
  destruct (Z_lt_le_dec (Z.max 0 (Boundary.start_page b)) (Z.min end_ total)) as [Hlt|Hle].
  - rewrite py_range_cons by assumption. split; [auto|discriminate].
  - rewrite py_range_nil by assumption. rewrite IH. split; [auto|].
    intros [H|H]; [lia|exact H].
Qed.

(** C2, as the program has it.  The choice is a function of the analysis
    and the parameters, and one of three.  Strategy 1 is taken iff the
    outline has at least 2 entries, of whatever level, and some entry of
    level 1 or 2 starts a non-empty range of pages.  Strategy 2 is taken iff
    strategy 1 is not and at least 2 heading candidates were collected,
    counted before the candidates of one page are merged.  Strategy 3 is
    taken in every other case. *)
Theorem strategy_selection analysis params :
  well_numbered (Analysis.pages analysis) ->
  let total := len (Analysis.pages analysis) in
  let body_size := Analysis.body_font_size analysis in
  let detected :=
    detect_headings body_size
      (fmul body_size (get (Params.heading_threshold params) f_1_3))
      (Analysis.pages analysis) in
  let by_toc :=
    2 <= len (Analysis.toc analysis)
    /\ spans_a_page total (chapter_boundaries (Analysis.toc analysis)) in
  let chosen := (structure_spans analysis params).1 in
  (chosen = EmbeddedToc <-> by_toc)
  /\ (chosen = HeadingDetection <-> ~ by_toc /\ 2 <= len detected)
  /\ (chosen = PageChunk <-> ~ by_toc /\ len detected < 2).
Proof.
  intros Hwf total body_size detected by_toc chosen.
  assert (Htoc : by_toc <->
                 (if 2 <=? len (Analysis.toc analysis)
                  then toc_chapters total (chapter_boundaries (Analysis.toc analysis))
                  else []) <> []).
  { subst by_toc. destruct (Z.leb_spec 2 (len (Analysis.toc analysis))).
    - rewrite toc_chapters_not_nil. tauto.
    - split; [lia|congruence]. }
  assert (Hhead : 2 <= len detected <->
                  (if 2 <=? len detected
                   then heading_chapters total
                          (sorted_by_page (map snd (seen_pages detected)))
                   else []) <> []).
  { destruct (Z.leb_spec 2 (len detected)) as [Hle|Hlt].
    - split; [intros _|auto].
      destruct (sorted_headings_facts body_size
                  (fmul body_size (get (Params.heading_threshold params) f_1_3))
                  (Analysis.pages analysis) Hwf) as (Hb & Hasc & Hne).
      apply heading_chapters_not_nil; [|exact Hb|exact Hasc].
      apply Hne. fold detected. intros Hnil. rewrite Hnil in Hle.
      unfold len in Hle. simpl in Hle. lia.
    - split; [lia|congruence]. }
  subst chosen. unfold structure_spans.
  fold total body_size detected.
  destruct (if 2 <=? len (Analysis.toc analysis) then _ else [])
    as [|c0 cs] eqn:Etoc.
  - assert (Hno : ~ by_toc) by (rewrite Htoc; congruence).
    destruct (if 2 <=? len detected then _ else []) as [|d0 ds] eqn:Eh; simpl.
    + assert (len detected < 2).
      { destruct (Z_lt_le_dec (len detected) 2) as [|Hge]; [assumption|].
        apply Hhead in Hge. congruence. }
      clear Htoc Hhead. intuition (try discriminate; try lia).
    + assert (2 <= len detected) by (apply Hhead; congruence).
      clear Htoc Hhead. intuition (try discriminate; try lia).
  - assert (Hyes : by_toc) by (rewrite Htoc; congruence).
    simpl. clear Htoc Hhead. intuition (try discriminate).
Qed.

(** C2 as the specification words it fails twice.  An outline of two
    entries of which one is of level 3 has a single qualifying entry, and
    strategy 1 is taken.  Two bold titles on the first of three pages are
    one candidate after merging, on one page, and strategy 2 is taken. *)
Lemma strategy_selection_counts_before_filtering :
  (let analysis := outlined 3 [(1, of_string "A", 1); (3, of_string "B", 2)] in
   (structure_spans analysis initial_params).1 = EmbeddedToc
   /\ len (chapter_boundaries (Analysis.toc analysis)) = 1)
  /\ (let title := fun s : string => Block.mk (of_string s) (exact 20) true in
      let pages :=
        [ Page.mk 0 [title "First title"%string; title "Second title"%string]
            4 false (Some []);
          Page.mk 1 [] 0 false (Some []);
          Page.mk 2 [] 0 false (Some []) ] in
      let analysis := Analysis.mk pages (exact 10) [] 4 in
      (structure_spans analysis initial_params).1 = HeadingDetection
      /\ len (seen_pages
                (detect_headings (exact 10) (fmul (exact 10) f_1_3) pages)) = 1).
Proof.
  vm_compute. repeat split.
Qed.

Lemma strategy_selection_witness :
  let analysis := Analysis.mk [Page.mk 0 [] 0 false None] f_1_0 [] 0 in
  let params := initial_params in
  let total := len (Analysis.pages analysis) in
  let body_size := Analysis.body_font_size analysis in
  let detected :=
    detect_headings body_size
      (fmul body_size (get (Params.heading_threshold params) f_1_3))
      (Analysis.pages analysis) in
  let by_toc :=
    2 <= len (Analysis.toc analysis)
    /\ spans_a_page total (chapter_boundaries (Analysis.toc analysis)) in
  let chosen := (structure_spans analysis params).1 in
  (chosen = EmbeddedToc <-> by_toc)
  /\ (chosen = HeadingDetection <-> ~ by_toc /\ 2 <= len detected)
  /\ (chosen = PageChunk <-> ~ by_toc /\ len detected < 2).
Proof.
  apply (strategy_selection
           (Analysis.mk [Page.mk 0 [] 0 false None] f_1_0 [] 0) initial_params).
  intros [|[|i]] pd H; simpl in H; try discriminate.
  injection H as <-. reflexivity.
Defined.

(** * Scenarios *)

(** A document of 60 pages with five outline entries of level 1 or 2 on
    the pages 0, 10, 25, 40 and 55: five chapters, the first on page 0. *)
Example scenario_outline_from_first_page :
  let toc :=
    [ (1, of_string "I", 1); (2, of_string "II", 11); (1, of_string "III", 26);
      (2, of_string "IV", 41); (1, of_string "V", 56) ] in
  exists chapters,
    structure_chapters (outlined 60 toc) ∅ initial_params = Ok chapters
    /\ map Chapter.title chapters
       = map (fun '(_, title, _) => title) toc
    /\ map (fun c => (hd 0 (Chapter.pages c), len (Chapter.pages c))) chapters
       = [(0, 10); (10, 15); (25, 15); (40, 15); (55, 5)].
Proof.
  intros toc.
  destruct (structure_chapters (outlined 60 toc) ∅ initial_params)
    as [chapters|e] eqn:E; vm_compute in E; [|discriminate].
  injection E as <-. eexists. repeat split.
Qed.

(** The same outline starting on page 3: six chapters, the first the
    front matter over the pages 0, 1 and 2. *)
Example scenario_outline_with_front_matter :
  let toc :=
    [ (1, of_string "I", 4); (2, of_string "II", 11); (1, of_string "III", 26);
      (2, of_string "IV", 41); (1, of_string "V", 56) ] in
  exists chapters,
    structure_chapters (outlined 60 toc) ∅ initial_params = Ok chapters
    /\ map Chapter.title chapters
       = front_matter_title :: map (fun '(_, title, _) => title) toc
    /\ map (fun c => (hd 0 (Chapter.pages c), len (Chapter.pages c))) chapters
       = [(0, 3); (3, 7); (10, 15); (25, 15); (40, 15); (55, 5)].
Proof.
  intros toc.
  destruct (structure_chapters (outlined 60 toc) ∅ initial_params)
    as [chapters|e] eqn:E; vm_compute in E; [|discriminate].
  injection E as <-. eexists. repeat split.
Qed.

(** A document of 40 pages without outline or headings: strategy 3 with
    the default chunk size, three chapters of 15, 15 and 10 pages. *)
Example scenario_page_chunks :
  (structure_spans (outlined 40 []) initial_params).1 = PageChunk
  /\ exists chapters,
       structure_chapters (outlined 40 []) ∅ initial_params = Ok chapters
       /\ map Chapter.title chapters
          = [section_title 1; section_title 2; section_title 3]
       /\ map (fun c => (hd 0 (Chapter.pages c), len (Chapter.pages c))) chapters
          = [(0, 15); (15, 15); (30, 10)].
Proof.
  split; [reflexivity|].
  destruct (structure_chapters (outlined 40 []) ∅ initial_params)
    as [chapters|e] eqn:E; vm_compute in E; [|discriminate].
  injection E as <-. eexists. repeat split.
Qed.

(** 850 rendered words against 1000 source words: the ratio 0.85, a
    failure by moderate word loss, and the parameters 1.2, 20 and 75
    after the adjustment. *)
Example scenario_moderate_word_loss :
  let report :=
    validate_epub (ReadItems (repeat (of_string "w") 850))
      (Analysis.mk [] f_1_0 [] 1000) 3 0 in
  Report.word_ratio report = Some (Float (lit 85 100))
  /\ Report.passed report = false
  /\ Report.failure_mode report = Some "moderate_word_loss"%string
  /\ adjust_params initial_params report
     = Params.mk (Some f_1_2) (Some 20) (Some 75).
Proof.
  vm_compute. repeat split.
Qed.

(** The analysis of a two-page document: a page of text, and a page with
    an image and three words, which is scanned. *)
Example scenario_analysis :
  let bold_span := Span.mk (of_string " Chapter 1 ") (lit 1804 100) 20 in
  let plain_span := Span.mk (of_string "some body text") (lit 1196 100) 4 in
  let doc :=
    [ RawPage.mk [TextBlock [[bold_span]; [plain_span; plain_span]]] [];
      RawPage.mk [ImageBlock; TextBlock [[plain_span]]; OtherBlock]
        [Some ([0xff%N], of_string "png"); None] ] in
  let analysis := analyze_pdf doc [] in
  map Page.page_num (Analysis.pages analysis) = [0; 1]
  /\ map Page.word_count (Analysis.pages analysis) = [8; 3]
  /\ scanned_pages analysis = [1]
  /\ Analysis.body_font_size analysis = lit 12 1
  /\ Analysis.total_words analysis = 11
  /\ map (fun b => (Block.text b, Block.bold b))
       (flat_map Page.blocks (firstn 1 (Analysis.pages analysis)))
     = [ (of_string "Chapter 1", true); (of_string "some body text", false);
         (of_string "some body text", false) ]
  /\ map (fun i => (Image.page i, Image.index i))
       (flat_map (fun p => get (Page.images p) []) (Analysis.pages analysis))
     = [(1, 0)].
Proof.
  vm_compute. repeat split.
Qed.

(** * More on the analysis *)

Lemma fold_sum {A : Type} (f : A -> Z) (l : list A) : forall a,
  fold_left (fun n x => n + f x) l a = a + zsum (map f l).
Proof.
  induction l as [|x r IH]; intros a; simpl; [lia|].
  rewrite IH. lia.
Qed.

Lemma zsum_nonneg l : Forall (fun x => 0 <= x) l -> 0 <= zsum l.
Proof.
  induction 1 as [|x r Hx _ IH]; simpl; lia.
Qed.

Lemma zsum_app l1 l2 : zsum (l1 ++ l2) = zsum l1 + zsum l2.
Proof. induction l1 as [|x r IH]; simpl; lia. Qed.

Lemma analyze_page_word_count page_num page :
  Page.word_count (analyze_page page_num page)
  = zsum (map (fun b => words (Block.text b)) (Page.blocks (analyze_page page_num page))).
Proof. simpl. rewrite fold_sum. reflexivity. Qed.

Lemma enumerate_lookup {A : Type} (l : list A) : forall start i,
  nth_error (enumerate start l) i
  = option_map (fun x => (start + Z.of_nat i, x)) (nth_error l i).
Proof.
  induction l as [|x r IH]; intros start i; destruct i as [|i]; simpl;
    try reflexivity.
  - do 2 f_equal. lia.
  - rewrite IH. destruct (nth_error r i); simpl; [|reflexivity].
    do 2 f_equal. lia.
Qed.

Lemma analyze_pdf_lookup doc toc i :
  nth_error (Analysis.pages (analyze_pdf doc toc)) i
  = option_map (analyze_page (Z.of_nat i)) (nth_error doc i).
Proof.
  simpl. rewrite nth_error_map, enumerate_lookup.
  destruct (nth_error doc i); reflexivity.
Qed.

(** X1.  The analysis holds one page for each page of the document, in
    order, each numbered by its position; the total word count is the sum
    of the word counts of the pages, each of which is the number of words
    of its blocks; and the scanned pages are those that hold an image
    block and fewer than 10 words. *)
Theorem analyze_pdf_pages doc toc :
  let analysis := analyze_pdf doc toc in
  len (Analysis.pages analysis) = len doc
  /\ (forall i page_data,
         nth_error (Analysis.pages analysis) i = Some page_data ->
         exists page,
           nth_error doc i = Some page
           /\ Page.page_num page_data = Z.of_nat i
           /\ Page.blocks page_data = page_text_blocks (RawPage.blocks page)
           /\ Page.word_count page_data
              = zsum (map (fun b => words (Block.text b)) (Page.blocks page_data))
           /\ (Page.is_scanned page_data = true
               <-> page_has_images (RawPage.blocks page) = true
                   /\ Page.word_count page_data < 10))
  /\ Analysis.total_words analysis
     = zsum (map Page.word_count (Analysis.pages analysis))
  /\ 0 <= Analysis.total_words analysis
  /\ Analysis.toc analysis = toc.
Proof.
  intros analysis. split; [|split; [|split; [|split]]].
  - subst analysis. unfold len. simpl. rewrite length_map, length_enumerate.
    reflexivity.
  - intros i page_data H. subst analysis. rewrite analyze_pdf_lookup in H.
    destruct (nth_error doc i) as [page|]; [|discriminate].
    injection H as <-. exists page. split; [reflexivity|].
    split; [reflexivity|]. split; [reflexivity|].
    split; [apply analyze_page_word_count|].
    simpl. rewrite andb_true_iff, Z.ltb_lt. reflexivity.
  - subst analysis. simpl. rewrite fold_sum. lia.
  - subst analysis. simpl. rewrite fold_sum.
    apply Z.add_nonneg_nonneg; [lia|]. apply zsum_nonneg.
    apply List.Forall_forall. intros x Hx.
    apply in_map_iff in Hx as (pd & <- & Hpd).
    apply in_map_iff in Hpd as ([n page] & <- & _).
    rewrite analyze_page_word_count. apply zsum_nonneg.
    apply List.Forall_forall. intros y Hy.
    apply in_map_iff in Hy as (b & <- & _). unfold words, len. lia.
  - reflexivity.
Qed.

(** ** Stripped text *)

Lemma lstrip_head s :
  match lstrip s with
  | [] => True
  | c :: _ => isspace c = false
  end.
Proof.
  induction s as [|c r IH]; simpl; [exact I|].
  destruct (isspace c) eqn:E; [exact IH|exact E].
Qed.

Lemma lstrip_fixed c r : isspace c = false -> lstrip (c :: r) = c :: r.
Proof. intros E. simpl. rewrite E. reflexivity. Qed.

Lemma lstrip_idem s : lstrip (lstrip s) = lstrip s.
Proof.
  pose proof (lstrip_head s) as H. destruct (lstrip s) as [|c r]; [reflexivity|].
  apply lstrip_fixed, H.
Qed.

Lemma lstrip_snoc l c :
  isspace c = false -> exists x, lstrip (l ++ [c]) = x ++ [c].
Proof.
  intros E. induction l as [|d l IH]; simpl.
  - rewrite E. exists []. reflexivity.
  - destruct (isspace d); [exact IH|]. exists (d :: l). reflexivity.
Qed.

(** What [strip] returns is empty, or begins and ends with a character
    that is no space. *)
Lemma strip_shape s :
  strip s = []
  \/ exists c middle d,
       isspace c = false /\ isspace d = false
       /\ (strip s = [c] /\ c = d \/ strip s = c :: middle ++ [d]).
Proof.
  unfold strip, rstrip.
  pose proof (lstrip_head s) as Hh.
  destruct (lstrip s) as [|c r]; [left; reflexivity|].
  right. simpl rev.
  destruct (lstrip_snoc (rev r) c Hh) as [x Hx]. rewrite Hx.
  rewrite rev_app_distr. simpl.
  pose proof (lstrip_head (rev r ++ [c])) as Hd. rewrite Hx in Hd.
  destruct x as [|d x']; simpl in *.
  - exists c, [], c. auto.
  - exists c, (rev x'), d. auto.
Qed.

Lemma strip_idem s : strip (strip s) = strip s.
Proof.
  destruct (strip_shape s) as [H|(c & middle & d & Hc & Hd & [[H _]|H])];
    rewrite H.
  - reflexivity.
  - unfold strip, rstrip. simpl. rewrite Hc. simpl. rewrite Hc. reflexivity.
  - unfold strip, rstrip. rewrite (lstrip_fixed c _ Hc).
    change (c :: middle ++ [d]) with ((c :: middle) ++ [d]).
    rewrite rev_app_distr.
    change (rev [d] ++ rev (c :: middle)) with (d :: rev (c :: middle)).
    rewrite (lstrip_fixed d _ Hd).
    change (d :: rev (c :: middle)) with (rev [d] ++ rev (c :: middle)).
    rewrite <- rev_app_distr, rev_involutive. reflexivity.
Qed.

Lemma split_ws_not_nil s : forall cur, cur <> [] -> split_ws cur s <> [].
Proof.
  induction s as [|c r IH]; intros cur Hcur; simpl.
  - destruct cur; [contradiction|discriminate].
  - destruct (isspace c).
    + destruct cur; [contradiction|discriminate].
    + apply IH. discriminate.
Qed.

Lemma words_positive c r : isspace c = false -> 1 <= words (c :: r).
Proof.
  intros E. unfold words, split, len. simpl. rewrite E.
  pose proof (split_ws_not_nil r [c] ltac:(discriminate)) as H.
  destruct (split_ws [c] r); [contradiction|]. simpl. lia.
Qed.

Lemma land_16_bit flags : Z.land flags 16 <> 0 <-> Z.testbit flags 4 = true.
Proof.
  assert (H : Z.land flags (2 ^ 4) = if Z.testbit flags 4 then 2 ^ 4 else 0).
  { apply Z.bits_inj'. intros n Hn. rewrite Z.land_spec.
    destruct (Z.eq_dec n 4) as [->|Hn4].
    - rewrite Z.pow2_bits_true by lia.
      destruct (Z.testbit flags 4); [reflexivity|].
      rewrite Z.bits_0. reflexivity.
    - rewrite Z.pow2_bits_false by lia. rewrite andb_false_r.
      destruct (Z.testbit flags 4);
        [rewrite Z.pow2_bits_false by lia; reflexivity|].
      rewrite Z.bits_0. reflexivity. }
  change 16 with (2 ^ 4). rewrite H.
  destruct (Z.testbit flags 4); split; try discriminate; try reflexivity.
  intros Hne. contradiction.
Qed.

Lemma zsum_at_least_length {A : Type} (f : A -> Z) (l : list A) :
  Forall (fun x => 1 <= f x) l -> len l <= zsum (map f l).
Proof.
  unfold len. induction 1 as [|x r Hx _ IH]; simpl; [lia|].
  simpl in IH. lia.
Qed.

Lemma span_blocks_shape span b :
  In b (span_blocks span) ->
  Block.text b <> [] /\ strip (Block.text b) = Block.text b
  /\ 1 <= words (Block.text b)
  /\ Block.text b = strip (Span.text span)
  /\ Block.size b = py_round (Span.size span) 1
  /\ (Block.bold b = true <-> Z.testbit (Span.flags span) 4 = true).
Proof.
  unfold span_blocks.
  destruct (strip (Span.text span)) as [|c r] eqn:E; [intros []|].
  intros [<-|[]]. simpl.
  split; [discriminate|]. split; [rewrite <- E; apply strip_idem|].
  split.
  { destruct (strip_shape (Span.text span))
      as [H|(c' & middle & d & Hc & _ & [[H _]|H])];
      rewrite E in H; try discriminate; injection H as -> _;
      apply words_positive, Hc. }
  split; [reflexivity|]. split; [reflexivity|].
  rewrite negb_true_iff, Z.eqb_neq. apply land_16_bit.
Qed.

Lemma span_blocks_testbit span :
  span_blocks span
  = match strip (Span.text span) with
    | [] => []
    | text =>
        [Block.mk text (py_round (Span.size span) 1)
           (Z.testbit (Span.flags span) 4)]
    end.
Proof.
  unfold span_blocks. destruct (strip (Span.text span)); [reflexivity|].
  do 2 f_equal.
  pose proof (land_16_bit (Span.flags span)) as H.
  destruct (Z.eqb_spec (Z.land (Span.flags span) 16) 0) as [E|E];
    cbn [negb].
  - destruct (Z.testbit (Span.flags span) 4) eqn:Eb; [|reflexivity].
    exfalso. apply (proj2 H); [reflexivity|exact E].
  - symmetry. apply H, E.
Qed.

Lemma page_text_blocks_spans page :
  page_text_blocks (RawPage.blocks page) = flat_map span_blocks (page_spans page).
Proof.
  unfold page_text_blocks, page_spans.
  induction (RawPage.blocks page) as [|block rest IH]; [reflexivity|].
  cbn [flat_map]. rewrite flat_map_app, IH. f_equal.
  destruct block as [|lines|]; try reflexivity.
  induction lines as [|line lines IHl]; [reflexivity|].
  cbn [flat_map concat]. rewrite flat_map_app, IHl. reflexivity.
Qed.

(** X2.  The blocks the analysis stores for a page are its spans, one
    block for each span of a text block whose stripped text is not empty,
    in reading order: the text of the block is the stripped text of the
    span, its size is the size of the span rounded to one decimal, and it
    is bold iff bit 4 (value 16) of the flags of that span is set.  So the
    text of a block is not empty, has no space at either end and holds at
    least one word, and a page has at least as many words as blocks. *)
Theorem analyze_pdf_blocks doc toc i page_data :
  nth_error (Analysis.pages (analyze_pdf doc toc)) i = Some page_data ->
  exists page,
    nth_error doc i = Some page
    /\ Page.blocks page_data
       = flat_map
           (fun span =>
              match strip (Span.text span) with
              | [] => []
              | text =>
                  [Block.mk text (py_round (Span.size span) 1)
                     (Z.testbit (Span.flags span) 4)]
              end)
           (page_spans page)
    /\ (forall block,
          In block (Page.blocks page_data) ->
          Block.text block <> [] /\ strip (Block.text block) = Block.text block
          /\ 1 <= words (Block.text block)
          /\ exists span,
               In span (page_spans page)
               /\ Block.text block = strip (Span.text span)
               /\ Block.size block = py_round (Span.size span) 1
               /\ (Block.bold block = true
                   <-> Z.testbit (Span.flags span) 4 = true))
    /\ len (Page.blocks page_data) <= Page.word_count page_data.
Proof.
  intros H. rewrite analyze_pdf_lookup in H.
  destruct (nth_error doc i) as [page|]; [|discriminate].
  injection H as <-. exists page. split; [reflexivity|].
  assert (Hblocks : Page.blocks (analyze_page (Z.of_nat i) page)
                    = flat_map span_blocks (page_spans page))
    by apply page_text_blocks_spans.
  assert (Hin : forall block,
             In block (Page.blocks (analyze_page (Z.of_nat i) page)) ->
             exists span, In span (page_spans page) /\ In block (span_blocks span)).
  { intros block Hb. rewrite Hblocks in Hb.
    apply in_flat_map in Hb as (span & Hs & Hb). eauto. }
  split; [|split].
  - rewrite Hblocks. apply flat_map_ext. intros span. apply span_blocks_testbit.
  - intros block Hb. destruct (Hin block Hb) as (span & Hspan & Hs).
    destruct (span_blocks_shape span block Hs) as (H1 & H2 & H3 & H4 & H5 & H6).
    repeat split; try assumption. exists span. auto.
  - rewrite analyze_page_word_count.
    assert (Hall : Forall (fun b => 1 <= words (Block.text b))
                     (Page.blocks (analyze_page (Z.of_nat i) page))).
    { apply List.Forall_forall. intros b Hb.
      destruct (Hin b Hb) as (span & _ & Hs).
      apply (span_blocks_shape span b Hs). }
    apply zsum_at_least_length, Hall.
Qed.

Lemma analyze_pdf_blocks_witness :
  let page :=
    RawPage.mk
      [TextBlock [[Span.mk (of_string " Two words ") (lit 1196 100) 16;
                   Span.mk (of_string "  ") (lit 12 1) 0;
                   Span.mk (of_string "plain") (lit 12 1) 4]]] [] in
  let page_data := analyze_page 0 page in
  exists page',
    nth_error [page] 0 = Some page'
    /\ Page.blocks page_data
       = flat_map
           (fun span =>
              match strip (Span.text span) with
              | [] => []
              | text =>
                  [Block.mk text (py_round (Span.size span) 1)
                     (Z.testbit (Span.flags span) 4)]
              end)
           (page_spans page')
    /\ (forall block,
          In block (Page.blocks page_data) ->
          Block.text block <> [] /\ strip (Block.text block) = Block.text block
          /\ 1 <= words (Block.text block)
          /\ exists span,
               In span (page_spans page')
               /\ Block.text block = strip (Span.text span)
               /\ Block.size block = py_round (Span.size span) 1
               /\ (Block.bold block = true
                   <-> Z.testbit (Span.flags span) 4 = true))
    /\ len (Page.blocks page_data) <= Page.word_count page_data.
Proof.
  intros page page_data.
  apply (analyze_pdf_blocks [page] [] 0 page_data).
  reflexivity.
Defined.

(** ** Images and the body size *)

Lemma enumerate_in {A : Type} (l : list A) : forall start j x,
  In (j, x) (enumerate start l)
  <-> start <= j /\ nth_error l (Z.to_nat (j - start)) = Some x.
Proof.
  induction l as [|y r IH]; intros start j x; simpl.
  - split; [intros []|]. intros [_ H]. destruct (Z.to_nat (j - start)); discriminate.
  - rewrite IH. split.
    + intros [[= <- <-]|[Hle H]].
      * rewrite Z.sub_diag. simpl. split; [lia|reflexivity].
      * split; [lia|]. replace (Z.to_nat (j - start)) with (S (Z.to_nat (j - (start + 1)))) by lia.
        exact H.
    + intros [Hle H]. destruct (Z.eq_dec j start) as [->|Hne].
      * rewrite Z.sub_diag in H. simpl in H. injection H as ->. auto.
      * right. split; [lia|].
        replace (Z.to_nat (j - start)) with (S (Z.to_nat (j - (start + 1)))) in H by lia.
        exact H.
Qed.

Lemma enumerate_indices {A : Type} (l : list A) : forall start,
  strictly_ascending (map fst (enumerate start l)).
Proof.
  induction l as [|x r IH]; intros start; [exact I|].
  simpl. destruct r as [|y r']; [exact I|].
  split; [simpl; lia|]. apply (IH (start + 1)).
Qed.

(** Dropping elements of a strictly ascending list leaves it strictly
    ascending. *)
Lemma strictly_ascending_lower a l :
  strictly_ascending (a :: l) -> Forall (fun x => a < x) l.
Proof.
  revert a. induction l as [|b r IH]; intros a H; [constructor|].
  destruct H as [Hab H]. constructor; [exact Hab|].
  eapply Forall_impl; [apply IH, H|]. simpl. intros; lia.
Qed.

Lemma strictly_ascending_cons a l :
  Forall (fun x => a < x) l -> strictly_ascending l -> strictly_ascending (a :: l).
Proof.
  intros Hall H. destruct l as [|b r]; [exact I|].
  split; [|exact H]. apply Forall_cons_iff in Hall as [Hab _]. exact Hab.
Qed.

Lemma page_images_indices page_num (entries : list (Z * option (list N * str))) :
  strictly_ascending (map fst entries) ->
  strictly_ascending
    (map Image.index
       (flat_map
          (fun entry =>
             match entry with
             | (img_index, Some (data, ext)) =>
                 [Image.mk data (Some ext) page_num img_index]
             | (_, None) => []
             end) entries))
  /\ Forall (fun i => exists e, In e entries /\ e.1 = Image.index i)
       (flat_map
          (fun entry =>
             match entry with
             | (img_index, Some (data, ext)) =>
                 [Image.mk data (Some ext) page_num img_index]
             | (_, None) => []
             end) entries).
Proof.
  induction entries as [|[j [[data ext]|]] r IH]; intros H.
  - split; [exact I|constructor].
  - assert (Hr : strictly_ascending (map fst r)).
    { destruct r; [exact I|]. apply H. }
    destruct (IH Hr) as [IH1 IH2]. simpl. split.
    + apply strictly_ascending_cons; [|exact IH1].
      apply strictly_ascending_lower in H.
      apply List.Forall_forall. intros x Hx.
      apply in_map_iff in Hx as (img & <- & Himg).
      rewrite List.Forall_forall in IH2. destruct (IH2 img Himg) as (e & He & <-).
      rewrite List.Forall_forall in H. apply H. apply in_map, He.
    + constructor.
      * exists (j, Some (data, ext)). split; [left; reflexivity|reflexivity].
      * eapply Forall_impl; [exact IH2|]. simpl. intros i (e & He & Hi).
        exists e. auto.
  - assert (Hr : strictly_ascending (map fst r)).
    { destruct r; [exact I|]. apply H. }
    destruct (IH Hr) as [IH1 IH2]. simpl. split; [exact IH1|].
    eapply Forall_impl; [exact IH2|]. simpl. intros i (e & He & Hi).
    exists e. auto.
Qed.

(** X3.  An image whose extraction fails is dropped and nothing else is:
    the images of a page are exactly the successful extractions, each with
    the number of its page and the position it had in the image list of
    the page; they are stored in that order. *)
Theorem page_images_kept page_num image_list :
  (forall img,
      In img (page_images page_num image_list)
      <-> exists j data ext,
            nth_error image_list j = Some (Some (data, ext))
            /\ img = Image.mk data (Some ext) page_num (Z.of_nat j))
  /\ strictly_ascending (map Image.index (page_images page_num image_list))
  /\ (forall page,
        Page.images (analyze_page page_num page)
        = Some (page_images page_num (RawPage.images page))).
Proof.
  split; [|split; [|reflexivity]].
  - intros img. unfold page_images. rewrite in_flat_map. split.
    + intros ([j [[data ext]|]] & Hin & Himg); [|destruct Himg].
      destruct Himg as [<-|[]].
      apply enumerate_in in Hin as [Hle H].
      exists (Z.to_nat (j - 0)), data, ext. split; [exact H|].
      f_equal. lia.
    + intros (j & data & ext & H & ->).
      exists (Z.of_nat j, Some (data, ext)). split; [|left; reflexivity].
      apply enumerate_in. split; [lia|].
      replace (Z.to_nat (Z.of_nat j - 0)) with j by lia. exact H.
  - apply page_images_indices, enumerate_indices.
Qed.

Lemma count_size_keys size counts k :
  In k (map fst (count_size size counts)) -> k = size \/ In k (map fst counts).
Proof.
  induction counts as [|[k' n] r IH]; simpl.
  - intros [<-|[]]. auto.
  - destruct (SFeqb k' size); simpl; intros [<-|H]; auto.
    destruct (IH H); auto.
Qed.

Lemma counted_keys sizes : forall counts k,
  In k (map fst (fold_left (fun counts size => count_size size counts) sizes counts)) ->
  In k sizes \/ In k (map fst counts).
Proof.
  induction sizes as [|s r IH]; intros counts k H; simpl in *; [auto|].
  destruct (IH _ _ H) as [Hr|Hc]; [auto|].
  destruct (count_size_keys _ _ _ Hc) as [->|Hc']; auto.
Qed.

Lemma most_common_in counts : forall best entry,
  fold_left
    (fun (best : option (float * Z)) (entry : float * Z) =>
       match best with
       | None => Some entry
       | Some kept => if kept.2 <? entry.2 then Some entry else best
       end) counts best = Some entry ->
  In entry counts \/ best = Some entry.
Proof.
  induction counts as [|e r IH]; intros best entry H; simpl in *; [auto|].
  destruct (IH _ _ H) as [Hr|Hb]; [auto|].
  destruct best as [kept|].
  - destruct (kept.2 <? e.2); [injection Hb as <-|]; auto.
  - injection Hb as <-. auto.
Qed.

Lemma most_common_some counts : forall best,
  (counts <> [] \/ best <> None) ->
  fold_left
    (fun (best : option (float * Z)) (entry : float * Z) =>
       match best with
       | None => Some entry
       | Some kept => if kept.2 <? entry.2 then Some entry else best
       end) counts best <> None.
Proof.
  induction counts as [|e r IH]; intros best H; simpl.
  - destruct H as [H|H]; [contradiction|exact H].
  - apply IH. right. destruct best as [kept|]; [|discriminate].
    destruct (kept.2 <? e.2); discriminate.
Qed.

Lemma count_size_not_nil size counts : count_size size counts <> [].
Proof.
  destruct counts as [|[k n] r]; simpl; [discriminate|].
  destruct (SFeqb k size); discriminate.
Qed.

Lemma counted_not_nil sizes : forall counts,
  (sizes <> [] \/ counts <> []) ->
  fold_left (fun counts size => count_size size counts) sizes counts <> [].
Proof.
  induction sizes as [|s r IH]; intros counts H; simpl.
  - destruct H as [H|H]; [contradiction|exact H].
  - apply IH. right. apply count_size_not_nil.
Qed.

Lemma body_size_of_cases sizes :
  (sizes = [] -> body_size_of sizes = lit 12 1)
  /\ (sizes <> [] -> In (body_size_of sizes) sizes).
Proof.
  unfold body_size_of, most_common. split.
  - intros ->. reflexivity.
  - intros Hne.
    destruct (fold_left _ (fold_left _ sizes []) None) as [[size n]|] eqn:E.
    + apply most_common_in in E as [Hin|Hb]; [|discriminate].
      apply (in_map fst) in Hin. simpl in Hin.
      apply counted_keys in Hin as [H|[]]. exact H.
    + exfalso. revert E. apply most_common_some. left.
      apply counted_not_nil. auto.
Qed.

(** X4.  The body size of a document without text is 12.0; the body size
    of any other document is the size of one of its blocks. *)
Theorem body_font_size_observed doc toc :
  let analysis := analyze_pdf doc toc in
  let sizes :=
    flat_map (fun page => map Block.size (Page.blocks page))
      (Analysis.pages analysis) in
  (sizes = [] -> Analysis.body_font_size analysis = lit 12 1)
  /\ (sizes <> [] -> In (Analysis.body_font_size analysis) sizes).
Proof.
  intros analysis sizes.
  change (Analysis.body_font_size analysis) with (body_size_of sizes).
  apply body_size_of_cases.
Qed.

(** * More on the structuring *)

Lemma py_range_in a b x : In x (py_range a b) <-> a <= x < b.
Proof.
  unfold py_range. rewrite <- list_elem_of_In, elem_of_seqZ. lia.
Qed.

Lemma py_range_head a b x l : py_range a b = x :: l -> x = a /\ a < b.
Proof.
  intros H. destruct (Z_lt_le_dec a b) as [Hlt|Hle].
  - rewrite py_range_cons in H by assumption. injection H as <- _. auto.
  - rewrite py_range_nil in H by assumption. discriminate.
Qed.

Lemma py_range_length a b : len (py_range a b) = Z.max 0 (b - a).
Proof. unfold len, py_range. rewrite length_seqZ. lia. Qed.

Lemma valid_span total title a b :
  0 <= a -> a < b -> b <= total ->
  valid_chapter total (Chapter.span title (py_range a b)).
Proof.
  intros Ha Hab Hb. split; [|split]; simpl.
  - rewrite py_range_cons by assumption. discriminate.
  - exists a, b. reflexivity.
  - apply List.Forall_forall. intros x Hx. apply py_range_in in Hx. lia.
Qed.

Lemma valid_step total title a b chapters :
  0 <= a -> b <= total ->
  Forall (valid_chapter total) chapters ->
  Forall (valid_chapter total)
    match py_range a b with
    | [] => chapters
    | _ :: _ => Chapter.span title (py_range a b) :: chapters
    end.
Proof.
  intros Ha Hb Hs. destruct (py_range a b) as [|x xs] eqn:E; [exact Hs|].
  constructor; [|exact Hs]. rewrite <- E.
  apply py_range_head in E as [_ Hlt]. apply valid_span; assumption.
Qed.

Lemma toc_chapters_valid total bs : Forall (valid_chapter total) (toc_chapters total bs).
Proof.
  induction bs as [|b rest IH]; [constructor|].
  rewrite toc_chapters_cons. apply valid_step; [lia|lia|exact IH].
Qed.

Lemma heading_chapters_valid total hs :
  Forall (fun h => 0 <= Heading.page h < total) hs ->
  Forall (valid_chapter total) (heading_chapters total hs).
Proof.
  induction hs as [|h rest IH]; intros Hb; [constructor|].
  apply Forall_cons_iff in Hb as [Hh Hrest].
  rewrite heading_chapters_cons. apply valid_step; [lia| |auto].
  destruct rest as [|h' rest']; [lia|].
  apply Forall_cons_iff in Hrest as [Hh' _]. simpl. lia.
Qed.

(** The front-matter step on valid chapters: the chapters it returns are
    valid, the first starts on page 0, and no page is lost or added but
    those of the front matter. *)
Lemma add_front_matter_valid total chapters :
  chapters <> [] ->
  Forall (valid_chapter total) chapters ->
  exists chapters' first,
    add_front_matter chapters = Ok chapters'
    /\ Forall (valid_chapter total) chapters'
    /\ hd_error (all_pages chapters) = Some first
    /\ hd_error (all_pages chapters') = Some 0
    /\ (forall p, In p (all_pages chapters')
                  <-> 0 <= p < first \/ In p (all_pages chapters))
    /\ (chapters' = chapters
        \/ chapters' = Chapter.span front_matter_title (py_range 0 first) :: chapters).
Proof.
  intros Hne Hvalid.
  destruct chapters as [|c0 rest]; [contradiction|].
  apply Forall_cons_iff in Hvalid as Hv. destruct Hv as [(Hp0 & _ & Hrange) _].
  destruct (Chapter.pages c0) as [|p0 ps] eqn:Ep; [contradiction|].
  apply Forall_cons_iff in Hrange as [Hp0r _].
  unfold add_front_matter. simpl. rewrite Ep. simpl.
  destruct (0 <? p0) eqn:E0.
  - apply Z.ltb_lt in E0. rewrite (py_range_cons 0 p0) by lia.
    eexists _, p0. split; [reflexivity|].
    rewrite <- (py_range_cons 0 p0) by lia.
    split; [|split; [|split; [|split]]].
    + constructor; [|exact Hvalid]. apply valid_span; lia.
    + rewrite all_pages_cons, Ep. reflexivity.
    + rewrite all_pages_cons. cbn [Chapter.pages Chapter.span].
      rewrite (py_range_cons 0 p0) by lia. reflexivity.
    + intros p. rewrite all_pages_cons. cbn [Chapter.pages Chapter.span].
      rewrite in_app_iff, py_range_in. reflexivity.
    + right. reflexivity.
  - apply Z.ltb_ge in E0. assert (p0 = 0) as -> by lia.
    eexists _, 0. split; [reflexivity|].
    split; [exact Hvalid|]. split; [rewrite all_pages_cons, Ep; reflexivity|].
    split; [rewrite all_pages_cons, Ep; reflexivity|].
    split; [|left; reflexivity].
    intros p. split; [auto|]. intros [H|H]; [lia|exact H].
Qed.

(** ** The outline out of page order *)

Lemma toc_covers_from total rest : forall b p,
  Boundary.start_page b <= p -> 0 <= p < total ->
  In p (all_pages (toc_chapters total (b :: rest))).
Proof.
  induction rest as [|b' rest' IH]; intros b p Hs Hp;
    rewrite toc_chapters_cons; cbv zeta; rewrite all_pages_step;
    apply in_or_app.
  - left. apply py_range_in. lia.
  - destruct (Z_le_gt_dec (Boundary.start_page b') p) as [Hle|Hgt].
    + right. apply IH; assumption.
    + left. apply py_range_in. lia.
Qed.

Lemma toc_covers_after_first total bs : forall first p,
  hd_error (all_pages (toc_chapters total bs)) = Some first ->
  first <= p < total ->
  In p (all_pages (toc_chapters total bs)).
Proof.
  induction bs as [|b rest IH]; intros first p Hfirst Hp; [discriminate|].
  destruct (py_range (Z.max 0 (Boundary.start_page b))
              (Z.min match rest with
                     | next :: _ => Boundary.start_page next
                     | [] => total
                     end total)) as [|x xs] eqn:E.
  - rewrite toc_chapters_cons in *. cbv zeta in *. rewrite E in *.
    apply (IH first); assumption.
  - assert (Hx : first = x).
    { rewrite toc_chapters_cons in Hfirst. cbv zeta in Hfirst.
      rewrite all_pages_step, E in Hfirst. simpl in Hfirst. congruence. }
    apply py_range_head in E as [-> _].
    apply toc_covers_from; lia.
Qed.

(** X5.  Strategy 1 loses no page, whatever the order of the outline:
    when it is taken the call succeeds, every page of the document lies in
    at least one chapter, the first chapter starts on page 0, and every
    chapter is a non-empty run of consecutive pages of the document. *)
Theorem outline_loses_no_page analysis params :
  (structure_spans analysis params).1 = EmbeddedToc ->
  let total := len (Analysis.pages analysis) in
  exists chapters,
    (structure_spans analysis params).2 = Ok chapters
    /\ Forall (valid_chapter total) chapters
    /\ hd_error (all_pages chapters) = Some 0
    /\ forall p, 0 <= p < total -> In p (all_pages chapters).
Proof.
  intros Hs total. unfold structure_spans in *. fold total in Hs |- *.
  set (by_toc := if 2 <=? len (Analysis.toc analysis) then _ else []) in *.
  destruct by_toc as [|c0 cs] eqn:Etoc.
  - exfalso. revert Hs. clear.
    match goal with |- context [match ?x with [] => _ | _ :: _ => _ end] =>
      destruct x end; discriminate.
  - simpl. rewrite <- Etoc.
    assert (Hby : by_toc = toc_chapters total (chapter_boundaries (Analysis.toc analysis))).
    { subst by_toc. destruct (2 <=? _); [reflexivity|discriminate]. }
    destruct (add_front_matter_valid total by_toc) as
      (chs & first & Hok & Hvalid & Hfirst & Hzero & Hin & _).
    { rewrite Etoc. discriminate. }
    { rewrite Hby. apply toc_chapters_valid. }
    exists chs. split; [exact Hok|]. split; [exact Hvalid|]. split; [exact Hzero|].
    intros p Hp. apply Hin.
    destruct (Z_lt_le_dec p first) as [Hlt|Hle]; [left; lia|].
    right. rewrite Hby in *. apply (toc_covers_after_first _ _ first); [exact Hfirst|lia].
Qed.

Lemma outline_loses_no_page_witness :
  let analysis :=
    outlined 10 [(1, of_string "A", 1); (1, of_string "B", 5); (1, of_string "C", 3)] in
  let total := len (Analysis.pages analysis) in
  exists chapters,
    (structure_spans analysis initial_params).2 = Ok chapters
    /\ Forall (valid_chapter total) chapters
    /\ hd_error (all_pages chapters) = Some 0
    /\ forall p, 0 <= p < total -> In p (all_pages chapters).
Proof.
  apply (outline_loses_no_page
           (outlined 10 [(1, of_string "A", 1); (1, of_string "B", 5);
                         (1, of_string "C", 3)])
           initial_params).
  reflexivity.
Defined.

(** ** Strategies 2 and 3 *)

Lemma in_all_pages chapters c p :
  In c chapters -> In p (Chapter.pages c) -> In p (all_pages chapters).
Proof.
  intros Hc Hp. unfold all_pages. apply in_concat.
  exists (Chapter.pages c). split; [apply in_map; exact Hc|exact Hp].
Qed.

Lemma sound_valid total chapters :
  Forall sound_chapter chapters ->
  all_pages chapters = py_range 0 total ->
  Forall (valid_chapter total) chapters.
Proof.
  intros Hs Hall. apply List.Forall_forall. intros c Hc.
  rewrite List.Forall_forall in Hs. destruct (Hs c Hc) as (Hne & Hcont & _).
  split; [exact Hne|]. split; [exact Hcont|].
  apply List.Forall_forall. intros p Hp.
  apply py_range_in. rewrite <- Hall. apply (in_all_pages chapters c); assumption.
Qed.

(** X6.  Strategies 2 and 3 partition the document: on pages numbered by
    their position and with a positive chunk size, whenever the outline is
    not used the call succeeds and the pages of the chapters, read in
    order, are exactly 0, 1, ..., total - 1, each chapter a non-empty run
    of consecutive pages. *)
Theorem without_outline_partition analysis params :
  well_numbered (Analysis.pages analysis) ->
  0 < get (Params.chunk_size params) 15 ->
  (structure_spans analysis params).1 <> EmbeddedToc ->
  let total := len (Analysis.pages analysis) in
  exists chapters,
    (structure_spans analysis params).2 = Ok chapters
    /\ Forall (valid_chapter total) chapters
    /\ all_pages chapters = py_range 0 total.
Proof.
  intros Hnum Hchunk Hs total.
  destruct (structure_spans_cover analysis params Hnum Hchunk) as
    (chapters & Hok & Hsound & Hall).
  { intros H. contradiction. }
  exists chapters. split; [exact Hok|]. split; [|exact Hall].
  apply sound_valid; assumption.
Qed.

Lemma without_outline_partition_witness :
  let analysis := outlined 3 [] in
  let total := len (Analysis.pages analysis) in
  exists chapters,
    (structure_spans analysis initial_params).2 = Ok chapters
    /\ Forall (valid_chapter total) chapters
    /\ all_pages chapters = py_range 0 total.
Proof.
  apply (without_outline_partition (outlined 3 []) initial_params).
  - intros [|[|[|i]]] page_data H; vm_compute in H;
      try (destruct i; discriminate); injection H as <-; reflexivity.
  - simpl. lia.
  - vm_compute. discriminate.
Defined.

Lemma chunk_fold total chunk_size (m : nat) :
  fold_left (add_chunk total chunk_size)
    (map (fun k => 0 + k * chunk_size) (seqZ 0 (Z.of_nat m))) []
  = map (fun k => Chapter.span (section_title (k + 1))
                    (py_range (k * chunk_size)
                       (Z.min (k * chunk_size + chunk_size) total)))
      (seqZ 0 (Z.of_nat m)).
Proof.
  induction m as [|m IH]; [reflexivity|].
  rewrite seqZ_S, !map_app, fold_left_app, IH. cbn [map fold_left].
  unfold add_chunk at 1. f_equal. f_equal.
  unfold len. rewrite length_map, length_seqZ, Nat2Z.id.
  rewrite !Z.add_0_l. reflexivity.
Qed.

(** X7.  Strategy 3 with a positive chunk size: the chapters are
    ceil(total / chunk_size) many; chapter k (from 0) is titled
    [Sección k+1] and holds the pages from k * chunk_size up to, and
    without, the smaller of (k + 1) * chunk_size and total. *)
Theorem chunk_chapters_formula total chunk_size :
  0 < chunk_size ->
  chunk_chapters total chunk_size
  = Ok (map (fun k => Chapter.span (section_title (k + 1))
                        (py_range (k * chunk_size)
                           (Z.min (k * chunk_size + chunk_size) total)))
          (seqZ 0 ((total + chunk_size - 1) / chunk_size))).
Proof.
  intros Hc. unfold chunk_chapters, py_range_step.
  destruct (chunk_size =? 0) eqn:E0; [apply Z.eqb_eq in E0; lia|].
  destruct (0 <? chunk_size) eqn:E1; [|apply Z.ltb_ge in E1; lia].
  cbn [rbind]. f_equal.
  replace (total - 0 + chunk_size - 1) with (total + chunk_size - 1) by lia.
  set (n := (total + chunk_size - 1) / chunk_size).
  destruct (Z_lt_le_dec n 0) as [Hneg|Hpos].
  - unfold seqZ. replace (Z.to_nat n) with O by lia. reflexivity.
  - rewrite <- (Z2Nat.id n) by lia. apply chunk_fold.
Qed.

Lemma chunk_chapters_formula_witness :
  chunk_chapters 40 15
  = Ok (map (fun k => Chapter.span (section_title (k + 1))
                        (py_range (k * 15) (Z.min (k * 15 + 15) 40)))
          (seqZ 0 ((40 + 15 - 1) / 15))).
Proof. apply (chunk_chapters_formula 40 15). lia. Defined.

(** X8.  Strategy 3 at the edge of its chunk size.  When neither the
    outline nor the headings give chapters, a chunk size of 0 makes
    [structure_chapters] raise [ValueError], and a negative one makes it
    return no chapter at all, whatever the number of pages. *)
Theorem chunk_size_not_positive analysis ocr_results params :
  (structure_spans analysis params).1 = PageChunk ->
  let chunk_size := get (Params.chunk_size params) 15 in
  (chunk_size = 0 ->
   structure_chapters analysis ocr_results params = Raise ValueError)
  /\ (chunk_size < 0 ->
      structure_chapters analysis ocr_results params = Ok []).
Proof.
  intros Hs chunk_size.
  assert (Hspans : (structure_spans analysis params).2
                   = chunk_chapters (len (Analysis.pages analysis)) chunk_size).
  { revert Hs. unfold structure_spans. fold chunk_size.
    destruct (if 2 <=? len (Analysis.toc analysis) then _ else _);
      [|discriminate].
    destruct (if 2 <=? len (detect_headings _ _ _) then _ else _);
      [reflexivity|discriminate]. }
  unfold structure_chapters. rewrite Hspans.
  unfold chunk_chapters, py_range_step.
  split; intros Hc.
  - rewrite Hc. reflexivity.
  - destruct (chunk_size =? 0) eqn:E0; [apply Z.eqb_eq in E0; lia|].
    destruct (0 <? chunk_size) eqn:E1; [apply Z.ltb_lt in E1; lia|].
    assert (Hlen : 0 <= len (Analysis.pages analysis)) by (unfold len; lia).
    set (total := len (Analysis.pages analysis)) in *.
    assert (Hn : (0 - total - chunk_size - 1) / - chunk_size <= 0).
    { apply Z.lt_succ_r. apply Z.div_lt_upper_bound; lia. }
    unfold seqZ. replace (Z.to_nat _) with O by lia. reflexivity.
Qed.

Lemma chunk_size_not_positive_witness :
  let analysis := outlined 40 [] in
  let params := Params.mk None (Some 0) None in
  let chunk_size := get (Params.chunk_size params) 15 in
  (chunk_size = 0 ->
   structure_chapters analysis ∅ params = Raise ValueError)
  /\ (chunk_size < 0 ->
      structure_chapters analysis ∅ params = Ok []).
Proof.
  apply (chunk_size_not_positive (outlined 40 []) ∅ (Params.mk None (Some 0) None)).
  vm_compute. reflexivity.
Defined.

(** ** The pages that start a chapter under strategy 2 *)

Lemma dict_get_keys k d : dict_get k d = None <-> ~ In k (map fst d).
Proof.
  induction d as [|[k' v'] r IH]; simpl; [tauto|].
  destruct (k' =? k) eqn:E.
  - apply Z.eqb_eq in E. split; [discriminate|]. intros H. exfalso. auto.
  - apply Z.eqb_neq in E. rewrite IH. tauto.
Qed.

Lemma dict_set_keys k v d :
  map fst (dict_set k v d)
  = map fst d ++ match dict_get k d with Some _ => [] | None => [k] end.
Proof.
  induction d as [|[k' v'] r IH]; simpl; [reflexivity|].
  destruct (k' =? k) eqn:E; simpl.
  - apply Z.eqb_eq in E. subst k'. rewrite app_nil_r. reflexivity.
  - rewrite IH. reflexivity.
Qed.

Lemma see_keys seen h :
  map fst (see seen h)
  = map fst seen ++ match dict_get (Heading.page h) seen with
                    | Some _ => []
                    | None => [Heading.page h]
                    end.
Proof.
  unfold see. destruct (dict_get (Heading.page h) seen) as [kept|] eqn:E.
  - destruct (fgt _ _); [|rewrite app_nil_r; reflexivity].
    rewrite dict_set_keys, E. reflexivity.
  - rewrite dict_set_keys, E. reflexivity.
Qed.

Lemma fold_see_keys l : forall seen,
  NoDup (map fst seen) ->
  NoDup (map fst (fold_left see l seen))
  /\ forall p, In p (map fst (fold_left see l seen))
               <-> In p (map fst seen) \/ In p (map Heading.page l).
Proof.
  induction l as [|h l IH]; intros seen Hnd; simpl.
  - split; [exact Hnd|]. intros p. tauto.
  - assert (Hnd' : NoDup (map fst (see seen h))).
    { rewrite see_keys.
      destruct (dict_get (Heading.page h) seen) eqn:E;
        [rewrite app_nil_r; exact Hnd|].
      apply dict_get_keys in E.
      apply NoDup_app. split; [exact Hnd|]. split.
      - intros x Hx Hx'. apply list_elem_of_In in Hx, Hx'.
        destruct Hx' as [<-|[]]. contradiction.
      - apply NoDup_singleton. }
    destruct (IH _ Hnd') as [H1 H2]. split; [exact H1|].
    intros p. rewrite H2, see_keys, in_app_iff.
    destruct (dict_get (Heading.page h) seen) eqn:E; simpl.
    + assert (In (Heading.page h) (map fst seen)).
      { destruct (in_dec Z.eq_dec (Heading.page h) (map fst seen)) as [H|H];
          [exact H|]. apply dict_get_keys in H. congruence. }
      split; [tauto|]. intros [H'|[<-|H']]; auto.
    + tauto.
Qed.

Lemma fold_see_keyed l : forall seen,
  Forall (fun x => Heading.page (snd x) = fst x) seen ->
  Forall (fun x => Heading.page (snd x) = fst x) (fold_left see l seen).
Proof.
  induction l as [|h l IH]; intros seen Hk; simpl; [exact Hk|].
  apply IH. apply List.Forall_forall. intros x Hx.
  destruct (see_in _ _ _ Hx) as [->|H]; [reflexivity|].
  rewrite List.Forall_forall in Hk. auto.
Qed.

Lemma seen_pages_keys l :
  NoDup (map Heading.page (map snd (seen_pages l)))
  /\ forall p, In p (map Heading.page (map snd (seen_pages l)))
               <-> In p (map Heading.page l).
Proof.
  assert (Hk : map Heading.page (map snd (seen_pages l)) = map fst (seen_pages l)).
  { rewrite map_map. apply map_ext_in. intros x Hx.
    pose proof (fold_see_keyed l [] (List.Forall_nil _)) as H.
    rewrite List.Forall_forall in H. apply H. exact Hx. }
  rewrite Hk. destruct (fold_see_keys l [] (NoDup_nil_2 : NoDup (map fst [])) ) as [H1 H2].
  split; [exact H1|]. intros p. rewrite seen_pages_fold, H2. simpl. tauto.
Qed.

Lemma ascending_strict l : ascending l -> NoDup l -> strictly_ascending l.
Proof.
  induction l as [|a [|b r] IH]; intros Ha Hn; simpl; auto.
  destruct Ha as [Hle Ha]. apply NoDup_cons in Hn as [Hnot Hn].
  split; [|apply IH; assumption].
  assert (a <> b).
  { intros ->. apply Hnot. apply list_elem_of_In. left. reflexivity. }
  lia.
Qed.

Lemma heading_chapters_starts total hs :
  strictly_ascending (map Heading.page hs) ->
  Forall (fun h => 0 <= Heading.page h < total) hs ->
  chapter_starts (heading_chapters total hs) = map Heading.page hs
  /\ map Chapter.title (heading_chapters total hs) = map Heading.title hs.
Proof.
  induction hs as [|h rest IH]; intros Hasc Hb; [split; reflexivity|].
  apply Forall_cons_iff in Hb as [Hh Hrest].
  assert (Hrest_asc : strictly_ascending (map Heading.page rest)).
  { destruct rest; [exact I|]. apply Hasc. }
  destruct (IH Hrest_asc Hrest) as [IH1 IH2].
  rewrite heading_chapters_cons. cbv zeta.
  set (end_ := match rest with next :: _ => Heading.page next | [] => total end).
  assert (Hlt : Heading.page h < end_).
  { subst end_. destruct rest; [lia|]. apply Hasc. }
  rewrite (py_range_cons (Heading.page h) end_) by exact Hlt.
  cbn [chapter_starts flat_map Chapter.pages Chapter.span map Chapter.title app].
  fold (chapter_starts (heading_chapters total rest)).
  rewrite IH1, IH2. split; reflexivity.
Qed.

(** X9.  Strategy 2 starts one chapter on every page that carries a
    detected heading, and nowhere else but on the first page: on pages
    numbered by their position, when the headings are used the call
    succeeds, the chapters start on strictly ascending pages, the first on
    page 0, and a later page starts a chapter exactly when a heading was
    detected on it. *)
Theorem heading_pages_start_chapters analysis params :
  well_numbered (Analysis.pages analysis) ->
  (structure_spans analysis params).1 = HeadingDetection ->
  let body_size := Analysis.body_font_size analysis in
  let detected :=
    detect_headings body_size
      (fmul body_size (get (Params.heading_threshold params) f_1_3))
      (Analysis.pages analysis) in
  exists chapters,
    (structure_spans analysis params).2 = Ok chapters
    /\ strictly_ascending (chapter_starts chapters)
    /\ hd_error (chapter_starts chapters) = Some 0
    /\ forall p, 0 < p ->
         (In p (chapter_starts chapters) <-> In p (map Heading.page detected)).
Proof.
  intros Hnum Hs body_size detected.
  set (total := len (Analysis.pages analysis)).
  set (hs := sorted_by_page (map snd (seen_pages detected))).
  assert (Hspans : (structure_spans analysis params).2
                   = add_front_matter (heading_chapters total hs)
                   /\ heading_chapters total hs <> []).
  { revert Hs. unfold structure_spans.
    fold body_size. fold detected. fold total. fold hs.
    destruct (if 2 <=? len (Analysis.toc analysis) then _ else _);
      [|discriminate].
    destruct (2 <=? len detected).
    - destruct (heading_chapters total hs) eqn:E; [discriminate|].
      intros _. split; [reflexivity|discriminate].
    - discriminate. }
  destruct Hspans as [Hspans Hne]. rewrite Hspans.
  destruct (sorted_headings_facts body_size
              (fmul body_size (get (Params.heading_threshold params) f_1_3))
              (Analysis.pages analysis) Hnum) as (Hb & Hasc & _).
  fold detected in Hb, Hasc. fold hs in Hb, Hasc. fold total in Hb.
  destruct (seen_pages_keys detected) as [Hnd Hkeys].
  assert (Hperm : Permutation (map Heading.page hs)
                    (map Heading.page (map snd (seen_pages detected)))).
  { apply Permutation_map, sorted_by_page_perm. }
  assert (Hstrict : strictly_ascending (map Heading.page hs)).
  { apply ascending_strict; [exact Hasc|].
    apply NoDup_ListNoDup. apply (Permutation_NoDup (Permutation_sym Hperm)).
    apply NoDup_ListNoDup. exact Hnd. }
  destruct (heading_chapters_starts total hs Hstrict Hb) as [Hstarts _].
  destruct (add_front_matter_valid total (heading_chapters total hs) Hne
              (heading_chapters_valid total hs Hb))
    as (chs & first & Hok & Hvalid & Hfirst & Hzero & _ & Hshape).
  exists chs. split; [exact Hok|].
  assert (Hmem : forall p, In p (map Heading.page hs)
                           <-> In p (map Heading.page detected)).
  { intros p. rewrite <- Hkeys. split; apply Permutation_in;
      [exact Hperm|apply Permutation_sym, Hperm]. }
  assert (Hhd : forall cs, hd_error (all_pages cs) = hd_error (chapter_starts cs)
                           \/ exists c, In c cs /\ Chapter.pages c = []).
  { induction cs as [|c cs IHcs]; [left; reflexivity|].
    rewrite all_pages_cons. simpl.
    destruct (Chapter.pages c) eqn:E; [right; exists c; split; [left|]; auto|].
    left. reflexivity. }
  assert (Hstart0 : hd_error (chapter_starts chs) = Some 0).
  { destruct (Hhd chs) as [<-|(c & Hc & Hnil)]; [exact Hzero|].
    rewrite List.Forall_forall in Hvalid. destruct (Hvalid c Hc) as [Hx _].
    contradiction. }
  destruct Hshape as [ -> | -> ].
  - rewrite Hstarts in *. split; [exact Hstrict|]. split; [exact Hstart0|].
    intros p _. apply Hmem.
  - apply Forall_cons_iff in Hvalid as [(Hfront & _) _].
    cbn [Chapter.pages Chapter.span] in Hfront.
    assert (Hpos : 0 < first).
    { destruct (Z_lt_le_dec 0 first); [assumption|].
      rewrite py_range_nil in Hfront by assumption. contradiction. }
    assert (Hfirst' : hd_error (map Heading.page hs) = Some first).
    { rewrite <- Hstarts.
      destruct (Hhd (heading_chapters total hs)) as [<-|(c & Hc & Hnil)];
        [exact Hfirst|].
      pose proof (heading_chapters_valid total hs Hb) as Hv.
      rewrite List.Forall_forall in Hv. destruct (Hv c Hc) as [Hx _].
      contradiction. }
    assert (Heq : chapter_starts
                    (Chapter.span front_matter_title (py_range 0 first)
                       :: heading_chapters total hs)
                  = 0 :: map Heading.page hs).
    { cbn [chapter_starts flat_map Chapter.pages Chapter.span].
      fold (chapter_starts (heading_chapters total hs)).
      rewrite (py_range_cons 0 first) by exact Hpos. rewrite Hstarts. reflexivity. }
    rewrite Heq. split; [|split; [reflexivity|]].
    + destruct (map Heading.page hs) as [|x xs] eqn:E; [exact I|].
      simpl in Hfirst'. injection Hfirst' as ->. split; [exact Hpos|exact Hstrict].
    + intros p Hp. rewrite <- Hmem. simpl. split; [intros [H|H]; [lia|exact H]|auto].
Qed.

Lemma heading_pages_start_chapters_witness :
  let title := fun s : string => Block.mk (of_string s) (exact 20) true in
  let pages :=
    [ Page.mk 0 [] 0 false (Some []);
      Page.mk 1 [title "First title"%string] 2 false (Some []);
      Page.mk 2 [title "Second title"%string] 2 false (Some []) ] in
  let analysis := Analysis.mk pages (exact 10) [] 4 in
  let detected :=
    detect_headings (exact 10)
      (fmul (exact 10) (get (Params.heading_threshold initial_params) f_1_3))
      pages in
  exists chapters,
    (structure_spans analysis initial_params).2 = Ok chapters
    /\ strictly_ascending (chapter_starts chapters)
    /\ hd_error (chapter_starts chapters) = Some 0
    /\ forall p, 0 < p ->
         (In p (chapter_starts chapters) <-> In p (map Heading.page detected)).
Proof.
  apply (heading_pages_start_chapters
           (Analysis.mk
              [ Page.mk 0 [] 0 false (Some []);
                Page.mk 1 [Block.mk (of_string "First title") (exact 20) true]
                  2 false (Some []);
                Page.mk 2 [Block.mk (of_string "Second title") (exact 20) true]
                  2 false (Some []) ]
              (exact 10) [] 4)
           initial_params).
  - intros [|[|[|i]]] page_data H; simpl in H;
      try (destruct i; discriminate); injection H as <-; reflexivity.
  - vm_compute. reflexivity.
Defined.

(** * More on the escaping *)

Lemma escape_html_app a b :
  _escape_html (a ++ b) = _escape_html a ++ _escape_html b.
Proof. rewrite !escape_html_flat_map. apply flat_map_app. Qed.

Lemma entity_length c : (1 <= length (entity c))%nat.
Proof.
  unfold entity.
  repeat match goal with |- context [if ?b then _ else _] => destruct b end;
    simpl; lia.
Qed.

Lemma entity_fixed c :
  entity c = [c]
  <-> c <> 0x26%N /\ c <> 0x3c%N /\ c <> 0x3e%N /\ c <> 0x22%N.
Proof.
  unfold entity.
  destruct (N.eqb_spec c 0x26) as [->|H26];
    [split; [discriminate|intros (H & _); contradiction]|].
  destruct (N.eqb_spec c 0x3c) as [->|H3c];
    [split; [discriminate|intros (_ & H & _); contradiction]|].
  destruct (N.eqb_spec c 0x3e) as [->|H3e];
    [split; [discriminate|intros (_ & _ & H & _); contradiction]|].
  destruct (N.eqb_spec c 0x22) as [->|H22];
    [split; [discriminate|intros (_ & _ & _ & H); contradiction]|].
  tauto.
Qed.

Lemma escape_html_length text : (length text <= length (_escape_html text))%nat.
Proof.
  rewrite escape_html_flat_map.
  induction text as [|c r IH]; simpl; [lia|].
  rewrite length_app. pose proof (entity_length c). lia.
Qed.

Lemma escape_html_unescape text : unescape O (_escape_html text) = text.
Proof.
  rewrite escape_html_flat_map.
  induction text as [|c r IH]; [reflexivity|].
  simpl. rewrite unescape_entity, IH. reflexivity.
Qed.

(** X10.  [_escape_html] works character by character: the escaping of a
    concatenation is the concatenation of the escapings, two texts with the
    same escaping are equal, the result is never shorter than the text, and
    it is the text itself exactly when the text holds none of [&], [<],
    [>] and the double quote. *)
Theorem escape_html_characterwise a b :
  _escape_html (a ++ b) = _escape_html a ++ _escape_html b
  /\ (_escape_html a = _escape_html b <-> a = b)
  /\ len a <= len (_escape_html a)
  /\ (_escape_html a = a
      <-> Forall (fun c => c <> 0x26%N /\ c <> 0x3c%N /\ c <> 0x3e%N /\ c <> 0x22%N) a).
Proof.
  split; [apply escape_html_app|]. split; [|split].
  - split; [|intros ->; reflexivity].
    intros H. rewrite <- (escape_html_unescape a), H. apply escape_html_unescape.
  - pose proof (escape_html_length a). unfold len. lia.
  - induction a as [|c r IH].
    + split; [constructor|reflexivity].
    + change (c :: r) with ([c] ++ r) at 1. rewrite escape_html_app.
      assert (Hc : _escape_html [c] = entity c).
      { rewrite escape_html_flat_map. simpl. apply app_nil_r. }
      rewrite Hc. split.
      * intros H.
        assert (Hlen : length (entity c) = 1%nat).
        { apply (f_equal (@length N)) in H. rewrite length_app in H. simpl in H.
          pose proof (escape_html_length r). pose proof (entity_length c). lia. }
        destruct (entity c) as [|x [|y l]] eqn:E; try discriminate.
        simpl in H. injection H as -> Hr.
        constructor; [apply entity_fixed; exact E|apply IH; exact Hr].
      * intros H. apply Forall_cons_iff in H as [Hhead Hr].
        apply entity_fixed in Hhead. rewrite Hhead. simpl. f_equal.
        apply IH, Hr.
Qed.

(** ** Words *)

Lemma split_ws_count s : forall cur,
  len (split_ws cur s)
  = count_runs (match cur with [] => false | _ => true end) s
    + match cur with [] => 0 | _ => 1 end.
Proof.
  unfold len. induction s as [|c r IH]; intros cur; simpl.
  - destruct cur; reflexivity.
  - destruct (isspace c).
    + destruct cur; simpl length; rewrite ?Nat2Z.inj_succ, IH; simpl; lia.
    + rewrite IH. destruct cur; lia.
Qed.

Lemma words_count_runs s : words s = count_runs false s.
Proof. unfold words, split. rewrite split_ws_count. lia. Qed.

Lemma count_runs_space b sp s t :
  isspace sp = true ->
  count_runs b (s ++ sp :: t) = count_runs b s + count_runs false t.
Proof.
  intros Hsp. revert b. induction s as [|c r IH]; intros b; simpl.
  - rewrite Hsp. reflexivity.
  - destruct (isspace c); rewrite IH; lia.
Qed.

Lemma count_runs_entity b c rest :
  count_runs b (entity c ++ rest) = count_runs b (c :: rest).
Proof.
  unfold entity.
  destruct (N.eqb_spec c 0x26) as [->|H26]; [reflexivity|].
  destruct (N.eqb_spec c 0x3c) as [->|H3c]; [reflexivity|].
  destruct (N.eqb_spec c 0x3e) as [->|H3e]; [reflexivity|].
  destruct (N.eqb_spec c 0x22) as [->|H22]; [reflexivity|].
  reflexivity.
Qed.

Lemma count_runs_escape text : forall b rest,
  count_runs b (_escape_html text ++ rest) = count_runs b (text ++ rest).
Proof.
  rewrite escape_html_flat_map.
  induction text as [|c r IH]; intros b rest; [reflexivity|].
  simpl flat_map. rewrite <- app_assoc, count_runs_entity. simpl.
  destruct (isspace c); rewrite IH; reflexivity.
Qed.

(** X11.  Escaping keeps the words: [_escape_html text] splits into as
    many words as [text], so the escaping changes no word count. *)
Theorem escape_html_keeps_words text :
  words (_escape_html text) = words text.
Proof.
  rewrite !words_count_runs.
  rewrite <- (app_nil_r (_escape_html text)), count_runs_escape, app_nil_r.
  reflexivity.
Qed.

(** * The words of the rendered chapters *)

Lemma sub_tags_skip s : forall rest,
  Re.sub_tags (length s) (s ++ rest) = Re.sub_tags O rest.
Proof. induction s as [|c r IH]; intros rest; [reflexivity|]. simpl. apply IH. Qed.

Lemma sub_tags_entity c rest :
  Re.sub_tags O (entity c ++ rest) = entity c ++ Re.sub_tags O rest.
Proof.
  unfold entity.
  destruct (N.eqb_spec c 0x26) as [->|H26]; [reflexivity|].
  destruct (N.eqb_spec c 0x3c) as [->|H3c]; [reflexivity|].
  destruct (N.eqb_spec c 0x3e) as [->|H3e]; [reflexivity|].
  destruct (N.eqb_spec c 0x22) as [->|H22]; [reflexivity|].
  simpl. apply N.eqb_neq in H3c. rewrite H3c. reflexivity.
Qed.

Lemma sub_tags_escape text rest :
  Re.sub_tags O (_escape_html text ++ rest) = _escape_html text ++ Re.sub_tags O rest.
Proof.
  rewrite escape_html_flat_map.
  induction text as [|c r IH]; [reflexivity|].
  simpl flat_map. rewrite <- !app_assoc, sub_tags_entity, IH. reflexivity.
Qed.

Lemma count_runs_pad pad :
  (forall b y, count_runs b (pad ++ y) = count_runs false y) ->
  forall s b y, count_runs b (s ++ pad ++ y) = count_runs b s + count_runs false y.
Proof.
  intros Hpad. induction s as [|c r IH]; intros b y; simpl; [apply Hpad|].
  destruct (isspace c); rewrite IH; lia.
Qed.

Lemma tagged_adds_words open_ close text :
  (forall x, exists pad, Re.sub_tags O (of_string open_ ++ x) = pad ++ Re.sub_tags O x
                         /\ forall b y, count_runs b (pad ++ y) = count_runs false y) ->
  (forall x, exists pad, Re.sub_tags O (of_string close ++ x) = pad ++ Re.sub_tags O x
                         /\ forall b y, count_runs b (pad ++ y) = count_runs false y) ->
  adds_words (tagged open_ text close) (words text).
Proof.
  intros Hopen Hclose b rest. unfold tagged.
  rewrite <- !app_assoc.
  destruct (Hopen (_escape_html text ++ of_string close ++ rest)) as (pad & -> & Hpad).
  rewrite sub_tags_escape.
  destruct (Hclose rest) as (pad' & -> & Hpad').
  rewrite Hpad.
  assert (Hsplit : forall y,
             count_runs false (_escape_html text ++ pad' ++ y)
             = count_runs false (_escape_html text) + count_runs false y).
  { intros y. apply count_runs_pad, Hpad'. }
  rewrite Hsplit. rewrite words_count_runs.
  rewrite <- (app_nil_r (_escape_html text)), count_runs_escape, app_nil_r.
  reflexivity.
Qed.

Ltac one_tag :=
  intros x; exists [0x20%N]; split; [reflexivity|intros; reflexivity].

Ltac two_tags :=
  intros x; exists [0x20%N; 0x20%N]; split; [reflexivity|intros; reflexivity].

Lemma render_block_adds_words body_size block :
  adds_words (render_block body_size block) (words (Block.text block)).
Proof.
  unfold render_block.
  destruct (fge _ _); [apply tagged_adds_words; one_tag|].
  destruct (fge _ _); [apply tagged_adds_words; one_tag|].
  destruct (Block.bold block); apply tagged_adds_words; try one_tag; two_tags.
Qed.

Lemma parts_add_nil : parts_add [] 0.
Proof. exists []. split; [constructor|reflexivity]. Qed.

Lemma parts_add_app p1 n1 p2 n2 :
  parts_add p1 n1 -> parts_add p2 n2 -> parts_add (p1 ++ p2) (n1 + n2).
Proof.
  intros (ns1 & H1 & ->) (ns2 & H2 & ->). exists (ns1 ++ ns2).
  split; [apply Forall2_app; assumption|]. rewrite zsum_app. reflexivity.
Qed.

Lemma parts_add_one part n : adds_words part n -> parts_add [part] n.
Proof.
  intros H. exists [n]. split; [repeat constructor; exact H|]. simpl. lia.
Qed.

Lemma render_blocks_from body_size blocks : forall acc,
  fold_left
    (fun acc block =>
       (acc.1 ++ [render_block body_size block],
        acc.2 + len (split (Block.text block))))
    blocks acc
  = (acc.1 ++ map (render_block body_size) blocks,
     acc.2 + zsum (map (fun b => words (Block.text b)) blocks)).
Proof.
  induction blocks as [|b r IH]; intros [parts n]; simpl.
  - rewrite app_nil_r. f_equal. lia.
  - rewrite IH. simpl. rewrite <- app_assoc. f_equal. unfold words. lia.
Qed.

Lemma render_blocks_words body_size blocks :
  (render_blocks body_size blocks).2
  = zsum (map (fun b => words (Block.text b)) blocks).
Proof. unfold render_blocks. rewrite render_blocks_from. reflexivity. Qed.

Lemma render_blocks_add body_size blocks :
  parts_add (render_blocks body_size blocks).1 (render_blocks body_size blocks).2.
Proof.
  unfold render_blocks. rewrite render_blocks_from.
  cbn [fst snd app]. rewrite Z.add_0_l.
  induction blocks as [|b r IH]; [apply parts_add_nil|].
  cbn [map zsum fold_right].
  apply (parts_add_app [render_block body_size b] _ _ _); [|exact IH].
  apply parts_add_one, render_block_adds_words.
Qed.

Lemma render_ocr_add ocr_text :
  parts_add (render_ocr ocr_text).1 (render_ocr ocr_text).2.
Proof.
  unfold render_ocr.
  generalize (split_on [0xa; 0xa]%N ocr_text). intros paragraphs.
  assert (H : forall acc : list str * Z,
             parts_add acc.1 acc.2 ->
             parts_add
               (fold_left
                  (fun acc p =>
                     let p := strip p in
                     match p with
                     | [] => acc
                     | _ => (acc.1 ++ [tagged "<p>" p "</p>"], acc.2 + len (split p))
                     end) paragraphs acc).1
               (fold_left
                  (fun acc p =>
                     let p := strip p in
                     match p with
                     | [] => acc
                     | _ => (acc.1 ++ [tagged "<p>" p "</p>"], acc.2 + len (split p))
                     end) paragraphs acc).2).
  { induction paragraphs as [|p r IH]; intros acc Hacc; [exact Hacc|].
    simpl. apply IH. destruct (strip p) as [|c s] eqn:E; [exact Hacc|].
    simpl. apply parts_add_app; [exact Hacc|].
    apply parts_add_one. apply tagged_adds_words; one_tag. }
  apply H. apply parts_add_nil.
Qed.

Lemma render_page_add pages ocr_results body_size acc page_num acc' :
  render_page pages ocr_results body_size acc page_num = Ok acc' ->
  parts_add (html_parts acc) (chapter_word_count acc) ->
  parts_add (html_parts acc') (chapter_word_count acc').
Proof.
  unfold render_page. intros H Hacc.
  destruct (len pages <=? page_num); [injection H as <-; exact Hacc|].
  destruct (py_index pages page_num) as [page_data|e]; [|discriminate].
  simpl in H.
  assert (Hparts : forall pw : list str * Z,
             parts_add pw.1 pw.2 ->
             (let '(parts, words) := pw in
              Ok (mk_acc (html_parts acc ++ parts) (chapter_word_count acc + words)
                    (chapter_images acc ++ get (Page.images page_data) [])))
             = Ok acc' ->
             parts_add (html_parts acc') (chapter_word_count acc')).
  { intros [parts n] Hpw Heq. injection Heq as <-. simpl.
    apply parts_add_app; assumption. }
  refine (Hparts _ _ H).
  destruct (Page.is_scanned page_data); [|apply render_blocks_add].
  destruct (ocr_results !! page_num) as [ocr_text|]; [|apply render_blocks_add].
  destruct ocr_text; [apply parts_add_nil|apply render_ocr_add].
Qed.

Lemma render_pages_add pages ocr_results body_size page_nums : forall acc acc',
  render_pages pages ocr_results body_size acc page_nums = Ok acc' ->
  parts_add (html_parts acc) (chapter_word_count acc) ->
  parts_add (html_parts acc') (chapter_word_count acc').
Proof.
  induction page_nums as [|p ps IH]; intros acc acc' H Hacc; simpl in H.
  - injection H as <-. exact Hacc.
  - destruct (render_page pages ocr_results body_size acc p) as [acc1|e] eqn:E;
      [|discriminate].
    simpl in H. apply (IH acc1 acc' H).
    apply (render_page_add _ _ _ _ _ _ E Hacc).
Qed.

Lemma join_words parts ns :
  Forall2 adds_words parts ns ->
  forall b, count_runs b (Re.sub_tags O (join [0xa%N] parts)) = zsum ns.
Proof.
  induction 1 as [|p n ps ns' Hp Hps IH]; intros b; [reflexivity|].
  destruct ps as [|q r].
  - inversion Hps; subst. cbn [join zsum fold_right].
    rewrite <- (app_nil_r p), Hp. reflexivity.
  - change (join [0xa%N] (p :: q :: r)) with (p ++ [0xa%N] ++ join [0xa%N] (q :: r)).
    rewrite Hp. cbn [zsum fold_right]. f_equal.
    change (Re.sub_tags O ([0xa%N] ++ join [0xa%N] (q :: r)))
      with (0xa%N :: Re.sub_tags O (join [0xa%N] (q :: r))).
    change (count_runs false (0xa%N :: Re.sub_tags O (join [0xa%N] (q :: r))))
      with (count_runs false (Re.sub_tags O (join [0xa%N] (q :: r)))).
    apply IH.
Qed.

Lemma build_chapter_words pages ocr_results analysis chapter built :
  build_chapter pages ocr_results analysis chapter = Ok built ->
  exists content n,
    Chapter.content_html built = Some content
    /\ Chapter.word_count built = Some n
    /\ words (Re.strip_tags content) = n.
Proof.
  unfold build_chapter. intros H.
  destruct (render_pages _ _ _ _ _) as [acc|e] eqn:E; [|discriminate].
  simpl in H. injection H as <-. simpl.
  eexists _, _. split; [reflexivity|]. split; [reflexivity|].
  destruct (render_pages_add _ _ _ _ _ _ E parts_add_nil) as (ns & Hns & ->).
  rewrite words_count_runs. apply join_words, Hns.
Qed.

Lemma build_chapter_content_words pages ocr_results analysis spans : forall chapters,
  _build_chapter_content spans pages ocr_results analysis = Ok chapters ->
  Forall (fun c => exists content n,
            Chapter.content_html c = Some content
            /\ Chapter.word_count c = Some n
            /\ words (Re.strip_tags content) = n) chapters.
Proof.
  induction spans as [|s rest IH]; intros chapters H; simpl in H.
  - injection H as <-. constructor.
  - destruct (build_chapter pages ocr_results analysis s) as [built|e] eqn:E;
      [|discriminate].
    simpl in H.
    destruct (_build_chapter_content rest pages ocr_results analysis)
      as [others|e] eqn:E'; [|discriminate].
    simpl in H. injection H as <-.
    constructor; [apply (build_chapter_words _ _ _ _ _ E)|apply IH; reflexivity].
Qed.

(** X12.  The word count stored with a chapter is the word count the
    validation finds in its markup: for every chapter that
    [structure_chapters] returns, removing the tags from [content_html]
    and splitting at white space gives exactly [word_count] words. *)
Theorem chapter_word_count_is_content_words analysis ocr_results params chapters :
  structure_chapters analysis ocr_results params = Ok chapters ->
  Forall (fun c => exists content n,
            Chapter.content_html c = Some content
            /\ Chapter.word_count c = Some n
            /\ words (Re.strip_tags content) = n) chapters.
Proof.
  unfold structure_chapters. intros H.
  destruct (structure_spans analysis params).2 as [spans|e]; [|discriminate].
  simpl in H. apply (build_chapter_content_words _ _ _ _ _ H).
Qed.

Lemma chapter_word_count_is_content_words_witness :
  let block := fun s : string => Block.mk (of_string s) (exact 12) false in
  let analysis :=
    Analysis.mk
      [ Page.mk 0 [block "a < b & c"%string; block "two words"%string] 7 false (Some []) ]
      (exact 12) [] 7 in
  exists chapters,
    structure_chapters analysis ∅ initial_params = Ok chapters
    /\ Forall (fun c => exists content n,
                 Chapter.content_html c = Some content
                 /\ Chapter.word_count c = Some n
                 /\ words (Re.strip_tags content) = n) chapters.
Proof.
  intros block analysis.
  destruct (structure_chapters analysis ∅ initial_params) as [chapters|e] eqn:E;
    [|vm_compute in E; discriminate].
  exists chapters. split; [reflexivity|].
  apply (chapter_word_count_is_content_words analysis ∅ initial_params chapters E).
Defined.

(** ** The words of the chapters and of the source *)

Lemma render_page_plain pages body_size acc page_num page_data :
  0 <= page_num ->
  nth_error pages (Z.to_nat page_num) = Some page_data ->
  exists acc',
    render_page pages ∅ body_size acc page_num = Ok acc'
    /\ chapter_word_count acc'
       = chapter_word_count acc
         + zsum (map (fun b => words (Block.text b)) (Page.blocks page_data)).
Proof.
  intros Hpos Hnth. unfold render_page.
  assert (Hlt : page_num < len pages).
  { assert (Z.to_nat page_num < length pages)%nat
      by (apply nth_error_Some; congruence).
    unfold len. lia. }
  destruct (Z.leb_spec (len pages) page_num) as [|_]; [lia|].
  unfold py_index.
  destruct (Z.ltb_spec page_num 0) as [|_]; [lia|].
  destruct (Z.ltb_spec page_num 0) as [|_]; [lia|].
  rewrite Hnth. cbn [rbind]. rewrite lookup_empty.
  assert (Heq : (if Page.is_scanned page_data
                 then render_blocks body_size (Page.blocks page_data)
                 else render_blocks body_size (Page.blocks page_data))
                = render_blocks body_size (Page.blocks page_data))
    by (destruct (Page.is_scanned page_data); reflexivity).
  rewrite Heq.
  pose proof (render_blocks_words body_size (Page.blocks page_data)) as Hw.
  destruct (render_blocks body_size (Page.blocks page_data)) as [parts n].
  simpl in Hw. subst n. eexists. split; [reflexivity|]. reflexivity.
Qed.

(** The words of the blocks of page [page_num]. *)
Lemma render_pages_plain pages body_size page_nums : forall acc,
  Forall (fun p => 0 <= p < len pages) page_nums ->
  exists acc',
    render_pages pages ∅ body_size acc page_nums = Ok acc'
    /\ chapter_word_count acc'
       = chapter_word_count acc
         + zsum (map (fun p =>
                        match nth_error pages (Z.to_nat p) with
                        | Some page_data =>
                            zsum (map (fun b => words (Block.text b))
                                    (Page.blocks page_data))
                        | None => 0
                        end) page_nums).
Proof.
  induction page_nums as [|p ps IH]; intros acc Hb; simpl.
  - eexists. split; [reflexivity|]. lia.
  - apply Forall_cons_iff in Hb as [Hp Hps].
    destruct (nth_error pages (Z.to_nat p)) as [page_data|] eqn:E.
    + destruct (render_page_plain pages body_size acc p page_data ltac:(lia) E)
        as (acc1 & -> & H1).
      cbn [rbind]. destruct (IH acc1 Hps) as (acc' & -> & H2).
      eexists. split; [reflexivity|]. lia.
    + apply nth_error_None in E. unfold len in Hp. lia.
Qed.

Lemma build_chapter_content_plain pages analysis spans :
  Forall (valid_chapter (len pages)) spans ->
  exists chapters,
    _build_chapter_content spans pages ∅ analysis = Ok chapters
    /\ zsum (map (fun c => get (Chapter.word_count c) 0) chapters)
       = zsum (map (fun p =>
                      match nth_error pages (Z.to_nat p) with
                      | Some page_data =>
                          zsum (map (fun b => words (Block.text b))
                                  (Page.blocks page_data))
                      | None => 0
                      end) (all_pages spans)).
Proof.
  induction spans as [|s rest IH]; intros Hv; simpl.
  - exists []. split; reflexivity.
  - apply Forall_cons_iff in Hv as [(_ & _ & Hs) Hrest].
    unfold build_chapter.
    destruct (render_pages_plain pages (Analysis.body_font_size analysis)
                (Chapter.pages s) (mk_acc [] 0 []) Hs) as (acc & -> & Hacc).
    cbn [rbind]. destruct (IH Hrest) as (others & -> & Hothers).
    cbn [rbind]. eexists. split; [reflexivity|].
    cbn [map zsum fold_right Chapter.word_count get].
    fold (zsum (map (fun c => get (Chapter.word_count c) 0) others)).
    rewrite Hothers, Hacc. rewrite all_pages_cons, map_app, zsum_app.
    simpl. lia.
Qed.

Lemma map_over_indices {A B : Type} (f : option A -> B) (l : list A) :
  map (fun p => f (nth_error l (Z.to_nat p))) (py_range 0 (len l))
  = map (fun x => f (Some x)) l.
Proof.
  unfold py_range, len. rewrite Z.sub_0_r.
  induction l as [|x r IH] using rev_ind; [reflexivity|].
  rewrite length_app. simpl length. rewrite Nat.add_1_r.
  rewrite seqZ_S, !map_app. f_equal.
  - rewrite <- IH. apply map_ext_in. intros p Hp.
    apply list_elem_of_In, elem_of_seqZ in Hp.
    rewrite nth_error_app1 by lia. reflexivity.
  - cbn [map]. f_equal.
    replace (Z.to_nat (0 + Z.of_nat (length r))) with (length r) by lia.
    rewrite nth_error_app2 by lia. rewrite Nat.sub_diag. reflexivity.
Qed.

(** X13.  Without recognised text, no word is lost or counted twice
    between the analysis and the chapters: for every document, with a
    positive chunk size, and with an outline in page order when the outline
    is used, the word counts of the chapters add up to the total word count
    of the analysis. *)
Theorem chapter_words_add_up doc toc params :
  let analysis := analyze_pdf doc toc in
  0 < get (Params.chunk_size params) 15 ->
  ((structure_spans analysis params).1 = EmbeddedToc -> toc_in_page_order toc) ->
  exists chapters,
    structure_chapters analysis ∅ params = Ok chapters
    /\ zsum (map (fun c => get (Chapter.word_count c) 0) chapters)
       = Analysis.total_words analysis.
Proof.
  intros analysis Hchunk Htoc.
  destruct (structure_spans_cover analysis params
              (analyze_pdf_numbered doc toc) Hchunk Htoc)
    as (spans & Hok & Hsound & Hall).
  unfold structure_chapters. rewrite Hok. cbn [rbind].
  destruct (build_chapter_content_plain (Analysis.pages analysis) analysis spans
              (sound_valid _ _ Hsound Hall)) as (chapters & -> & Hsum).
  exists chapters. split; [reflexivity|].
  rewrite Hsum, Hall.
  rewrite (map_over_indices
             (fun o => match o with
                       | Some page_data =>
                           zsum (map (fun b => words (Block.text b))
                                   (Page.blocks page_data))
                       | None => 0
                       end)).
  subst analysis. cbn [Analysis.total_words Analysis.pages analyze_pdf].
  rewrite fold_sum, Z.add_0_l. f_equal.
  rewrite !map_map. apply map_ext. intros [n page].
  symmetry. apply analyze_page_word_count.
Qed.

Lemma chapter_words_add_up_witness :
  let doc :=
    [ RawPage.mk [TextBlock [[Span.mk (of_string "Three short words") (lit 12 1) 0]]] [];
      RawPage.mk [TextBlock [[Span.mk (of_string "and two") (lit 12 1) 0]]] [] ] in
  let analysis := analyze_pdf doc [] in
  exists chapters,
    structure_chapters analysis ∅ initial_params = Ok chapters
    /\ zsum (map (fun c => get (Chapter.word_count c) 0) chapters)
       = Analysis.total_words analysis.
Proof.
  apply (chapter_words_add_up
           [ RawPage.mk [TextBlock [[Span.mk (of_string "Three short words") (lit 12 1) 0]]] [];
             RawPage.mk [TextBlock [[Span.mk (of_string "and two") (lit 12 1) 0]]] [] ]
           [] initial_params).
  - simpl. lia.
  - vm_compute. discriminate.
Defined.

(** * More on the publication *)

Lemma image_refs_from imgs : forall (acc : list str * Z),
  (fold_left
     (fun acc img =>
        let counter := acc.2 + 1 in
        (acc.1 ++ [image_file_name counter (get (Image.ext img) (of_string "png"))],
         counter))
     imgs acc).2
  = acc.2 + len imgs.
Proof.
  induction imgs as [|img r IH]; intros acc; simpl; [unfold len; simpl; lia|].
  rewrite IH. unfold len. simpl length. cbn [snd]. lia.
Qed.

Lemma build_document_cases image_counter chapter :
  match build_document image_counter chapter with
  | Ok doc =>
      Chapter.content_html chapter <> None
      /\ doc.2 = image_counter + len (get (Chapter.images chapter) [])
  | Raise e =>
      e = KeyError "content_html" /\ Chapter.content_html chapter = None
  end.
Proof.
  unfold build_document.
  destruct (Chapter.content_html chapter) as [content|]; [|split; reflexivity].
  split; [discriminate|]. cbn [snd]. apply image_refs_from.
Qed.

Lemma build_documents_cases chapters : forall image_counter,
  match build_documents image_counter chapters with
  | Ok docs =>
      Forall (fun c => Chapter.content_html c <> None) chapters
      /\ len docs.1 = len chapters
      /\ docs.2 = image_counter
                  + zsum (map (fun c => len (get (Chapter.images c) [])) chapters)
  | Raise e =>
      e = KeyError "content_html"
      /\ Exists (fun c => Chapter.content_html c = None) chapters
  end.
Proof.
  induction chapters as [|c cs IH]; intros k.
  - simpl. split; [constructor|]. split; [reflexivity|lia].
  - cbn [build_documents].
    pose proof (build_document_cases k c) as Hdoc.
    destruct (build_document k c) as [doc|e]; cbn [rbind].
    + destruct Hdoc as [Hc Hk]. specialize (IH doc.2).
      destruct (build_documents doc.2 cs) as [docs|e]; cbn [rbind].
      * destruct IH as (Hall & Hlen & Hcount).
        split; [constructor; assumption|].
        split; [unfold len in *; simpl length; lia|].
        cbn [snd map zsum fold_right].
        fold (zsum (map (fun c => len (get (Chapter.images c) [])) cs)). lia.
      * destruct IH as [-> Hex]. split; [reflexivity|]. right. exact Hex.
    + destruct Hdoc as [-> Hnone]. split; [reflexivity|]. left. exact Hnone.
Qed.

(** X14.  [build_epub] builds one document for each chapter, counts
    every image of every chapter and hands the documents to the writer.
    When it returns, every chapter had its [content_html], the writer
    returned, and the pair is the number of chapters and the sum of the
    numbers of their images.  When it raises, either a chapter lacks its
    [content_html] and the exception is [KeyError] on that key, or the
    documents were built and the exception is the one the writer raised
    on them. *)
Theorem build_epub_counts write_epub chapters :
  match build_epub write_epub chapters with
  | Ok (docs, (chapter_count, image_count)) =>
      Forall (fun c => Chapter.content_html c <> None) chapters
      /\ build_documents 0 chapters = Ok (docs, image_count)
      /\ write_epub docs = Ok tt
      /\ len docs = len chapters
      /\ chapter_count = len chapters
      /\ image_count
         = zsum (map (fun c => len (get (Chapter.images c) [])) chapters)
  | Raise e =>
      (e = KeyError "content_html"
       /\ Exists (fun c => Chapter.content_html c = None) chapters)
      \/ (exists docs image_count,
             build_documents 0 chapters = Ok (docs, image_count)
             /\ write_epub docs = Raise e)
  end.
Proof.
  unfold build_epub. pose proof (build_documents_cases chapters 0) as H.
  destruct (build_documents 0 chapters) as [[docs n]|e]; cbn [rbind fst snd] in *.
  - destruct H as (Hall & Hlen & Hn).
    destruct (write_epub docs) as [[]|e] eqn:Ew; cbn [rbind].
    + repeat split; try assumption.
    + right. exists docs, n. split; [reflexivity|exact Ew].
  - left. exact H.
Qed.

(** ** The images *)

Lemma render_page_images pages ocr_results body_size acc page_num page_data :
  0 <= page_num ->
  nth_error pages (Z.to_nat page_num) = Some page_data ->
  exists acc',
    render_page pages ocr_results body_size acc page_num = Ok acc'
    /\ chapter_images acc' = chapter_images acc ++ get (Page.images page_data) [].
Proof.
  intros Hpos Hnth. unfold render_page.
  assert (Hlt : page_num < len pages).
  { assert (Z.to_nat page_num < length pages)%nat
      by (apply nth_error_Some; congruence).
    unfold len. lia. }
  destruct (Z.leb_spec (len pages) page_num) as [|_]; [lia|].
  unfold py_index.
  destruct (Z.ltb_spec page_num 0) as [|_]; [lia|].
  destruct (Z.ltb_spec page_num 0) as [|_]; [lia|].
  rewrite Hnth. cbn [rbind].
  destruct (if Page.is_scanned page_data then _ else _) as [parts n].
  eexists. split; reflexivity.
Qed.

Lemma render_pages_images pages ocr_results body_size page_nums : forall acc,
  Forall (fun p => 0 <= p < len pages) page_nums ->
  exists acc',
    render_pages pages ocr_results body_size acc page_nums = Ok acc'
    /\ chapter_images acc'
       = chapter_images acc
         ++ flat_map (fun p =>
                        match nth_error pages (Z.to_nat p) with
                        | Some page_data => get (Page.images page_data) []
                        | None => []
                        end) page_nums.
Proof.
  induction page_nums as [|p ps IH]; intros acc Hb; simpl.
  - eexists. split; [reflexivity|]. rewrite app_nil_r. reflexivity.
  - apply Forall_cons_iff in Hb as [Hp Hps].
    destruct (nth_error pages (Z.to_nat p)) as [page_data|] eqn:E.
    + destruct (render_page_images pages ocr_results body_size acc p page_data
                  ltac:(lia) E) as (acc1 & -> & H1).
      cbn [rbind]. destruct (IH acc1 Hps) as (acc' & -> & H2).
      eexists. split; [reflexivity|]. rewrite H2, H1, app_assoc. reflexivity.
    + apply nth_error_None in E. unfold len in Hp. lia.
Qed.

Lemma build_chapter_content_images pages ocr_results analysis spans :
  Forall (valid_chapter (len pages)) spans ->
  exists chapters,
    _build_chapter_content spans pages ocr_results analysis = Ok chapters
    /\ Forall (fun c => Chapter.content_html c <> None) chapters
    /\ flat_map (fun c => get (Chapter.images c) []) chapters
       = flat_map (fun p =>
                     match nth_error pages (Z.to_nat p) with
                     | Some page_data => get (Page.images page_data) []
                     | None => []
                     end) (all_pages spans).
Proof.
  induction spans as [|s rest IH]; intros Hv; simpl.
  - exists []. repeat split. constructor.
  - apply Forall_cons_iff in Hv as [(_ & _ & Hs) Hrest].
    unfold build_chapter.
    destruct (render_pages_images pages ocr_results
                (Analysis.body_font_size analysis)
                (Chapter.pages s) (mk_acc [] 0 []) Hs) as (acc & -> & Hacc).
    cbn [rbind]. destruct (IH Hrest) as (others & -> & Hcontent & Hothers).
    cbn [rbind]. eexists. split; [reflexivity|].
    split; [constructor; [discriminate|exact Hcontent]|].
    cbn [flat_map Chapter.images get].
    rewrite Hothers, Hacc. rewrite all_pages_cons, flat_map_app.
    reflexivity.
Qed.

Lemma flat_map_over_indices {A B : Type} (f : option A -> list B) (l : list A) :
  flat_map (fun p => f (nth_error l (Z.to_nat p))) (py_range 0 (len l))
  = flat_map (fun x => f (Some x)) l.
Proof.
  rewrite !flat_map_concat_map.
  rewrite (map_over_indices f l). reflexivity.
Qed.

Lemma zsum_lengths {A B : Type} (f : A -> list B) (l : list A) :
  zsum (map (fun x => len (f x)) l) = len (flat_map f l).
Proof.
  induction l as [|x r IH]; [reflexivity|].
  simpl. rewrite IH. unfold len. rewrite length_app. lia.
Qed.

(** X15.  Every image the analysis kept reaches the writer exactly once:
    for every document and recognised text, with a positive chunk size,
    and with an outline in page order when the outline is used, the
    chapters hold the images of the pages in page order, the documents of
    these chapters are built with an image counter that ends on the number
    of images of the analysis, and [build_epub] raises nothing but what
    the writer raises on these documents; when the writer returns, the
    image count returned is the number of images of the analysis. *)
Theorem every_image_written_once doc toc ocr_results params write_epub :
  let analysis := analyze_pdf doc toc in
  let images :=
    flat_map (fun page_data => get (Page.images page_data) [])
      (Analysis.pages analysis) in
  0 < get (Params.chunk_size params) 15 ->
  ((structure_spans analysis params).1 = EmbeddedToc -> toc_in_page_order toc) ->
  exists chapters docs,
    structure_chapters analysis ocr_results params = Ok chapters
    /\ flat_map (fun c => get (Chapter.images c) []) chapters = images
    /\ build_documents 0 chapters = Ok (docs, len images)
    /\ build_epub write_epub chapters
       = match write_epub docs with
         | Ok _ => Ok (docs, (len chapters, len images))
         | Raise e => Raise e
         end.
Proof.
  intros analysis images Hchunk Htoc.
  destruct (structure_spans_cover analysis params
              (analyze_pdf_numbered doc toc) Hchunk Htoc)
    as (spans & Hok & Hsound & Hall).
  unfold structure_chapters. rewrite Hok. cbn [rbind].
  destruct (build_chapter_content_images (Analysis.pages analysis) ocr_results
              analysis spans (sound_valid _ _ Hsound Hall))
    as (chapters & -> & Hcontent & Himages).
  rewrite Hall in Himages.
  rewrite (flat_map_over_indices
             (fun o => match o with
                       | Some page_data => get (Page.images page_data) []
                       | None => []
                       end)) in Himages.
  fold images in Himages.
  pose proof (build_documents_cases chapters 0) as Hepub.
  destruct (build_documents 0 chapters) as [[docs k]|e] eqn:E;
    cbn [fst snd] in Hepub.
  - destruct Hepub as (_ & Hlen & ->).
    rewrite (zsum_lengths (fun c => get (Chapter.images c) [])), Himages, Z.add_0_l
      in E.
    exists chapters, docs. split; [reflexivity|]. split; [exact Himages|].
    split; [exact E|].
    unfold build_epub. rewrite E. cbn [rbind fst snd].
    rewrite Hlen. destruct (write_epub docs) as [[]|e]; reflexivity.
  - exfalso. destruct Hepub as [_ Hex].
    apply List.Exists_exists in Hex as (c & Hc & Hnone).
    rewrite List.Forall_forall in Hcontent. apply (Hcontent c Hc Hnone).
Qed.

Lemma every_image_written_once_witness :
  let doc :=
    [ RawPage.mk [ImageBlock] [Some ([1%N], of_string "png"); None];
      RawPage.mk [] [Some ([2%N], of_string "jpeg")] ] in
  let write_epub := fun _ : list str => Ok tt in
  let analysis := analyze_pdf doc [] in
  let images :=
    flat_map (fun page_data => get (Page.images page_data) [])
      (Analysis.pages analysis) in
  exists chapters docs,
    structure_chapters analysis ∅ initial_params = Ok chapters
    /\ flat_map (fun c => get (Chapter.images c) []) chapters = images
    /\ build_documents 0 chapters = Ok (docs, len images)
    /\ build_epub write_epub chapters
       = match write_epub docs with
         | Ok _ => Ok (docs, (len chapters, len images))
         | Raise e => Raise e
         end.
Proof.
  apply (every_image_written_once
           [ RawPage.mk [ImageBlock] [Some ([1%N], of_string "png"); None];
             RawPage.mk [] [Some ([2%N], of_string "jpeg")] ]
           [] ∅ initial_params (fun _ : list str => Ok tt)).
  - simpl. lia.
  - vm_compute. discriminate.
Defined.

(** * More on the validation *)

Lemma word_ratio_not_below contents a :
  let q := word_ratio (count_words contents) (Analysis.total_words a) in
  fge q f_0_9 = false -> flt q f_0_9 = true.
Proof.
  intros q H. destruct (flt q f_0_9) eqn:E; [reflexivity|].
  assert (Hq : nonneg q) by apply word_ratio_nonneg, count_words_nonneg.
  assert (H9 : nonneg f_0_9) by reflexivity.
  pose proof (not_flt_fle q f_0_9 Hq H9 E) as Hle.
  unfold fge in H. unfold fle in Hle. rewrite H in Hle. discriminate.
Qed.

(** X16.  The failure mode [minor] is never reported.  The report on a
    publication that was read back either passes, and has no failure mode,
    or fails with [severe_word_loss] or [moderate_word_loss]; so after a
    failed attempt that could be read, [adjust_params] always takes one of
    its two adjusting branches. *)
Theorem minor_never_reported contents a chapter_count image_count :
  let report := validate_epub (ReadItems contents) a chapter_count image_count in
  (Report.passed report = true /\ Report.failure_mode report = None)
  \/ (Report.passed report = false
      /\ (Report.failure_mode report = Some "severe_word_loss"%string
          \/ Report.failure_mode report = Some "moderate_word_loss"%string)).
Proof.
  intros report. subst report. cbn [validate_epub Report.passed Report.failure_mode].
  destruct (fge (word_ratio (count_words contents) (Analysis.total_words a)) f_0_9)
    eqn:E; [left; split; reflexivity|].
  right. split; [reflexivity|]. cbn [negb]. unfold failure_of.
  destruct (flt _ f_0_5); [left; reflexivity|].
  rewrite (word_ratio_not_below contents a E). right. reflexivity.
Qed.

(** * How the conversion ends *)



(** ** The loop on a document with an outline *)





(** * The recognised text *)

Lemma starts_with_app sep s :
  starts_with sep s = true -> exists rest, s = sep ++ rest.
Proof.
  revert s. induction sep as [|p sep IH]; intros s H; [exists s; reflexivity|].
  destruct s as [|c s]; [discriminate|]. simpl in H.
  apply andb_true_iff in H as [Hc Hs]. apply N.eqb_eq in Hc. subst c.
  destruct (IH s Hs) as [rest ->]. exists rest. reflexivity.
Qed.

Lemma split_at_skip sep pre : forall cur s,
  split_at sep (length pre) cur (pre ++ s) = split_at sep O cur s.
Proof.
  induction pre as [|c pre IH]; intros cur s; [reflexivity|].
  simpl. apply IH.
Qed.

Lemma split_at_not_nil sep s : forall skip cur, split_at sep skip cur s <> [].
Proof.
  induction s as [|c r IH]; intros skip cur; simpl; [discriminate|].
  destruct skip; [|apply IH].
  destruct (starts_with sep (c :: r)); [discriminate|apply IH].
Qed.

Lemma join_cons sep p rest :
  rest <> [] -> join sep (p :: rest) = p ++ sep ++ join sep rest.
Proof. destruct rest; [contradiction|reflexivity]. Qed.

(** Cutting a text at a separator and joining the pieces with it gives the
    text back. *)
Lemma join_split_at sep (n : nat) : forall s cur,
  sep <> [] -> (length s <= n)%nat ->
  join sep (split_at sep O cur s) = rev cur ++ s.
Proof.
  induction n as [|n IH]; intros s cur Hsep Hlen.
  - destruct s; [|simpl in Hlen; lia]. simpl. rewrite app_nil_r. reflexivity.
  - destruct s as [|c r]; [simpl; rewrite app_nil_r; reflexivity|].
    cbn [split_at].
    destruct (starts_with sep (c :: r)) eqn:E.
    + apply starts_with_app in E as [rest E].
      destruct sep as [|p sep']; [contradiction|].
      simpl in E. injection E as -> ->.
      cbn [length Nat.pred]. rewrite split_at_skip.
      rewrite join_cons by apply split_at_not_nil.
      rewrite IH; [|discriminate|].
      * simpl. reflexivity.
      * simpl in Hlen. rewrite length_app in Hlen. lia.
    + rewrite IH; [|exact Hsep|simpl in Hlen; lia].
      simpl. rewrite <- app_assoc. reflexivity.
Qed.

Lemma join_split_on sep s : sep <> [] -> join sep (split_on sep s) = s.
Proof.
  intros Hsep. unfold split_on.
  apply (join_split_at sep (length s) s [] Hsep). lia.
Qed.

Lemma count_runs_lstrip s : count_runs false (lstrip s) = count_runs false s.
Proof.
  induction s as [|c r IH]; [reflexivity|]. simpl.
  destruct (isspace c) eqn:E; [exact IH|]. simpl. rewrite E. reflexivity.
Qed.

Lemma lstrip_spaces s :
  exists sp, s = sp ++ lstrip s /\ forallb isspace sp = true.
Proof.
  induction s as [|c r IH]; [exists []; split; reflexivity|].
  simpl. destruct (isspace c) eqn:E.
  - destruct IH as (sp & Hr & Hsp). exists (c :: sp). split.
    + simpl. rewrite <- Hr. reflexivity.
    + simpl. rewrite E. exact Hsp.
  - exists []. split; reflexivity.
Qed.

Lemma count_runs_trailing sp : forall s b,
  forallb isspace sp = true -> count_runs b (s ++ sp) = count_runs b s.
Proof.
  intros s b Hsp. revert b. induction s as [|c r IH]; intros b; simpl.
  - clear -Hsp. revert b. induction sp as [|d sp IH]; intros b; [reflexivity|].
    simpl in *. apply andb_true_iff in Hsp as [Hd Hsp]. rewrite Hd. apply IH, Hsp.
  - destruct (isspace c); rewrite IH; reflexivity.
Qed.

Lemma words_strip s : words (strip s) = words s.
Proof.
  rewrite !words_count_runs. unfold strip, rstrip.
  rewrite <- (count_runs_lstrip s).
  destruct (lstrip_spaces (rev (lstrip s))) as (sp & Hrev & Hsp).
  assert (Hs : lstrip s = rev (lstrip (rev (lstrip s))) ++ rev sp).
  { rewrite <- rev_app_distr, <- Hrev, rev_involutive. reflexivity. }
  rewrite Hs at 2. rewrite count_runs_trailing; [reflexivity|].
  rewrite forallb_forall in *. intros x Hx. apply Hsp, in_rev, Hx.
Qed.

Lemma words_join_paragraphs ps :
  words (join [0xa; 0xa]%N ps) = zsum (map words ps).
Proof.
  induction ps as [|p rest IH]; [reflexivity|].
  destruct rest as [|q r].
  - simpl. lia.
  - rewrite join_cons by discriminate.
    change (zsum (map words (p :: q :: r)))
      with (words p + zsum (map words (q :: r))).
    rewrite <- IH. rewrite !words_count_runs.
    change (p ++ [0xa; 0xa]%N ++ join [0xa; 0xa]%N (q :: r))
      with (p ++ 0xa%N :: 0xa%N :: join [0xa; 0xa]%N (q :: r)).
    rewrite (count_runs_space false 0xa%N) by reflexivity.
    reflexivity.
Qed.

Lemma render_ocr_from paragraphs : forall acc : list str * Z,
  (fold_left
     (fun acc p =>
        let p := strip p in
        match p with
        | [] => acc
        | _ => (acc.1 ++ [tagged "<p>" p "</p>"], acc.2 + len (split p))
        end) paragraphs acc).2
  = acc.2 + zsum (map words paragraphs).
Proof.
  induction paragraphs as [|p r IH]; intros acc; simpl; [lia|].
  rewrite IH. rewrite <- (words_strip p).
  destruct (strip p) as [|c s]; [reflexivity|].
  cbn [snd]. unfold words. lia.
Qed.

(** X19.  Rendering the recognised text of a page keeps its words: the
    word count that [_build_chapter_content] adds for the text, paragraph
    by paragraph and skipping the blank ones, is the word count of the
    whole text, which is what stage 2 added to the total of the source. *)
Theorem render_ocr_keeps_words ocr_text :
  (render_ocr ocr_text).2 = words ocr_text.
Proof.
  unfold render_ocr. rewrite render_ocr_from. cbn [snd].
  rewrite <- words_join_paragraphs, join_split_on by discriminate.
  lia.
Qed.

(** ** Stage 2 *)

Lemma merge_ocr_words_total analysis ocr_results :
  Analysis.total_words (merge_ocr_words analysis ocr_results)
  = Analysis.total_words analysis
    + zsum (map (fun entry => words entry.2) (map_to_list ocr_results)).
Proof.
  unfold merge_ocr_words. cbn [Analysis.total_words].
  rewrite map_fold_foldr.
  induction (map_to_list ocr_results) as [|[k text] l IH]; simpl; [lia|].
  rewrite IH. destruct text; [reflexivity|]. unfold words. lia.
Qed.

(** X20.  Stage 2 only adds words.  It leaves the pages, the body size
    and the outline of the analysis as they are; without scanned pages the
    recognition service is not asked and the analysis is unchanged;
    otherwise the total word count grows by the words of every recognised
    text. *)
Theorem stage_2_adds_words ocr_scanned_pages analysis :
  let ready := stage_2 ocr_scanned_pages analysis in
  Analysis.pages ready.1 = Analysis.pages analysis
  /\ Analysis.body_font_size ready.1 = Analysis.body_font_size analysis
  /\ Analysis.toc ready.1 = Analysis.toc analysis
  /\ Analysis.total_words ready.1
     = Analysis.total_words analysis
       + zsum (map (fun entry => words entry.2) (map_to_list ready.2))
  /\ Analysis.total_words analysis <= Analysis.total_words ready.1
  /\ (scanned_pages analysis = [] -> ready = (analysis, ∅))
  /\ (scanned_pages analysis <> [] ->
      ready.2 = ocr_scanned_pages (scanned_pages analysis)).
Proof.
  intros ready. subst ready. unfold stage_2.
  assert (Hnonneg : forall m : gmap Z str,
             0 <= zsum (map (fun entry => words entry.2) (map_to_list m))).
  { intros m. apply zsum_nonneg. apply List.Forall_forall. intros x Hx.
    apply in_map_iff in Hx as (entry & <- & _). unfold words, len. lia. }
  destruct (scanned_pages analysis) as [|p ps] eqn:E.
  - cbn [fst snd]. rewrite map_to_list_empty. simpl.
    repeat split; try reflexivity; try lia. intros H. contradiction.
  - cbn [fst snd]. rewrite merge_ocr_words_total.
    specialize (Hnonneg (ocr_scanned_pages (p :: ps))).
    repeat split; try reflexivity; try lia. intros H. discriminate.
Qed.

(** * The markup of the chapters *)










